(** * Content Risk Analysis Engine of the grant-vetting tool

    A shallow embedding of [analyzers/keywords.py], [analyzers/guidelines.py]
    and [data/regime_classifications.py], with the properties of the
    engine stated and proved over it.

    Python values are represented as follows.
    - [str] is a list of Unicode code points ([N]); [py "abc"] is the
      literal of an ASCII string.
    - [int] is [Z].
    - a [dict] is an association list in insertion order.
    - a list object that is shared and changed in place is a reference
      into a [store].
    - a raised exception is the [Raise] outcome of the [outcome] monad. *)

From Stdlib Require Import String Ascii List NArith ZArith Bool Lia DecimalString.
Import ListNotations.

Set Implicit Arguments.

(* ================================================================= *)
(** * Python strings *)

Definition str := list N.

Definition py (s : string) : str :=
  map N_of_ascii (list_ascii_of_string s).
Arguments py s%_string.

Fixpoint str_eqb (a b : str) : bool :=
  match a, b with
  | [], [] => true
  | x :: a', y :: b' => N.eqb x y && str_eqb a' b'
  | _, _ => false
  end.

(** [len(s)] *)
Definition len (s : str) : Z := Z.of_nat (List.length s).

(** Index normalisation of a slice bound, as [PySlice_AdjustIndices] does
    it for step 1: a negative bound counts from the end, and every bound
    is clamped to [0 .. len]. *)
Definition adjust_index (n i : Z) : Z :=
  if (i <? 0)%Z then Z.max 0 (i + n) else Z.min i n.

(** [s[a:b]] *)
Definition py_slice (s : str) (a b : Z) : str :=
  let a' := adjust_index (len s) a in
  let b' := adjust_index (len s) b in
  firstn (Z.to_nat (b' - a')) (skipn (Z.to_nat a') s).

(** [x in l] for a list of strings *)
Definition str_in (x : str) (l : list str) : bool :=
  existsb (str_eqb x) l.

(** [d.get(k, default)] on a dict with string keys *)
Fixpoint dict_get {V : Type} (d : list (str * V)) (k : str) (default : V) : V :=
  match d with
  | [] => default
  | (k', v) :: d' => if str_eqb k k' then v else dict_get d' k default
  end.

(** [sum(l)]: the built-in adds from the left, starting at 0. *)
Definition py_sum (l : list Z) : Z := fold_left Z.add l 0%Z.

(* ================================================================= *)
(** * Data model ([guidelines.py], [keywords.py]) *)

Record KeywordMatch := mkKeywordMatch {
  km_keyword : str;
  km_category : str;
  km_severity : str;
  km_context : str;
  km_position : Z
}.

Record ContentFlag := mkContentFlag {
  category : str;
  severity : str;
  title : str;
  description : str;
  evidence_snippet : option str;
  matched_keywords : list str;
  guideline_reference : option str;
  content_source : option str;
  content_url : option str;
  published_at : option str
}.

Record AnalysisResult := mkAnalysisResult {
  applicant_id : option Z;
  total_content_items : Z;
  flags : list ContentFlag;
  risk_score : Z;
  risk_level : str;
  recommendation : str;
  analyzed_at : Z;
  summary : str
}.


(** [sep.join(parts)] *)
Fixpoint str_join (sep : str) (parts : list str) : str :=
  match parts with
  | [] => []
  | [p] => p
  | p :: rest => p ++ sep ++ str_join sep rest
  end.

(** [s.replace(old, new)] for a one-character [old] *)
Definition str_replace_char (old : N) (new : str) (s : str) : str :=
  flat_map (fun c => if N.eqb c old then new else [c]) s.

(** [str(n)] of an [int] *)
Definition py_repr_int (n : Z) : str :=
  py (DecimalString.NilZero.string_of_int (Z.to_int n)).

(** Whitespace in the sense of [str.isspace], [str.strip] and the
    pattern [\s] of a str pattern. *)
Definition chr_isspace (c : N) : bool :=
  ((9 <=? c) && (c <=? 13) || (28 <=? c) && (c <=? 32)
   || (c =? 133) || (c =? 160) || (c =? 5760)
   || (8192 <=? c) && (c <=? 8202)
   || (c =? 8232) || (c =? 8233) || (c =? 8239) || (c =? 8287)
   || (c =? 12288))%N.

Fixpoint lstrip (s : str) : str :=
  match s with
  | c :: s' => if chr_isspace c then lstrip s' else s
  | [] => []
  end.

(** [s.strip()] *)
Definition py_strip (s : str) : str := rev (lstrip (rev (lstrip s))).

(* ================================================================= *)
(** * Exceptions *)

(** The exceptions that occur in the engine. [re.error] is the one that
    [analyze_text] handles; [re.finditer] can raise others on a pattern
    string ([OverflowError] for a repeat count that is too large,
    [ValueError] for incompatible flags, [RecursionError] for a pattern
    nested too deep), and [other_exception] stands for an exception of
    any other class, given by its name. [ValueError] is also what [max]
    raises on an empty sequence. [NotImplementedError] is raised by the
    regular expression runtime of the examples on syntax that it does
    not implement. *)
Inductive exn :=
| re_error
| ValueError
| OverflowError
| RecursionError
| NotImplementedError
| other_exception (name : str).

Inductive outcome (A : Type) : Type :=
| Ret (a : A)
| Raise (e : exn).
Arguments Ret {A} a.
Arguments Raise {A} e.

Definition bind {A B : Type} (m : outcome A) (f : A -> outcome B) : outcome B :=
  match m with
  | Ret a => f a
  | Raise e => Raise e
  end.

(** [try: body except handled: handler] *)
Definition try_except {A : Type} (body : outcome A) (handled : exn -> bool)
    (handler : outcome A) : outcome A :=
  match body with
  | Ret a => Ret a
  | Raise e => if handled e then handler else Raise e
  end.

Declare Scope outcome_scope.
Delimit Scope outcome_scope with outcome.
Notation "x <- m ;; k" := (bind m (fun x => k))
  (at level 61, m at next level, right associativity) : outcome_scope.

(** A [for] loop over a list whose body may raise: the state is threaded
    through the iterations and the first exception aborts the loop. *)
Fixpoint for_each {A S : Type} (l : list A) (body : S -> A -> outcome S) (s : S)
    : outcome S :=
  match l with
  | [] => Ret s
  | x :: l' => bind (body s x) (for_each l' body)
  end.
(* ================================================================= *)
(** * Regime classification table ([data/regime_classifications.py]) *)

Definition AMERICAS_DEMOCRATIC : list str :=
  [ py "Argentina"; py "Belize"; py "Brazil"; py "Canada"; py "Chile";
    py "Colombia"; py "Costa Rica"; py "Dominican Republic"; py "Ecuador";
    py "Guatemala"; py "Guyana"; py "Jamaica"; py "Mexico"; py "Panama";
    py "Paraguay"; py "Peru"; py "Suriname"; py "United States of America";
    py "United States"; py "USA"; py "Uruguay"; py "Saint Kitts and Nevis";
    py "Dominica"; py "Antigua and Barbuda";
    py "Saint Vincent and the Grenadines"; py "Grenada"; py "St Lucia";
    py "Saint Lucia"; py "Barbados"; py "Bahamas"; py "Trinidad and Tobago" ].

Definition AMERICAS_HYBRID_AUTHORITARIAN : list str :=
  [ py "Bolivia"; py "El Salvador"; py "Honduras" ].

Definition AMERICAS_FULLY_AUTHORITARIAN : list str :=
  [ py "Cuba"; py "Nicaragua"; py "Venezuela" ].

Definition AMERICAS_UNCLASSIFIED : list str :=
  [ py "Haiti" ].

Definition MENA_DEMOCRATIC : list str :=
  [ py "Israel" ].

Definition MENA_HYBRID_AUTHORITARIAN : list str :=
  [ py "Iraq"; py "Lebanon" ].

Definition MENA_FULLY_AUTHORITARIAN : list str :=
  [ py "Algeria"; py "Bahrain"; py "Egypt"; py "Iran"; py "Jordan";
    py "Kuwait"; py "Libya"; py "Morocco"; py "Oman"; py "Qatar";
    py "Saudi Arabia"; py "Syria"; py "Tunisia"; py "United Arab Emirates";
    py "UAE"; py "Yemen" ].

Definition EUROPE_DEMOCRATIC : list str :=
  [ py "Albania"; py "Armenia"; py "Austria"; py "Belgium";
    py "Bosnia and Herzegovina"; py "Bulgaria"; py "Croatia";
    py "Czech Republic"; py "Czechia"; py "Cyprus"; py "Denmark";
    py "Estonia"; py "Finland"; py "France"; py "Germany"; py "Greece";
    py "Iceland"; py "Ireland"; py "Italy"; py "Latvia"; py "Lithuania";
    py "Luxembourg"; py "Moldova"; py "Montenegro"; py "Kosovo";
    py "North Macedonia"; py "Netherlands"; py "Norway"; py "Poland";
    py "Portugal"; py "Romania"; py "Sweden"; py "Switzerland";
    py "Slovakia"; py "Slovenia"; py "Spain"; py "Ukraine";
    py "United Kingdom"; py "UK"; py "Britain"; py "Great Britain";
    py "San Marino"; py "Monaco"; py "Liechtenstein"; py "Andorra";
    py "Malta" ].

Definition EUROPE_HYBRID_AUTHORITARIAN : list str :=
  [ py "Georgia"; py "Hungary"; py "Serbia" ].

Definition EUROPE_FULLY_AUTHORITARIAN : list str :=
  [ py "Azerbaijan"; py "Belarus"; py "Kazakhstan"; py "Russia";
    py "Russian Federation"; py "Tajikistan"; py "Turkmenistan";
    py "Turkey"; py "Uzbekistan"; py "Kyrgyzstan" ].

Definition ASIA_PACIFIC_DEMOCRATIC : list str :=
  [ py "Australia"; py "Bhutan"; py "Japan"; py "Mongolia"; py "Nepal";
    py "New Zealand"; py "Papua New Guinea"; py "South Korea";
    py "Republic of Korea"; py "Taiwan"; py "Timor-Leste"; py "East Timor";
    py "Sri Lanka"; py "Micronesia"; py "Tuvalu"; py "Nauru"; py "Palau";
    py "Marshall Islands"; py "Tonga"; py "Kiribati"; py "Samoa";
    py "Vanuatu"; py "Solomon Islands" ].

Definition ASIA_PACIFIC_HYBRID_AUTHORITARIAN : list str :=
  [ py "Bangladesh"; py "Fiji"; py "India"; py "Malaysia"; py "Maldives";
    py "Pakistan"; py "Philippines"; py "Singapore"; py "Thailand";
    py "Indonesia" ].

Definition ASIA_PACIFIC_FULLY_AUTHORITARIAN : list str :=
  [ py "Afghanistan"; py "Brunei"; py "Burma"; py "Myanmar"; py "Cambodia";
    py "China"; py "PRC"; py "People's Republic of China"; py "Laos";
    py "North Korea"; py "DPRK"; py "Democratic People's Republic of Korea";
    py "Vietnam" ].

Definition AFRICA_DEMOCRATIC : list str :=
  [ py "Botswana"; py "Ghana"; py "Lesotho"; py "Liberia"; py "Namibia";
    py "South Africa"; py "Cape Verde"; py "Cabo Verde"; py "Mauritius";
    py "Sao Tome and Principe"; py "Seychelles" ].

Definition AFRICA_HYBRID_AUTHORITARIAN : list str :=
  [ py "Benin"; (py "C" ++ [244%N] ++ py "te d'Ivoire"); py "Cote d'Ivoire";
    py "Ivory Coast"; py "The Gambia"; py "Gambia"; py "Kenya";
    py "Madagascar"; py "Malawi"; py "Senegal"; py "Sierra Leone";
    py "Togo"; py "Zambia" ].

Definition AFRICA_FULLY_AUTHORITARIAN : list str :=
  [ py "Angola"; py "Burundi"; py "Burkina Faso"; py "Cameroon";
    py "Central African Republic"; py "CAR"; py "Chad"; py "Comoros";
    py "Democratic Republic of Congo"; py "DRC"; py "DR Congo";
    py "Congo-Kinshasa"; py "Djibouti"; py "Equatorial Guinea";
    py "Eritrea"; py "Ethiopia"; py "Gabon"; py "Guinea";
    py "Guinea-Bissau"; py "Mali"; py "Mauritania"; py "Mozambique";
    py "Niger"; py "Nigeria"; py "Republic of Congo";
    py "Congo-Brazzaville"; py "Rwanda"; py "Somalia"; py "South Sudan";
    py "Sudan"; py "Swaziland"; py "Eswatini"; py "Uganda"; py "Tanzania";
    py "Zimbabwe" ].

Definition ALL_DEMOCRATIC : list str :=
  AMERICAS_DEMOCRATIC
  ++ MENA_DEMOCRATIC
  ++ EUROPE_DEMOCRATIC
  ++ ASIA_PACIFIC_DEMOCRATIC
  ++ AFRICA_DEMOCRATIC.

Definition ALL_HYBRID_AUTHORITARIAN : list str :=
  AMERICAS_HYBRID_AUTHORITARIAN
  ++ MENA_HYBRID_AUTHORITARIAN
  ++ EUROPE_HYBRID_AUTHORITARIAN
  ++ ASIA_PACIFIC_HYBRID_AUTHORITARIAN
  ++ AFRICA_HYBRID_AUTHORITARIAN.

Definition ALL_FULLY_AUTHORITARIAN : list str :=
  AMERICAS_FULLY_AUTHORITARIAN
  ++ MENA_FULLY_AUTHORITARIAN
  ++ EUROPE_FULLY_AUTHORITARIAN
  ++ ASIA_PACIFIC_FULLY_AUTHORITARIAN
  ++ AFRICA_FULLY_AUTHORITARIAN.

Definition ALL_AUTHORITARIAN : list str :=
  ALL_HYBRID_AUTHORITARIAN
  ++ ALL_FULLY_AUTHORITARIAN.

Definition ALL_UNCLASSIFIED : list str :=
  AMERICAS_UNCLASSIFIED.

Definition KNOWN_AUTHORITARIAN_LEADERS : list str :=
  [ py "Xi Jinping"; py "Kim Jong Un"; py "Kim Jong-un";
    py "Vladimir Putin"; py "Putin"; py "Alexander Lukashenko";
    py "Lukashenko"; py "Bashar al-Assad"; py "Assad";
    (py "Nicol" ++ [225%N] ++ py "s Maduro"); py "Nicolas Maduro";
    py "Maduro"; py "Daniel Ortega"; py "Ortega";
    (py "Miguel D" ++ [237%N] ++ py "az-Canel");
    (py "D" ++ [237%N] ++ py "az-Canel"); py "Diaz-Canel";
    py "Ayatollah Khamenei"; py "Khamenei"; py "Mohammed bin Salman";
    py "MBS"; py "Abdel Fattah el-Sisi"; py "el-Sisi"; py "Sisi";
    py "Ilham Aliyev"; py "Aliyev"; py "Gurbanguly Berdimuhamedow";
    py "Serdar Berdimuhamedow"; py "Emomali Rahmon"; py "Islam Karimov";
    py "Shavkat Mirziyoyev"; py "Hun Sen"; py "Hun Manet";
    (py "Recep Tayyip Erdo" ++ [287%N] ++ py "an"); py "Erdogan";
    py "Paul Kagame"; py "Kagame"; py "Yoweri Museveni"; py "Museveni";
    py "Isaias Afwerki"; py "Teodoro Obiang"; py "Obiang"; py "Stalin";
    py "Joseph Stalin"; py "Mao Zedong"; py "Mao Tse-tung"; py "Mao";
    py "Adolf Hitler"; py "Hitler"; py "Pol Pot"; py "Fidel Castro";
    py "Castro"; py "Muammar Gaddafi"; py "Gaddafi"; py "Qaddafi";
    py "Saddam Hussein"; py "Saddam"; py "Robert Mugabe"; py "Mugabe";
    py "Idi Amin"; py "Pinochet"; py "Augusto Pinochet";
    py "Francisco Franco"; py "Franco"; py "Benito Mussolini";
    py "Mussolini"; py "Kim Il-sung"; py "Kim Jong-il";
    (py "Hugo Ch" ++ [225%N] ++ py "vez"); py "Hugo Chavez"; py "Chavez" ].

Definition AUTHORITARIAN_ENTITIES : list str :=
  [ py "Chinese Communist Party"; py "CCP"; py "CPC";
    py "Communist Party of China"; py "United Russia"; py "Kremlin";
    py "FSB"; py "KGB"; py "IRGC"; py "Islamic Revolutionary Guard Corps";
    py "Hezbollah"; py "Hamas"; py "Wagner Group"; py "Colectivos";
    py "Basij" ].


Record RegimeClassification := mkRegimeClassification {
  classification : str;
  region : str;
  is_authoritarian : bool
}.

Definition _get_region (country classification_type : str) : str :=
  if str_eqb classification_type (py "democratic") then
    if str_in country AMERICAS_DEMOCRATIC then py "americas"
    else if str_in country MENA_DEMOCRATIC then py "middle_east_north_africa"
    else if str_in country EUROPE_DEMOCRATIC then py "europe_central_asia"
    else if str_in country ASIA_PACIFIC_DEMOCRATIC then py "asia_pacific"
    else if str_in country AFRICA_DEMOCRATIC then py "africa"
    else py "unknown"
  else if str_eqb classification_type (py "hybrid") then
    if str_in country AMERICAS_HYBRID_AUTHORITARIAN then py "americas"
    else if str_in country MENA_HYBRID_AUTHORITARIAN then py "middle_east_north_africa"
    else if str_in country EUROPE_HYBRID_AUTHORITARIAN then py "europe_central_asia"
    else if str_in country ASIA_PACIFIC_HYBRID_AUTHORITARIAN then py "asia_pacific"
    else if str_in country AFRICA_HYBRID_AUTHORITARIAN then py "africa"
    else py "unknown"
  else if str_eqb classification_type (py "authoritarian") then
    if str_in country AMERICAS_FULLY_AUTHORITARIAN then py "americas"
    else if str_in country MENA_FULLY_AUTHORITARIAN then py "middle_east_north_africa"
    else if str_in country EUROPE_FULLY_AUTHORITARIAN then py "europe_central_asia"
    else if str_in country ASIA_PACIFIC_FULLY_AUTHORITARIAN then py "asia_pacific"
    else if str_in country AFRICA_FULLY_AUTHORITARIAN then py "africa"
    else py "unknown"
  else py "unknown".

Definition get_regime_classification (country : str) : RegimeClassification :=
  let country_normalized := py_strip country in
  if str_in country_normalized ALL_DEMOCRATIC then
    mkRegimeClassification (py "democratic")
      (_get_region country_normalized (py "democratic")) false
  else if str_in country_normalized ALL_HYBRID_AUTHORITARIAN then
    mkRegimeClassification (py "hybrid_authoritarian")
      (_get_region country_normalized (py "hybrid")) true
  else if str_in country_normalized ALL_FULLY_AUTHORITARIAN then
    mkRegimeClassification (py "fully_authoritarian")
      (_get_region country_normalized (py "authoritarian")) true
  else if str_in country_normalized ALL_UNCLASSIFIED then
    mkRegimeClassification (py "unclassified") (py "americas") false
  else
    mkRegimeClassification (py "unknown") (py "unknown") false.

Definition is_authoritarian_regime (country : str) : bool :=
  is_authoritarian (get_regime_classification country).

Definition is_fully_authoritarian (country : str) : bool :=
  str_in (py_strip country) ALL_FULLY_AUTHORITARIAN.

Definition is_hybrid_authoritarian (country : str) : bool :=
  str_in (py_strip country) ALL_HYBRID_AUTHORITARIAN.

(* ================================================================= *)
(** * Regular expressions ([re])

    The patterns of the engine are matched by Python's backtracking
    matcher.  [regex] is the syntax tree of the pattern language the
    built-in database is written in: literals, [.], [\s], [\w], [\b],
    groups, alternation and the greedy quantifiers [?], [*] and [+].
    [rmatch] follows the matcher: alternatives are tried in order, a
    quantifier first takes as many iterations as it can, and the first
    way to reach the end of the pattern wins.  The continuation [k] is the
    rest of the pattern. *)

Inductive regex : Type :=
| REps
| RChar (c : N)
| RAny
| RSpace
| RWord
| RWordB
| RSeq (r1 r2 : regex)
| RAlt (r1 r2 : regex)
| RGroup (r : regex)
| ROpt (r : regex)
| RStar (r : regex)
| RPlus (r : regex).

(** The pattern [re.escape(s)]: [s] taken literally. *)
Definition RLit (s : str) : regex :=
  fold_right (fun c r => RSeq (RChar c) r) REps s.

(** One more round of a greedy loop: after a round that consumed
    something the loop goes on, after an empty round the rest of the
    pattern follows; when no round leads to a match the rest of the
    pattern is tried from the current position. *)
Fixpoint star_loop (step : nat -> (nat -> option nat) -> option nat)
    (k : nat -> option nat) (fuel i : nat) : option nat :=
  match fuel with
  | O => k i
  | S fuel' =>
      match step i (fun j => if Nat.ltb i j then star_loop step k fuel' j else k j) with
      | Some e => Some e
      | None => k i
      end
  end.

Section Matcher.
(** [isalnum]: the alphanumeric code points; [ceq p c]: whether the
    pattern character [p] matches the text character [c] (equality, or
    equality up to case under [re.IGNORECASE]); [t]: the text. *)
Variable isalnum : N -> bool.
Variable ceq : N -> N -> bool.
Variable t : str.

Definition is_word (c : N) : bool := isalnum c || N.eqb c 95.

Definition word_at (i : nat) : bool :=
  match nth_error t i with
  | Some c => is_word c
  | None => false
  end.

(** [\b]: exactly one of the characters before and at position [i] is a
    word character; outside the text there is none. *)
Definition at_boundary (i : nat) : bool :=
  xorb (match i with O => false | S j => word_at j end) (word_at i).

Definition match_char (p : N -> bool) (i : nat) (k : nat -> option nat)
    : option nat :=
  match nth_error t i with
  | Some c => if p c then k (S i) else None
  | None => None
  end.

Fixpoint rmatch (r : regex) (i : nat) (k : nat -> option nat) : option nat :=
  match r with
  | REps => k i
  | RChar c => match_char (ceq c) i k
  | RAny => match_char (fun c => negb (N.eqb c 10)) i k
  | RSpace => match_char chr_isspace i k
  | RWord => match_char is_word i k
  | RWordB => if at_boundary i then k i else None
  | RSeq r1 r2 => rmatch r1 i (fun j => rmatch r2 j k)
  | RAlt r1 r2 =>
      match rmatch r1 i k with
      | Some e => Some e
      | None => rmatch r2 i k
      end
  | RGroup r1 => rmatch r1 i k
  | ROpt r1 =>
      match rmatch r1 i k with
      | Some e => Some e
      | None => k i
      end
  | RStar r1 => star_loop (rmatch r1) k (S (List.length t - i)) i
  | RPlus r1 =>
      rmatch r1 i (fun j => star_loop (rmatch r1) k (S (List.length t - j)) j)
  end.

Variable r : regex.

(** The leftmost match starting at [i] or later, trying [n] start
    positions.  With [must_advance] the attempt at [i] itself has to
    consume something: that is how the scan goes on after an empty
    match. *)
Fixpoint search_from (n i : nat) (must_advance : bool) : option (nat * nat) :=
  match n with
  | O => None
  | S n' =>
      match rmatch r i (fun e => if must_advance && Nat.eqb e i then None else Some e) with
      | Some e => Some (i, e)
      | None => search_from n' (S i) false
      end
  end.

Definition search (i : nat) (must_advance : bool) : option (nat * nat) :=
  search_from (S (List.length t - i)) i must_advance.

(** The spans of [re.finditer]: non-overlapping, left to right; each
    scan resumes where the previous match ended.  A position ends at
    most two matches (a non-empty one, then an empty one), which bounds
    the number of rounds. *)
Fixpoint finditer_from (fuel i : nat) (must_advance : bool) : list (nat * nat) :=
  match fuel with
  | O => []
  | S fuel' =>
      match search i must_advance with
      | None => []
      | Some (s, e) => (s, e) :: finditer_from fuel' e (Nat.eqb e s)
      end
  end.

Definition finditer : list (nat * nat) :=
  finditer_from (2 * List.length t + 3) 0 false.
End Matcher.

Definition span : Type := (Z * Z)%type.

Definition span_of_nat (p : nat * nat) : span :=
  (Z.of_nat (fst p), Z.of_nat (snd p)).

(* ================================================================= *)
(** * Pattern detector ([KeywordAnalyzer], [analyzers/keywords.py]) *)

(** [re.escape]: a backslash before each special character. *)
Definition re_special : list N :=
  [40; 41; 91; 93; 123; 125; 63; 42; 43; 45; 124; 94; 36; 92; 46; 38; 126;
   35; 32; 9; 10; 13; 11; 12]%N.

Definition re_escape (s : str) : str :=
  flat_map (fun c => if existsb (N.eqb c) re_special then [92%N; c] else [c]) s.

(** The contents of [self.keywords]: category -> list of (pattern, severity) *)
Definition keyword_db : Type := list (str * list (str * str)).

(** [d[k]] as an option, [None] when [k not in d] *)
Fixpoint dict_lookup {V : Type} (d : list (str * V)) (k : str) : option V :=
  match d with
  | [] => None
  | (k', v) :: d' => if str_eqb k k' then Some v else dict_lookup d' k
  end.

(** [d[k] = v]: an existing key keeps its place, a new key goes last. *)
Fixpoint dict_set {V : Type} (d : list (str * V)) (k : str) (v : V)
    : list (str * V) :=
  match d with
  | [] => [(k, v)]
  | (k', v') :: d' =>
      if str_eqb k k' then (k', v) :: d' else (k', v') :: dict_set d' k v
  end.

Definition _build_keyword_database : keyword_db :=
  [
    (py "violence_advocacy",
     [ (py "\b(kill|murder|assassinate|execute)\s+(the\s+)?(government|president|leader|politician)",
       py "critical");
      (py "\bviolent\s+(revolution|uprising|overthrow)\b",
       py "high");
      (py "\b(armed|violent)\s+resistance\b",
       py "high");
      (py "\btake\s+up\s+arms\b",
       py "high");
      (py "\bblood\s+(must|will|shall)\s+(flow|be\s+spilled)\b",
       py "high");
      (py "\bonly\s+(violence|war)\s+(can|will)\s+solve\b",
       py "high");
      (py "\bpeaceful\s+protest\s+(is\s+)?useless\b",
       py "medium");
      (py "\b(support|celebrate)\s+(terrorism|terrorist)\b",
       py "critical");
      (py "\bby\s+any\s+means\s+necessary\b",
       py "medium");
      (py "\btime\s+for\s+action\b",
       py "low") ]);

    (py "hate_speech",
     [ (py "\b(subhuman|untermensch)\b",
       py "critical");
      (py "\bethnic\s+cleansing\b",
       py "critical");
      (py "\b(racial|white|black|jewish|muslim)\s+supremacy\b",
       py "critical");
      (py "\b(homosexuality|being\s+gay)\s+(is\s+)?(a\s+)?(sin|disease|mental\s+illness|abomination)\b",
       py "high");
      (py "\b(gay|lgbt)\s+agenda\b",
       py "medium");
      (py "\banti-(gay|lgbt|homosexual)\b",
       py "medium");
      (py "\b(immigrants?|refugees?|migrants?)\s+(are\s+)?(all\s+)?(criminals?|terrorists?|invaders?)\b",
       py "high");
      (py "\bclose\s+the\s+borders?\b",
       py "low");
      (py "\b(invasion|great\s+replacement)\b",
       py "medium");
      (py "\b(ban|outlaw)\s+(islam|muslims?|christianity|christians?|judaism|jews?)\b",
       py "high");
      (py "\b(all\s+)?(muslims?|jews?|christians?)\s+(are\s+)?(terrorists?|evil)\b",
       py "critical");
      (py "\b(death\s+to|kill\s+all)\s+\w+\b",
       py "critical") ]);

    (py "regime_praise",
     [ (py "\b(great|strong|effective|successful)\s+(leader|leadership)\b.*("
         ++ str_join (py "|") (map re_escape (firstn 20 KNOWN_AUTHORITARIAN_LEADERS))
         ++ py ")",
       py "high");
      (py "\b("
         ++ str_join (py "|") (map re_escape (firstn 20 KNOWN_AUTHORITARIAN_LEADERS))
         ++ py ")\s+(is|was)\s+(right|correct|great|visionary)\b",
       py "high");
      (py "\b(china|russia|iran|cuba|venezuela|north\s+korea)\s+(is\s+)?(actually|not\s+that)\s+(democratic|free|good)\b",
       py "high");
      (py "\bwestern\s+(propaganda|lies)\s+about\s+(china|russia|iran)\b",
       py "medium");
      (py "\b(ccp|chinese\s+communist\s+party)\s+(is\s+)?(effective|good|successful)\b",
       py "high") ]);

    (py "democracy_criticism",
     [ (py "\b(us|usa|america|west|europe)\s+(is\s+)?(just\s+as\s+bad|no\s+better|worse\s+than)\s+(china|russia|iran)\b",
       py "high");
      (py "\bdemocracy\s+(is\s+)?(a\s+)?(lie|illusion|facade|sham)\b",
       py "medium");
      (py "\b(western|american)\s+(democracy|freedom)\s+(is\s+)?(fake|false|hypocrisy)\b",
       py "medium");
      (py "\bso-called\s+(free|democratic)\s+(world|countries)\b",
       py "medium");
      (py "\bdemocracy\s+(doesn\'t|does\s+not)\s+work\b",
       py "medium");
      (py "\bauthoritarian\s+(systems?|regimes?)\s+(are\s+)?(more\s+)?(efficient|effective)\b",
       py "high") ]);

    (py "despot_admiration",
     [ (py "\b(hitler|stalin|mao|pol\s+pot)\s+(was\s+)?(right|correct|misunderstood)\b",
       py "critical");
      (py "\b(admire|respect|support)\s+(hitler|stalin|mao|pol\s+pot|mussolini|franco)\b",
       py "critical");
      (py "\b(hitler|stalin|mao)\s+did\s+(some\s+)?(good|nothing\s+wrong)\b",
       py "critical") ]
    ++ map (fun leader =>
      (py "\b(admire|respect|support)\s+" ++ re_escape leader ++ py "\b",
       py "high"))
      (firstn 30 KNOWN_AUTHORITARIAN_LEADERS));

    (py "financial_dealings",
     [ (py "\b(business|deal|contract|investment)\s+(with|in)\s+(russia|china|iran|north\s+korea|venezuela|cuba|syria)\b",
       py "medium");
      (py "\b(partnership|collaboration)\s+(with|for)\s+("
         ++ str_join (py "|") (map re_escape (AUTHORITARIAN_ENTITIES))
         ++ py ")",
       py "high");
      (py "\b(funded|financed|sponsored)\s+by\s+(russia|china|iran|qatar|saudi)\b",
       py "high") ]);

    (py "unprofessional",
     [ (py "\b(fuck|shit|damn)\s+(you|this|that|everyone)\b",
       py "low");
      (py "\b(idiot|moron|stupid|dumb)\b",
       py "low");
      (py "\b(harass|stalk|threaten)\b",
       py "medium");
      (py "\b(dox|doxx|doxxing)\b",
       py "medium");
      (py "\b(flat\s+earth|moon\s+landing\s+(was\s+)?fake|chemtrails)\b",
       py "low");
      (py "\b(illuminati|deep\s+state|new\s+world\s+order)\s+(controls?|runs?)\b",
       py "low") ]);

    (py "criminal_activity",
     [ (py "\b(arrested|charged|convicted|indicted)\s+(for|of|with)\b",
       py "medium");
      (py "\b(fraud|embezzlement|corruption|bribery)\s+(charges?|conviction|scandal)\b",
       py "high");
      (py "\b(assault|battery)\s+(charges?|conviction)\b",
       py "high");
      (py "\b(sexual\s+)?(harassment|misconduct)\s+(allegations?|charges?|lawsuit)\b",
       py "high") ])
  ].

(* ================================================================= *)
(** * The Python library the engine calls

    What the analyzers use of the interpreter's Unicode tables and of the
    [re] module on caller-supplied pattern strings:
    - [str_lower], [str_upper]: [str.lower()], [str.upper()];
    - [chr_isalnum]: [str.isalnum()] of one character, which decides the
      word characters of [\w] and [\b];
    - [re_finditer pattern string]: the call
      [re.finditer(pattern, string, re.IGNORECASE)] with its iterator
      run to the end: the spans [(m.start(), m.end())] of the matches,
      or the exception the call raises: [re.error] for a pattern that
      does not compile, or another one;
    - [builtin_patterns_compile]: the patterns of the built-in database
      are valid regular expressions, on which the call returns (the
      exhaustion of memory is not modelled). *)

Class PyLib := {
  str_lower : str -> str;
  str_upper : str -> str;
  chr_isalnum : N -> bool;
  re_finditer : str -> str -> outcome (list span);
  builtin_patterns_compile :
    forall (category : str) (patterns : list (str * str)) (pattern severity : str)
           (text : str),
      In (category, patterns) _build_keyword_database ->
      In (pattern, severity) patterns ->
      exists ms, re_finditer pattern text = Ret ms
}.

(* ================================================================= *)
(** * List objects

    The pattern lists of a [KeywordAnalyzer] are Python list objects,
    which the constructor shares with its caller and which
    [list.extend] changes in place. A [store] holds the list objects; a
    [ref] is the position of one of them. *)

Definition ref : Type := nat.
Definition store : Type := list (list (str * str)).

(** The contents of a list object *)
Definition deref (h : store) (r : ref) : list (str * str) := nth r h [].

(** A new list object with the contents [l] *)
Definition alloc (h : store) (l : list (str * str)) : store * ref :=
  (h ++ [l], List.length h).

Fixpoint update (h : store) (r : ref) (l : list (str * str)) : store :=
  match h, r with
  | [], _ => []
  | _ :: h', O => l :: h'
  | x :: h', S r' => x :: update h' r' l
  end.

(** [a.extend(b)] for the list objects [a] and [b], which may be the
    same object. *)
Definition list_extend (h : store) (a b : ref) : store :=
  update h a (deref h a ++ deref h b).

(** [self.keywords] of a [KeywordAnalyzer]: category -> list object *)
Definition keyword_refs : Type := list (str * ref).

(** The database as [analyze_text] reads it: the contents that the list
    objects have at the time of the call. *)
Definition resolve (h : store) (keywords : keyword_refs) : keyword_db :=
  map (fun entry : str * ref => (fst entry, deref h (snd entry))) keywords.

(** The dict display of [_build_keyword_database] creates one new list
    object for each category. *)
Fixpoint new_lists (h : store) (db : keyword_db) : store * keyword_refs :=
  match db with
  | [] => (h, [])
  | (category, patterns) :: db' =>
      let (h1, r) := alloc h patterns in
      let (h2, keywords) := new_lists h1 db' in
      (h2, (category, r) :: keywords)
  end.

(** [KeywordAnalyzer.__init__]: the built-in database; the caller's
    patterns of a built-in category are appended to the built-in list,
    the list object of a new category is stored as it is. *)
Definition KeywordAnalyzer_init (h : store) (custom_keywords : option keyword_refs)
    : store * keyword_refs :=
  let (h, keywords) := new_lists h _build_keyword_database in
  match custom_keywords with
  | Some custom =>
      fold_left
        (fun (state : store * keyword_refs) (entry : str * ref) =>
           let (h, keywords) := state in
           let (category, kws) := entry in
           match dict_lookup keywords category with
           | Some existing => (list_extend h existing kws, keywords)
           | None => (h, dict_set keywords category kws)
           end)
        custom (h, keywords)
  | None => (h, keywords)
  end.


(** The context snippet of a match at [s .. e] in [analyze_text]. *)
Definition extract_context (text : str) (s e : Z) : str :=
  let start := Z.max 0 (s - 50) in
  let end_ := Z.min (len text) (e + 50) in
  let context := py_slice text start end_ in
  let context := if (start >? 0)%Z then py "..." ++ context else context in
  let context := if (end_ <? len text)%Z then context ++ py "..." else context in
  context.

Definition is_re_error (e : exn) : bool :=
  match e with re_error => true | _ => false end.


Section KeywordAnalyzer.
Context {L : PyLib}.
Local Open Scope outcome_scope.

(** The [KeywordMatch] that the innermost loop of [analyze_text] appends
    for one match object. *)
Definition text_match (text text_lower category severity : str) (m : span)
    : KeywordMatch :=
  let (s, e) := m in
  mkKeywordMatch (py_slice text_lower s e) category severity
                 (extract_context text s e) s.

(** The [try] statement of [analyze_text] for one (pattern, severity):
    the matches are appended in the order [finditer] yields them; on
    [re.error] the handler goes on with the next pattern; any other
    exception leaves the statement. *)
Definition scan_pattern (text text_lower category : str)
    (matches : list KeywordMatch) (entry : str * str)
    : outcome (list KeywordMatch) :=
  let (pattern, severity) := entry in
  try_except
    (ms <- re_finditer pattern text_lower ;;
     Ret (fold_left
            (fun matches m =>
               matches ++ [text_match text text_lower category severity m])
            ms matches))
    is_re_error
    (Ret matches).

Definition analyze_text (keywords : keyword_db) (text : str)
    (categories : option (list str)) : outcome (list KeywordMatch) :=
  match text with
  | [] => Ret []
  | _ =>
      let text_lower := str_lower text in
      let categories_to_check :=
        match categories with
        | Some (c :: cs) => c :: cs
        | _ => map fst keywords
        end in
      for_each categories_to_check
        (fun matches category =>
           match dict_lookup keywords category with
           | None => Ret matches
           | Some patterns =>
               for_each patterns (scan_pattern text text_lower category) matches
           end)
        []
  end.

(** One of the three loops of [check_for_authoritarian_mentions]: the
    matches of [pattern] in the lower-cased text, reported under
    [keyword]. *)
Definition mention_matches (text text_lower : str) (pattern : regex)
    (keyword category severity : str) : list KeywordMatch :=
  map (fun m : nat * nat =>
         let (s, e) := span_of_nat m in
         let start := Z.max 0 (s - 50) in
         let end_ := Z.min (len text) (e + 50) in
         let context := py_slice text start end_ in
         mkKeywordMatch keyword category severity context s)
      (finditer chr_isalnum N.eqb text_lower pattern).

(** The patterns are built with [re.escape], so they are given by their
    syntax trees: [re.escape(x)] is [RLit x], and
    [rf'\b{re.escape(x)}\b'] is [\b], then [RLit x], then [\b]. *)
Definition check_for_authoritarian_mentions (text : str) : list KeywordMatch :=
  let matches := [] in
  let text_lower := str_lower text in
  let matches :=
    fold_left
      (fun matches leader =>
         let leader_lower := str_lower leader in
         matches ++ mention_matches text text_lower (RLit leader_lower)
                      leader (py "authoritarian_mention") (py "medium"))
      KNOWN_AUTHORITARIAN_LEADERS matches in
  let matches :=
    fold_left
      (fun matches entity =>
         let entity_lower := str_lower entity in
         matches ++ mention_matches text text_lower (RLit entity_lower)
                      entity (py "authoritarian_entity_mention") (py "medium"))
      AUTHORITARIAN_ENTITIES matches in
  let matches :=
    fold_left
      (fun matches country =>
         let country_lower := str_lower country in
         let pattern := RSeq RWordB (RSeq (RLit country_lower) RWordB) in
         matches ++ mention_matches text text_lower pattern
                      country (py "authoritarian_country_mention") (py "low"))
      (ALL_FULLY_AUTHORITARIAN ++ ALL_HYBRID_AUTHORITARIAN) matches in
  matches.
End KeywordAnalyzer.

Definition match_severity_weights : list (str * Z) :=
  [ (py "critical", 25%Z); (py "high", 15%Z);
    (py "medium", 8%Z); (py "low", 3%Z) ].

Definition get_severity_score (matches : list KeywordMatch) : Z :=
  match matches with
  | [] => 0%Z
  | _ =>
      let total_score :=
        py_sum (map (fun m => dict_get match_severity_weights (km_severity m) 0%Z)
                    matches) in
      Z.min 100 total_score
  end.

(* ================================================================= *)
(** * Risk aggregator and recommender ([GuidelinesAnalyzer]) *)

Definition severity_weights : list (str * Z) :=
  [ (py "critical", 30%Z); (py "high", 20%Z);
    (py "medium", 10%Z); (py "low", 3%Z) ].

Definition _calculate_risk_score (fl : list ContentFlag) : Z :=
  match fl with
  | [] => 0%Z
  | _ =>
      let total :=
        py_sum (map (fun flag => dict_get severity_weights (severity flag) 0%Z) fl) in
      Z.min 100 total
  end.

Definition _determine_risk_level (score : Z) : str :=
  if (score >=? 70)%Z then py "critical"
  else if (score >=? 40)%Z then py "high"
  else if (score >=? 20)%Z then py "medium"
  else py "low".

Definition _generate_recommendation (result : AnalysisResult) : str :=
  let critical_categories :=
    [ py "violence_advocacy"; py "hate_speech"; py "despot_admiration" ] in
  let critical_flags :=
    filter (fun f =>
              str_eqb (severity f) (py "critical")
              || (str_eqb (severity f) (py "high")
                  && str_in (category f) critical_categories))
           (flags result) in
  match critical_flags with
  | _ :: _ => py "reject"
  | [] =>
      if str_in (risk_level result) [py "high"; py "critical"] then py "pending_review"
      else if str_eqb (risk_level result) (py "medium") then py "pending_review"
      else if (risk_score result <? 10)%Z
              && negb (existsb (fun f => str_in (severity f) [py "high"; py "critical"])
                               (flags result))
           then py "approve"
           else py "pending_review"
  end.
(* ================================================================= *)
(** * Guideline flag generator ([GuidelinesAnalyzer], [analyzers/guidelines.py]) *)

Record Guideline := mkGuideline {
  g_title : str;
  g_description : str;
  g_reference : str
}.

Definition GUIDELINES : list (str * Guideline) :=
  [ (py "authoritarian_connection",
     mkGuideline (py "Authoritarian Regime Connection")
       (py "Individual is from and/or doing work relevant to a country with an authoritarian regime.")
       (py "Guideline 1"));
    (py "democracy_criticism",
     mkGuideline (py "Unqualified Democracy Criticism")
       (py "Engaged in unqualified criticism of democracies, making blunt equivalences between democracies and non-democracies.")
       (py "Guideline 2"));
    (py "political_partisanship",
     mkGuideline (py "Excessive Political Partisanship")
       (py "Displayed excessive political partisanship when dealing with democratic governments on social media.")
       (py "Guideline 3"));
    (py "violence_advocacy",
     mkGuideline (py "Violence Advocacy")
       (py "Has used or advocated for the use of violence as a valid method to fight government oppression.")
       (py "Guideline 4"));
    (py "hate_speech",
     mkGuideline (py "Hate Speech / Intolerance")
       (py "Expressed xenophobic, homophobic, or other intolerant views or opinions, or displayed clear instances of hate speech.")
       (py "Guideline 5"));
    (py "regime_praise",
     mkGuideline (py "Authoritarian Regime Relationship/Praise")
       (py "Has a relationship with, or expressed praise for, hybrid authoritarian or fully authoritarian regimes.")
       (py "Guideline 6"));
    (py "despot_admiration",
     mkGuideline (py "Despot/Dictator Admiration")
       (py "Expressed admiration for despots, dictators, or tyrants.")
       (py "Guideline 7"));
    (py "financial_dealings",
     mkGuideline (py "Financial Dealings with Dictatorships")
       (py "Engaged in significant financial or commercial dealings with dictatorships or their instrumentalities.")
       (py "Guideline 8"));
    (py "unprofessional",
     mkGuideline (py "Lack of Professionalism")
       (py "Displays a lack of professionalism.")
       (py "Guideline 9"));
    (py "criminal_record",
     mkGuideline (py "Criminal Record")
       (py "Has been investigated for, charged with, or convicted of any type of crime.")
       (py "Guideline 10"));
    (py "sanctions",
     mkGuideline (py "International Sanctions")
       (py "Subject to international sanctions.")
       (py "Guideline 11"));
    (py "business_concerns",
     mkGuideline (py "Business Ownership Concerns")
       (py "Owner or operator of private companies that HRF should be aware of.")
       (py "Guideline 12")) ].

(** The [config] dict of the constructor.  [custom_keywords] is the
    caller's dict, category -> list object, with the store its list
    objects live in. *)
Record Config := mkConfig {
  custom_keywords : option (store * keyword_refs);
  strict_mode : bool
}.

(** What the analysis methods read of a [GuidelinesAnalyzer]:
    [keywords], the contents that the pattern lists of its
    [keyword_analyzer] have at the time of the call, and
    [strict_mode]. *)
Record GuidelinesAnalyzer := mkGuidelinesAnalyzer {
  keywords : keyword_db;
  self_strict_mode : bool
}.

(** The analyzer right after [GuidelinesAnalyzer.__init__] *)
Definition GuidelinesAnalyzer_init (config : option Config) : GuidelinesAnalyzer :=
  let custom := match config with Some c => custom_keywords c | None => None end in
  let h := match custom with Some (h, _) => h | None => [] end in
  let (h', keyword_analyzer) := KeywordAnalyzer_init h (option_map snd custom) in
  mkGuidelinesAnalyzer
    (resolve h' keyword_analyzer)
    (match config with Some c => strict_mode c | None => false end).

(** The value of a key that is read with a default: the key may be
    absent, or present with the value [None]. *)
Inductive dict_entry (A : Type) : Type :=
| Absent
| IsNone
| Value (a : A).
Arguments Absent {A}.
Arguments IsNone {A}.
Arguments Value {A} a.

(** [d.get(key, default)] *)
Definition get_default {A : Type} (e : dict_entry A) (default : A) : option A :=
  match e with
  | Absent => Some default
  | IsNone => None
  | Value a => Some a
  end.

(** [str(x)] of a string or [None], as an f-string formats it *)
Definition str_of (x : option str) : str :=
  match x with
  | Some s => s
  | None => py "None"
  end.

(** The inputs of [analyze_applicant].  In a field of type [option],
    [None] is an absent key or the value [None], which the code does not
    tell apart; [platform] is read with a default that applies to an
    absent key only. *)
Record Applicant := mkApplicant {
  a_id : option Z;
  a_name : option str;
  a_country : option str
}.

Record ContentItem := mkContentItem {
  text_content : option str;
  platform : dict_entry str;
  url : option str;
  item_published_at : option str
}.

Record SocialProfile := mkSocialProfile {
  profile_platform : dict_entry str;
  bio : option str;
  profile_url : option str
}.

Definition _check_country (c : str) : list ContentFlag :=
  let flags := [] in
  let cls := get_regime_classification c in
  if str_eqb (classification cls) (py "fully_authoritarian") then
    flags ++ [ mkContentFlag (py "authoritarian_connection") (py "high")
                 (py "From Fully Authoritarian Regime: " ++ c)
                 (py "The applicant is from " ++ c
                    ++ py ", which is classified as a fully authoritarian regime.")
                 None [] (Some (py "Guideline 1")) None None None ]
  else if str_eqb (classification cls) (py "hybrid_authoritarian") then
    flags ++ [ mkContentFlag (py "authoritarian_connection") (py "medium")
                 (py "From Hybrid Authoritarian Regime: " ++ c)
                 (py "The applicant is from " ++ c
                    ++ py ", which is classified as a hybrid authoritarian regime.")
                 None [] (Some (py "Guideline 1")) None None None ]
  else flags.

Definition _map_keyword_to_guideline (keyword_category : str) : str :=
  let mapping :=
    [ (py "violence_advocacy", py "violence_advocacy");
      (py "hate_speech", py "hate_speech");
      (py "regime_praise", py "regime_praise");
      (py "democracy_criticism", py "democracy_criticism");
      (py "despot_admiration", py "despot_admiration");
      (py "financial_dealings", py "financial_dealings");
      (py "unprofessional", py "unprofessional");
      (py "criminal_activity", py "criminal_record");
      (py "authoritarian_mention", py "regime_praise");
      (py "authoritarian_entity_mention", py "regime_praise");
      (py "authoritarian_country_mention", py "authoritarian_connection") ] in
  dict_get mapping keyword_category keyword_category.

(** [l.index(x)], [None] when [x not in l] *)
Fixpoint list_index (l : list str) (x : str) : option Z :=
  match l with
  | [] => None
  | y :: l' =>
      if str_eqb y x then Some 0%Z
      else match list_index l' x with
           | Some i => Some (i + 1)%Z
           | None => None
           end
  end.

(** [max(l, key=key)]: the first element whose key is the largest;
    [ValueError] on an empty list. *)
Fixpoint max_from {A : Type} (key : A -> Z) (best : A) (l : list A) : A :=
  match l with
  | [] => best
  | x :: l' => max_from key (if (key x >? key best)%Z then x else best) l'
  end.

Definition py_max {A : Type} (l : list A) (key : A -> Z) : outcome A :=
  match l with
  | [] => Raise ValueError
  | x :: l' => Ret (max_from key x l')
  end.

Definition severity_order : list str :=
  [ py "critical"; py "high"; py "medium"; py "low" ].

(** The grouping loop of [_analyze_content]: [matches_by_category] keeps
    the categories in the order of their first match. *)
Definition group_by_category (matches : list KeywordMatch)
    : list (str * list KeywordMatch) :=
  fold_left
    (fun by_cat m =>
       match dict_lookup by_cat (km_category m) with
       | None => dict_set by_cat (km_category m) [m]
       | Some l => dict_set by_cat (km_category m) (l ++ [m])
       end)
    matches [].

(** The severity loop over one group, with its [break] *)
Definition highest_severity (category_matches : list KeywordMatch) : str :=
  match find (fun sev => existsb (fun m => str_eqb (km_severity m) sev) category_matches)
             severity_order with
  | Some sev => sev
  | None => py "low"
  end.

(** The [key] of the [max] that picks the evidence *)
Definition evidence_key (m : KeywordMatch) : Z :=
  match list_index severity_order (km_severity m) with
  | Some i => i
  | None => 99%Z
  end.

Definition best_match (category_matches : list KeywordMatch) : outcome KeywordMatch :=
  py_max category_matches evidence_key.

Section GuidelinesAnalyzer.
Context {L : PyLib}.
Variable self : GuidelinesAnalyzer.
Local Open Scope outcome_scope.

(** The body of the flag loop of [_analyze_content] for one group *)
Definition category_flag (source u published : option str)
    (cat : str) (category_matches : list KeywordMatch) : outcome ContentFlag :=
  let highest := highest_severity category_matches in
  best <- best_match category_matches ;;
  let guideline_category := _map_keyword_to_guideline cat in
  let guideline := dict_lookup GUIDELINES guideline_category in
  Ret (mkContentFlag
         guideline_category
         highest
         (match guideline with
          | Some g => g_title g
          | None => py "Potential Issue: " ++ cat
          end)
         (py "Content may violate: "
            ++ match guideline with
               | Some g => g_description g
               | None => cat
               end)
         (Some (km_context best))
         (map km_keyword category_matches)
         (match guideline with
          | Some g => Some (g_reference g)
          | None => None
          end)
         source u published).

Definition mention_flag (source u published : option str)
    (mention : KeywordMatch) : ContentFlag :=
  mkContentFlag
    (py "regime_praise")
    (py "low")
    (py "Mentions " ++ km_keyword mention)
    (py "Content mentions " ++ str_replace_char 95 (py " ") (km_category mention)
       ++ py ": " ++ km_keyword mention)
    (Some (km_context mention))
    [km_keyword mention]
    None
    source u published.

Definition _analyze_content (text : str) (source u published : option str)
    : outcome (list ContentFlag) :=
  let flags := [] in
  matches <- analyze_text (keywords self) text None ;;
  let matches_by_category := group_by_category matches in
  flags <- for_each matches_by_category
             (fun flags (g : str * list KeywordMatch) =>
                flag <- category_flag source u published (fst g) (snd g) ;;
                Ret (flags ++ [flag]))
             flags ;;
  let auth_mentions := check_for_authoritarian_mentions text in
  let flags :=
    match auth_mentions with
    | _ :: _ =>
        if self_strict_mode self
        then flags ++ map (mention_flag source u published) (firstn 5 auth_mentions)
        else flags
    | [] => flags
    end in
  Ret flags.

Definition severity_count (fl : list ContentFlag) (sev : str) : Z :=
  let severity_counts :=
    fold_left
      (fun counts flag =>
         dict_set counts (severity flag) (dict_get counts (severity flag) 0 + 1)%Z)
      fl [] in
  dict_get severity_counts sev 0%Z.

Definition _generate_summary (result : AnalysisResult) : str :=
  match flags result with
  | [] => py "No concerning content found. Applicant appears to meet vetting guidelines."
  | _ =>
      let category_counts :=
        fold_left
          (fun counts flag =>
             dict_set counts (category flag) (dict_get counts (category flag) 0 + 1)%Z)
          (flags result) [] in
      let summary_parts :=
        [ py "Analysis found " ++ py_repr_int (Z.of_nat (List.length (flags result)))
            ++ py " potential issue(s)." ] in
      let n_critical := severity_count (flags result) (py "critical") in
      let summary_parts :=
        if (n_critical =? 0)%Z then summary_parts
        else summary_parts
               ++ [ py "CRITICAL: " ++ py_repr_int n_critical
                      ++ py " critical issue(s) found." ] in
      let n_high := severity_count (flags result) (py "high") in
      let summary_parts :=
        if (n_high =? 0)%Z then summary_parts
        else summary_parts
               ++ [ py "HIGH: " ++ py_repr_int n_high
                      ++ py " high-severity issue(s) found." ] in
      let category_list :=
        str_join (py ", ")
          (map (fun cat =>
                  match dict_lookup GUIDELINES cat with
                  | Some g => g_title g
                  | None => cat
                  end)
               (map fst category_counts)) in
      let summary_parts := summary_parts ++ [ py "Categories: " ++ category_list ] in
      let summary_parts :=
        summary_parts ++ [ py "Risk Level: " ++ str_upper (risk_level result) ] in
      let summary_parts :=
        summary_parts
          ++ [ py "Recommendation: "
                 ++ str_upper (str_replace_char 95 (py " ") (recommendation result)) ] in
      str_join (py " ") summary_parts
  end.

(** [now] is the value of [datetime.utcnow()] when the result is
    created. *)
Definition analyze_applicant (now : Z) (applicant_data : Applicant)
    (content_items : list ContentItem)
    (social_profiles : option (list SocialProfile)) : outcome AnalysisResult :=
  let result_flags := [] in
  let result_flags :=
    match a_country applicant_data with
    | Some (c :: cs) => result_flags ++ _check_country (c :: cs)
    | _ => result_flags
    end in
  result_flags <- for_each content_items
             (fun result_flags item =>
                match text_content item with
                | Some (c :: cs) =>
                    content_flags <-
                      _analyze_content (c :: cs)
                        (get_default (platform item) (py "unknown"))
                        (url item) (item_published_at item) ;;
                    Ret (result_flags ++ content_flags)
                | _ => Ret result_flags
                end)
             result_flags ;;
  result_flags <- match social_profiles with
           | Some (p :: ps) =>
               for_each (p :: ps)
                 (fun result_flags profile =>
                    match bio profile with
                    | Some (c :: cs) =>
                        bio_flags <-
                          _analyze_content (c :: cs)
                            (Some (str_of (get_default (profile_platform profile)
                                                       (py "unknown"))
                                     ++ py "_bio"))
                            (profile_url profile) None ;;
                        Ret (result_flags ++ bio_flags)
                    | _ => Ret result_flags
                    end)
                 result_flags
           | _ => Ret result_flags
           end ;;
  let score := _calculate_risk_score result_flags in
  let level := _determine_risk_level score in
  let result :=
    mkAnalysisResult (a_id applicant_data) (Z.of_nat (List.length content_items))
      result_flags score level (py "pending_review") now [] in
  let rec := _generate_recommendation result in
  let result :=
    mkAnalysisResult (applicant_id result) (total_content_items result)
      (flags result) (risk_score result) (risk_level result) rec
      (analyzed_at result) (summary result) in
  let text := _generate_summary result in
  Ret (mkAnalysisResult (applicant_id result) (total_content_items result)
         (flags result) (risk_score result) (risk_level result)
         (recommendation result) (analyzed_at result) text).

(** [analyze_single_content] *)
Definition analyze_single_content (text source : str) : outcome (list ContentFlag) :=
  _analyze_content text (Some source) None None.
End GuidelinesAnalyzer.

(* ================================================================= *)
(** * A runtime for the Latin range

    An instance of [PyLib] that computes, for texts and patterns whose
    code points lie below U+0180: the case mappings, the alphanumeric
    characters, and [re.finditer] for the pattern syntax of the built-in
    database, parsed by [sre_parse] and matched by [finditer].  It is
    what the examples below run on; the general properties hold for
    every [PyLib]. *)

(** The lower case of one character; U+0130, which [str.lower()] makes
    longer, is dealt with in [latin_lower]. *)
Definition chr_lower (c : N) : N :=
  if ((65 <=? c) && (c <=? 90)
      || (192 <=? c) && (c <=? 222) && negb (c =? 215))%N
  then (c + 32)%N
  else if (c =? 376)%N then 255%N
  else if (((256 <=? c) && (c <=? 311) && negb (c =? 304)
            || (330 <=? c) && (c <=? 375)) && N.even c)%N
  then (c + 1)%N
  else if (((313 <=? c) && (c <=? 328) || (377 <=? c) && (c <=? 382)) && N.odd c)%N
  then (c + 1)%N
  else c.

Definition latin_lower (s : str) : str :=
  flat_map (fun c => if (c =? 304)%N then [105; 775]%N else [chr_lower c]) s.

Definition chr_upper (c : N) : N :=
  if ((97 <=? c) && (c <=? 122)
      || (224 <=? c) && (c <=? 254) && negb (c =? 247))%N
  then (c - 32)%N
  else if (c =? 255)%N then 376%N
  else if (c =? 305)%N then 73%N
  else if (c =? 383)%N then 83%N
  else if (((257 <=? c) && (c <=? 311) || (331 <=? c) && (c <=? 375)) && N.odd c)%N
  then (c - 1)%N
  else if (((314 <=? c) && (c <=? 328) || (378 <=? c) && (c <=? 382)) && N.even c)%N
  then (c - 1)%N
  else c.

Definition latin_upper (s : str) : str :=
  flat_map (fun c =>
              if (c =? 223)%N then [83; 83]%N
              else if (c =? 181)%N then [924%N]
              else if (c =? 329)%N then [700; 78]%N
              else [chr_upper c]) s.

Definition latin_isalnum (c : N) : bool :=
  ((48 <=? c) && (c <=? 57) || (65 <=? c) && (c <=? 90)
   || (97 <=? c) && (c <=? 122)
   || (c =? 170) || (c =? 178) || (c =? 179) || (c =? 181) || (c =? 185)
   || (c =? 186) || (188 <=? c) && (c <=? 190)
   || (192 <=? c) && (c <=? 383) && negb (c =? 215) && negb (c =? 247))%N.

(** A literal under [re.IGNORECASE]: the characters are compared after
    case folding, in which the dotted capital and the dotless small i
    go with [i], and the long s with [s]. *)
Definition chr_fold (c : N) : N :=
  if ((c =? 304) || (c =? 305))%N then 105%N
  else if (c =? 383)%N then 115%N
  else chr_lower c.

Definition ceq_ignorecase (p c : N) : bool := N.eqb (chr_fold p) (chr_fold c).

(** ** The pattern parser

    [frame] is a group being read: the alternatives already closed by
    [|] and the items of the current one, both most recent first. *)
Record frame := mkFrame {
  alts : list regex;
  items : list regex
}.

Definition mk_seq (items_rev : list regex) : regex :=
  fold_left (fun acc r => RSeq r acc) items_rev REps.

Definition close_frame (f : frame) : regex :=
  fold_left (fun acc a => RAlt a acc) (alts f) (mk_seq (items f)).

Definition push_item (r : regex) (f : frame) : frame :=
  mkFrame (alts f) (r :: items f).

Definition is_ascii_alnum (c : N) : bool :=
  ((48 <=? c) && (c <=? 57) || (65 <=? c) && (c <=? 90)
   || (97 <=? c) && (c <=? 122))%N.

(** What the parser makes of a pattern: its syntax tree, [Malformed]
    where [re] raises [re.error], [TooLarge] where it raises
    [OverflowError] for a repeat count, and [Unsupported] for the syntax
    that the fragment leaves out (character sets, counted and lazy
    repetition, anchors, the [(?...)] groups, and the escapes of a
    letter or digit other than [\b], [\s] and [\w]). *)
Inductive parsed : Type :=
| Parsed (r : regex)
| Malformed
| TooLarge
| Unsupported.

Definition MAXREPEAT : N := 4294967295.

Definition is_digit (c : N) : bool := ((48 <=? c) && (c <=? 57))%N.

Fixpoint read_number (p : str) (acc : N) : N * str :=
  match p with
  | c :: p' =>
      if is_digit c then read_number p' (10 * acc + (c - 48))%N else (acc, p)
  | [] => (acc, [])
  end.

(** Whether what follows a brace is a repeat [m}], [m,}] or [m,n}]
    with a count that is too large *)
Definition repeat_overflows (p : str) : bool :=
  let (lo, rest) := read_number p 0%N in
  match rest with
  | 125%N :: _ => (MAXREPEAT <=? lo)%N
  | 44%N :: rest' =>
      let (hi, rest'') := read_number rest' 0%N in
      match rest'' with
      | 125%N :: _ => ((MAXREPEAT <=? lo) || (MAXREPEAT <=? hi))%N
      | _ => false
      end
  | _ => false
  end.

(** The item an escape [\d] stands for; [None] for the escapes of a
    letter or digit outside the fragment. *)
Definition escape_item (d : N) : option regex :=
  if (d =? 98)%N then Some RWordB
  else if (d =? 115)%N then Some RSpace
  else if (d =? 119)%N then Some RWord
  else if is_ascii_alnum d then None
  else Some (RChar d).

Definition quantified (r : regex) : bool :=
  match r with
  | ROpt _ | RStar _ | RPlus _ => true
  | _ => false
  end.

Definition quantify (q : N) (r : regex) : regex :=
  if (q =? 63)%N then ROpt r
  else if (q =? 42)%N then RStar r
  else RPlus r.

Fixpoint parse_loop (p : str) (cur : frame) (stack : list frame) : parsed :=
  match p with
  | [] =>
      match stack with
      | [] => Parsed (close_frame cur)
      | _ :: _ => Malformed
      end
  | c :: p' =>
      if (c =? 92)%N then
        match p' with
        | [] => Malformed
        | d :: p'' =>
            match escape_item d with
            | Some r => parse_loop p'' (push_item r cur) stack
            | None => Unsupported
            end
        end
      else if (c =? 40)%N then
        match p' with
        | 63%N :: _ => Unsupported
        | _ => parse_loop p' (mkFrame [] []) (cur :: stack)
        end
      else if (c =? 41)%N then
        match stack with
        | [] => Malformed
        | parent :: stack' =>
            parse_loop p' (push_item (RGroup (close_frame cur)) parent) stack'
        end
      else if (c =? 124)%N then
        parse_loop p' (mkFrame (mk_seq (items cur) :: alts cur) []) stack
      else if ((c =? 63) || (c =? 42) || (c =? 43))%N then
        match items cur with
        | [] => Malformed
        | RWordB :: _ => Malformed
        | r :: rest =>
            if quantified r
            then (if (c =? 42)%N then Malformed else Unsupported)
            else parse_loop p' (mkFrame (alts cur) (quantify c r :: rest)) stack
        end
      else if (c =? 46)%N then parse_loop p' (push_item RAny cur) stack
      else if (c =? 123)%N then
        (if repeat_overflows p' then TooLarge else Unsupported)
      else if ((c =? 91) || (c =? 94) || (c =? 36))%N then Unsupported
      else parse_loop p' (push_item (RChar c) cur) stack
  end.

Definition sre_parse (pattern : str) : parsed :=
  parse_loop pattern (mkFrame [] []) [].

Definition latin_finditer (pattern text : str) : outcome (list span) :=
  match sre_parse pattern with
  | Parsed r => Ret (map span_of_nat (finditer latin_isalnum ceq_ignorecase text r))
  | Malformed => Raise re_error
  | TooLarge => Raise OverflowError
  | Unsupported => Raise NotImplementedError
  end.

Definition parses (pattern : str) : bool :=
  match sre_parse pattern with
  | Parsed _ => true
  | _ => false
  end.

(** The patterns of the built-in database lie in the fragment. *)
Lemma builtin_patterns_parse (category : str) (patterns : list (str * str))
    (pattern severity : str) (text : str) :
  In (category, patterns) _build_keyword_database ->
  In (pattern, severity) patterns ->
  exists ms, latin_finditer pattern text = Ret ms.
Proof.
  intros Hc Hp.
  assert (forallb (fun entry : str * list (str * str) =>
                     forallb (fun e : str * str => parses (fst e)) (snd entry))
                  _build_keyword_database = true) as H
    by (vm_compute; reflexivity).
  rewrite forallb_forall in H. specialize (H _ Hc). cbn [snd] in H.
  rewrite forallb_forall in H. specialize (H _ Hp). cbn [fst] in H.
  unfold parses in H. unfold latin_finditer.
  destruct (sre_parse pattern); try discriminate H.
  eexists. reflexivity.
Qed.

Definition latin_runtime : PyLib :=
  Build_PyLib latin_lower latin_upper latin_isalnum latin_finditer
              builtin_patterns_parse.
(* ================================================================= *)
(** * Vocabulary of the specification *)

(** The weight of one flag in [_calculate_risk_score] *)
Definition flag_weight (f : ContentFlag) : Z :=
  dict_get severity_weights (severity f) 0%Z.

(** The number of flags of one severity *)
Definition count_severity (sev : str) (fl : list ContentFlag) : Z :=
  Z.of_nat (List.length (filter (fun f => str_eqb (severity f) sev) fl)).

(** The order low < medium < high < critical of the risk levels *)
Definition level_rank (l : str) : option nat :=
  if str_eqb l (py "low") then Some 0
  else if str_eqb l (py "medium") then Some 1
  else if str_eqb l (py "high") then Some 2
  else if str_eqb l (py "critical") then Some 3
  else None.

Definition level_le (a b : str) : Prop :=
  exists i j, level_rank a = Some i /\ level_rank b = Some j /\ i <= j.

(** Rule 1 of the decision procedure: a flag that rejects on its own,
    by its severity or by its category in the auto-reject set. *)
Definition auto_reject_flag (f : ContentFlag) : Prop :=
  severity f = py "critical"
  \/ (severity f = py "high"
      /\ (category f = py "violence_advocacy"
          \/ category f = py "hate_speech"
          \/ category f = py "despot_admiration")).

Definition high_or_critical (f : ContentFlag) : Prop :=
  severity f = py "high" \/ severity f = py "critical".

Definition level_needs_review (l : str) : Prop :=
  l = py "medium" \/ l = py "high" \/ l = py "critical".

(** The test of the list comprehension of [_generate_recommendation] *)
Definition reject_test (f : ContentFlag) : bool :=
  str_eqb (severity f) (py "critical")
  || (str_eqb (severity f) (py "high")
      && str_in (category f)
           [ py "violence_advocacy"; py "hate_speech"; py "despot_admiration" ]).

(** The ordered decision procedure as the specification words it; each
    rule applies only when the rules before it do not. *)
Inductive recommendation_spec (result : AnalysisResult) : str -> Prop :=
| rule_reject :
    Exists auto_reject_flag (flags result) ->
    recommendation_spec result (py "reject")
| rule_review :
    ~ Exists auto_reject_flag (flags result) ->
    level_needs_review (risk_level result) ->
    recommendation_spec result (py "pending_review")
| rule_approve :
    ~ Exists auto_reject_flag (flags result) ->
    ~ level_needs_review (risk_level result) ->
    (risk_score result < 10)%Z ->
    ~ Exists high_or_critical (flags result) ->
    recommendation_spec result (py "approve")
| rule_default :
    ~ Exists auto_reject_flag (flags result) ->
    ~ level_needs_review (risk_level result) ->
    ~ ((risk_score result < 10)%Z /\ ~ Exists high_or_critical (flags result)) ->
    recommendation_spec result (py "pending_review").

(** The result record on which [analyze_applicant] calls
    [_generate_recommendation] for a list of flags. *)
Definition scored (fl : list ContentFlag) : AnalysisResult :=
  let score := _calculate_risk_score fl in
  mkAnalysisResult None 0%Z fl score (_determine_risk_level score)
    (py "pending_review") 0%Z [].

(** [l] is a prefix of [u]. *)
Fixpoint starts_with (l u : str) : bool :=
  match l, u with
  | [], _ => true
  | c :: l', d :: u' => N.eqb c d && starts_with l' u'
  | _ :: _, [] => false
  end.

(** The continuation a scan hands to [rmatch]: the match ends where the
    pattern ends, unless it is empty and has to advance. *)
Definition accept (must_advance : bool) (i : nat) (e : nat) : option nat :=
  if must_advance && Nat.eqb e i then None else Some e.

(** Every way through a pattern step hands a position of the text [t],
    not before the start, to the rest of the pattern. *)
Definition within (t : str) (step : nat -> (nat -> option nat) -> option nat) : Prop :=
  forall i k e, i <= List.length t -> step i k = Some e ->
                exists j, i <= j <= List.length t /\ k j = Some e.

Section SpecVocabulary.
Context {L : PyLib}.

(** No pattern of any category of the database matches in [text]: the
    search finds nothing, or the pattern does not compile. *)
Definition no_pattern_matches (kws : keyword_db) (text : str) : Prop :=
  forall cat patterns pattern sev,
    In (cat, patterns) kws -> In (pattern, sev) patterns ->
    re_finditer pattern (str_lower text) = Ret []
    \/ re_finditer pattern (str_lower text) = Raise re_error.

(** [no_pattern_matches] as a test that computes *)
Definition no_pattern_matchesb (kws : keyword_db) (text : str) : bool :=
  forallb
    (fun e : str * list (str * str) =>
       forallb
         (fun p : str * str =>
            match re_finditer (fst p) (str_lower text) with
            | Ret [] => true
            | Raise re_error => true
            | _ => false
            end)
         (snd e))
    kws.

(** The categories [analyze_text] goes through *)
Definition categories_to_check (kws : keyword_db) (categories : option (list str))
    : list str :=
  match categories with
  | Some (c :: cs) => c :: cs
  | _ => map fst kws
  end.

(** The matches of one pattern: none when it does not compile. *)
Definition pattern_matches (text cat : str) (entry : str * str)
    : list KeywordMatch :=
  match re_finditer (fst entry) (str_lower text) with
  | Ret ms => map (text_match text (str_lower text) cat (snd entry)) ms
  | Raise _ => []
  end.

Definition category_matches (kws : keyword_db) (text cat : str)
    : list KeywordMatch :=
  match dict_lookup kws cat with
  | Some patterns => flat_map (pattern_matches text cat) patterns
  | None => []
  end.

(** All the matches of the patterns that compile, category by
    category and pattern by pattern. *)
Definition all_matches (kws : keyword_db) (text : str)
    (categories : option (list str)) : list KeywordMatch :=
  match text with
  | [] => []
  | _ => flat_map (category_matches kws text) (categories_to_check kws categories)
  end.

Definition compiles (text : str) (entry : str * str) : bool :=
  match re_finditer (fst entry) (str_lower text) with
  | Ret _ => true
  | Raise _ => false
  end.

(** On the patterns of the database, [re.finditer] raises nothing but
    [re.error]. *)
Definition only_re_errors (kws : keyword_db) (text : str) : Prop :=
  forall cat patterns pattern sev e,
    dict_lookup kws cat = Some patterns -> In (pattern, sev) patterns ->
    re_finditer pattern (str_lower text) = Raise e -> e = re_error.

(** [only_re_errors] as a test that computes *)
Definition only_re_errorsb (kws : keyword_db) (text : str) : bool :=
  forallb
    (fun e : str * list (str * str) =>
       forallb
         (fun p : str * str =>
            match re_finditer (fst p) (str_lower text) with
            | Ret _ => true
            | Raise e => is_re_error e
            end)
         (snd e))
    kws.

(** The text is not empty, and the exception [e] is one that
    [re.finditer] raises on it for a pattern of the database, other than
    [re.error]. *)
Definition raised_by_pattern (kws : keyword_db) (text : str) (e : exn) : Prop :=
  text <> []
  /\ exists cat patterns pattern sev,
       dict_lookup kws cat = Some patterns /\ In (pattern, sev) patterns
       /\ re_finditer pattern (str_lower text) = Raise e /\ e <> re_error.

(** The database without the patterns that do not compile *)
Definition drop_malformed (text : str) (kws : keyword_db) : keyword_db :=
  map (fun e : str * list (str * str) => (fst e, filter (compiles text) (snd e))) kws.

(** The texts [analyze_applicant] scans: the [text_content] of the
    content items and the [bio] of the social profiles. *)
Definition scanned_text (content_items : list ContentItem)
    (social_profiles : option (list SocialProfile)) (text : str) : Prop :=
  (exists item, In item content_items /\ text_content item = Some text)
  \/ (exists ps p, social_profiles = Some ps /\ In p ps /\ bio p = Some text).

(** No scanned text of the applicant raises a flag. *)
Definition no_flagged_content (self : GuidelinesAnalyzer)
    (content_items : list ContentItem)
    (social_profiles : option (list SocialProfile)) : Prop :=
  forall text source u published,
    scanned_text content_items social_profiles text ->
    _analyze_content self text source u published = Ret [].

(** The flags of check 1 of [analyze_applicant] *)
Definition country_flags (applicant_data : Applicant) : list ContentFlag :=
  match a_country applicant_data with
  | Some (c :: cs) => _check_country (c :: cs)
  | _ => []
  end.

(** The result [analyze_applicant] returns once the flags are
    collected: score, level, recommendation and summary, in that
    order. *)
Definition finish_result (now : Z) (applicant_data : Applicant)
    (content_items : list ContentItem) (fl : list ContentFlag) : AnalysisResult :=
  let score := _calculate_risk_score fl in
  let level := _determine_risk_level score in
  let rec :=
    _generate_recommendation
      (mkAnalysisResult (a_id applicant_data) (Z.of_nat (List.length content_items))
         fl score level (py "pending_review") now []) in
  mkAnalysisResult (a_id applicant_data) (Z.of_nat (List.length content_items))
    fl score level rec now
    (_generate_summary
       (mkAnalysisResult (a_id applicant_data) (Z.of_nat (List.length content_items))
          fl score level rec now [])).
End SpecVocabulary.

(* ================================================================= *)
(** * The caller of the engine ([app.py]) *)

(** The status the routes [analyze_applicant] and [_full_vet_task] give
    the applicant from the result of the analysis. *)
Definition applicant_status (result : AnalysisResult) : str :=
  if str_eqb (recommendation result) (py "reject") then py "failed"
  else if str_eqb (recommendation result) (py "approve")
          && str_eqb (risk_level result) (py "low") then py "passed"
  else py "needs_review".

(* ================================================================= *)
(** * More vocabulary *)

(** A string of whitespace only *)
Definition all_space (ws : str) : Prop := Forall (fun c => chr_isspace c = true) ws.

(** The keys of the table of [_map_keyword_to_guideline] *)
Definition detector_categories : list str :=
  [ py "violence_advocacy"; py "hate_speech"; py "regime_praise";
    py "democracy_criticism"; py "despot_admiration"; py "financial_dealings";
    py "unprofessional"; py "criminal_activity"; py "authoritarian_mention";
    py "authoritarian_entity_mention"; py "authoritarian_country_mention" ].

(** The matches of one detector category, in the order found *)
Definition of_category (cat : str) (ms : list KeywordMatch) : list KeywordMatch :=
  filter (fun m => str_eqb (km_category m) cat) ms.

(** The weight of one match in [get_severity_score] *)
Definition match_weight (m : KeywordMatch) : Z :=
  dict_get match_severity_weights (km_severity m) 0%Z.

Definition count_match_severity (sev : str) (ms : list KeywordMatch) : Z :=
  Z.of_nat (List.length (filter (fun m => str_eqb (km_severity m) sev) ms)).

(** A padded spelling of a hybrid authoritarian country *)
Definition padded_hungary : str := py "  Hungary ".

(** The body of the grouping loop of [_analyze_content] *)
Definition group_step (by_cat : list (str * list KeywordMatch)) (m : KeywordMatch)
    : list (str * list KeywordMatch) :=
  match dict_lookup by_cat (km_category m) with
  | None => dict_set by_cat (km_category m) [m]
  | Some l => dict_set by_cat (km_category m) (l ++ [m])
  end.

(** The evidence [_analyze_content] takes from a group: the context of
    the [max] of the group. *)
Definition evidence_of (l : list KeywordMatch) : option str :=
  match l with
  | [] => None
  | m0 :: rest => Some (km_context (max_from evidence_key m0 rest))
  end.

(** The flag of one group of [matches_by_category] *)
Definition group_flag (source u published : option str)
    (g : str * list KeywordMatch) : ContentFlag :=
  let guideline_category := _map_keyword_to_guideline (fst g) in
  let guideline := dict_lookup GUIDELINES guideline_category in
  mkContentFlag
    guideline_category
    (highest_severity (snd g))
    (match guideline with
     | Some gl => g_title gl
     | None => py "Potential Issue: " ++ fst g
     end)
    (py "Content may violate: "
       ++ match guideline with
          | Some gl => g_description gl
          | None => fst g
          end)
    (evidence_of (snd g))
    (map km_keyword (snd g))
    (match guideline with
     | Some gl => Some (g_reference gl)
     | None => None
     end)
    source u published.

Section Collected.
Context {L : PyLib}.
Variable self : GuidelinesAnalyzer.

(** The flags of one text: one per category that matched, then, in
    strict mode, those of the first five mentions. *)
Definition content_flags (text : str) (source u published : option str)
    : list ContentFlag :=
  map (group_flag source u published)
      (group_by_category (all_matches (keywords self) text None))
  ++ (if self_strict_mode self
      then map (mention_flag source u published)
               (firstn 5 (check_for_authoritarian_mentions text))
      else []).

Definition item_flags (item : ContentItem) : list ContentFlag :=
  match text_content item with
  | Some (c :: cs) =>
      content_flags (c :: cs)
        (get_default (platform item) (py "unknown"))
        (url item) (item_published_at item)
  | _ => []
  end.

Definition bio_flags (profile : SocialProfile) : list ContentFlag :=
  match bio profile with
  | Some (c :: cs) =>
      content_flags (c :: cs)
        (Some (str_of (get_default (profile_platform profile) (py "unknown"))
                 ++ py "_bio"))
        (profile_url profile) None
  | _ => []
  end.

(** The exception [e] comes from a pattern of the database on the text
    of the item, or on the bio of the profile. *)
Definition item_raises (e : exn) (item : ContentItem) : Prop :=
  exists text, text_content item = Some text /\ raised_by_pattern (keywords self) text e.

Definition bio_raises (e : exn) (profile : SocialProfile) : Prop :=
  exists text, bio profile = Some text /\ raised_by_pattern (keywords self) text e.

(** All the flags of an applicant, in the order they are raised: the
    country, the content items, the profile bios. *)
Definition collected_flags (a : Applicant) (content_items : list ContentItem)
    (social_profiles : option (list SocialProfile)) : list ContentFlag :=
  country_flags a
  ++ flat_map item_flags content_items
  ++ match social_profiles with
     | Some ps => flat_map bio_flags ps
     | None => []
     end.
End Collected.


(** The database of a [KeywordAnalyzer], given the store and its
    [self.keywords] *)
Definition db_of (state : store * keyword_refs) : keyword_db :=
  resolve (fst state) (snd state).

(** The database of a [KeywordAnalyzer] right after its construction
    from the caller's dict [custom], whose list objects live in [h]. *)
Definition built_db (h : store) (custom : option keyword_refs) : keyword_db :=
  db_of (KeywordAnalyzer_init h custom).




(** The test of the list comprehension with which the application
    builds [content_items]: [if item.text_content] *)
Definition has_text (item : ContentItem) : bool :=
  match text_content item with
  | Some (_ :: _) => true
  | _ => false
  end.

(* ================================================================= *)
(** * Inputs of the examples *)

Definition default_analyzer : GuidelinesAnalyzer := GuidelinesAnalyzer_init None.

Definition strict_analyzer : GuidelinesAnalyzer :=
  GuidelinesAnalyzer_init (Some (mkConfig None true)).

Definition anonymous : Applicant := mkApplicant (Some 1%Z) None None.

Definition from_russia : Applicant :=
  mkApplicant (Some 2%Z) (Some (py "Ivan")) (Some (py "Russia")).

(** A text that names four authoritarian countries and matches no
    pattern of the database *)
Definition travel_text : str := py "Visited Russia, China, Iran and Cuba".

Definition travel_item : ContentItem :=
  mkContentItem (Some travel_text) (Value (py "twitter")) None None.

(** A text with a low-severity and a high-severity match of the category
    [violence_advocacy], more than a context window apart *)
Definition call_to_arms : str :=
  py "It is time for action, friends. The years of waiting and of petitions that nobody reads have taught us one thing: we will take up arms.".

(** A custom dict with two entries that do not compile; its two lists
    are objects of their own. *)
Definition custom_with_malformed : store * keyword_refs :=
  new_lists []
    [ (py "unprofessional", [ (py "(unclosed", py "high") ]);
      (py "business_concerns",
       [ (py "offshore\s+(", py "high");
         (py "\bshell\s+company\b", py "medium") ]) ].

(** The database of the analyzer built with it *)
Definition custom_database : keyword_db :=
  built_db (fst custom_with_malformed) (Some (snd custom_with_malformed)).

Definition shell_text : str := py "That idiot runs a Shell  Company".

(** Three matches of two categories *)
Definition sample_matches : list KeywordMatch :=
  [ mkKeywordMatch (py "idiot") (py "unprofessional") (py "low") (py "an idiot") 3%Z;
    mkKeywordMatch (py "take up arms") (py "violence_advocacy") (py "high")
      (py "we take up arms") 3%Z;
    mkKeywordMatch (py "stalk") (py "unprofessional") (py "medium") (py "stalk them") 0%Z ].

(** One low flag, and one high flag of an auto-reject category *)
Definition low_flag : ContentFlag :=
  mkContentFlag (py "unprofessional") (py "low") (py "Lack of Professionalism") []
    None [] None None None None.

Definition hate_flag : ContentFlag :=
  mkContentFlag (py "hate_speech") (py "high") (py "Hate Speech / Intolerance") []
    None [] None None None None.


(** A custom category whose pattern carries a severity tag that is not
    one of the four, and a text in which the pattern matches *)
Definition tagged_custom : store * keyword_refs :=
  new_lists [] [ (py "tax_evasion", [ (py "offshore\s+accounts?", py "severe") ]) ].

Definition tagged_analyzer : GuidelinesAnalyzer :=
  GuidelinesAnalyzer_init (Some (mkConfig (Some tagged_custom) false)).

Definition offshore_item : ContentItem :=
  mkContentItem (Some (py "He keeps offshore accounts")) IsNone None None.

(** A custom pattern with a repeat count that [re] refuses with
    [OverflowError] *)
Definition overflow_custom : store * keyword_refs :=
  new_lists [] [ (py "spam", [ (py "a{4294967296}", py "low") ]) ].

Definition overflow_analyzer : GuidelinesAnalyzer :=
  GuidelinesAnalyzer_init (Some (mkConfig (Some overflow_custom) false)).




Definition shell_item : ContentItem :=
  mkContentItem (Some shell_text) Absent None None.

Definition custom_analyzer : GuidelinesAnalyzer :=
  GuidelinesAnalyzer_init (Some (mkConfig (Some custom_with_malformed) false)).
(* ================================================================= *)
(** * Properties *)

(** ** Strings and dictionaries *)

Lemma str_eqb_eq (a b : str) : str_eqb a b = true <-> a = b.
Proof.
  revert b; induction a as [|x a IH]; intros [|y b]; simpl;
    try (split; [discriminate | congruence]); try tauto.
  rewrite andb_true_iff, N.eqb_eq, IH. split.
  - intros [-> ->]; reflexivity.
  - intros H; injection H; auto.
Qed.

Lemma str_eqb_refl (a : str) : str_eqb a a = true.
Proof. apply str_eqb_eq; reflexivity. Qed.

Lemma str_eqb_spec (a b : str) : reflect (a = b) (str_eqb a b).
Proof. apply iff_reflect; symmetry; apply str_eqb_eq. Qed.

Lemma str_in_In (x : str) (l : list str) : str_in x l = true <-> In x l.
Proof.
  unfold str_in. rewrite existsb_exists. split.
  - intros (y & Hy & E). apply str_eqb_eq in E. subst; assumption.
  - intros H. exists x. split; [assumption | apply str_eqb_refl].
Qed.

Lemma py_sum_app (l : list Z) (x : Z) : py_sum (l ++ [x]) = (py_sum l + x)%Z.
Proof. unfold py_sum. rewrite fold_left_app. reflexivity. Qed.

Lemma fold_add_shift (l : list Z) (a : Z) :
  fold_left Z.add l a = (a + fold_left Z.add l 0)%Z.
Proof.
  revert a; induction l as [|x l IH]; intros a; simpl.
  - lia.
  - rewrite IH, (IH x). lia.
Qed.

Lemma py_sum_cons (x : Z) (l : list Z) : py_sum (x :: l) = (x + py_sum l)%Z.
Proof. unfold py_sum; simpl. apply fold_add_shift. Qed.

(** ** Risk score *)

Lemma flag_weight_cases (f : ContentFlag) :
  flag_weight f =
    (30 * Z.b2z (str_eqb (severity f) (py "critical"))
     + 20 * Z.b2z (str_eqb (severity f) (py "high"))
     + 10 * Z.b2z (str_eqb (severity f) (py "medium"))
     + 3 * Z.b2z (str_eqb (severity f) (py "low")))%Z.
Proof.
  cbv [flag_weight severity_weights dict_get].
  destruct (str_eqb_spec (severity f) (py "critical")) as [->|_]; [reflexivity|].
  destruct (str_eqb_spec (severity f) (py "high")) as [->|_]; [reflexivity|].
  destruct (str_eqb_spec (severity f) (py "medium")) as [->|_]; [reflexivity|].
  destruct (str_eqb_spec (severity f) (py "low")); reflexivity.
Qed.

Lemma flag_weight_nonneg (f : ContentFlag) : (0 <= flag_weight f)%Z.
Proof.
  rewrite flag_weight_cases.
  destruct (str_eqb (severity f) (py "critical")),
           (str_eqb (severity f) (py "high")),
           (str_eqb (severity f) (py "medium")),
           (str_eqb (severity f) (py "low")); simpl Z.b2z; lia.
Qed.

Lemma count_severity_cons (sev : str) (f : ContentFlag) (fl : list ContentFlag) :
  count_severity sev (f :: fl)
  = (Z.b2z (str_eqb (severity f) sev) + count_severity sev fl)%Z.
Proof.
  unfold count_severity; simpl.
  destruct (str_eqb (severity f) sev); simpl Z.b2z; simpl List.length; lia.
Qed.

Lemma weights_sum_counts (fl : list ContentFlag) :
  py_sum (map flag_weight fl)
  = (30 * count_severity (py "critical") fl + 20 * count_severity (py "high") fl
     + 10 * count_severity (py "medium") fl + 3 * count_severity (py "low") fl)%Z.
Proof.
  induction fl as [|f fl IH].
  - reflexivity.
  - change (map flag_weight (f :: fl)) with (flag_weight f :: map flag_weight fl).
    rewrite py_sum_cons, IH, flag_weight_cases, !count_severity_cons. lia.
Qed.

Lemma weights_sum_nonneg (fl : list ContentFlag) : (0 <= py_sum (map flag_weight fl))%Z.
Proof.
  induction fl as [|f fl IH].
  - unfold py_sum; simpl; lia.
  - change (map flag_weight (f :: fl)) with (flag_weight f :: map flag_weight fl).
    rewrite py_sum_cons. pose proof (flag_weight_nonneg f). lia.
Qed.

Lemma risk_score_min (fl : list ContentFlag) :
  _calculate_risk_score fl = Z.min 100 (py_sum (map flag_weight fl)).
Proof. destruct fl; reflexivity. Qed.

(** C2: the risk score is the sum of the severity weights critical=30,
    high=20, medium=10, low=3 over the flags, capped at 100; it is 0 for
    the empty list and always lies in [0, 100]. *)
Theorem risk_score_capped_weighted_sum (fl : list ContentFlag) :
  _calculate_risk_score fl
  = Z.min 100
      (30 * count_severity (py "critical") fl + 20 * count_severity (py "high") fl
       + 10 * count_severity (py "medium") fl + 3 * count_severity (py "low") fl)
  /\ (0 <= _calculate_risk_score fl <= 100)%Z
  /\ _calculate_risk_score [] = 0%Z.
Proof.
  rewrite risk_score_min, <- weights_sum_counts.
  pose proof (weights_sum_nonneg fl).
  repeat split; try reflexivity; lia.
Qed.

(** C9: appending a flag, of whatever severity, never lowers the risk
    score, the cap at 100 included. *)
Theorem risk_score_append_monotone (fl : list ContentFlag) (f : ContentFlag) :
  (_calculate_risk_score fl <= _calculate_risk_score (fl ++ [f]))%Z.
Proof.
  rewrite !risk_score_min, map_app. simpl map.
  rewrite py_sum_app. pose proof (flag_weight_nonneg f). lia.
Qed.

(** ** Risk level *)

Lemma risk_level_cases (s : Z) :
  (70 <= s /\ _determine_risk_level s = py "critical")%Z
  \/ (40 <= s < 70 /\ _determine_risk_level s = py "high")%Z
  \/ (20 <= s < 40 /\ _determine_risk_level s = py "medium")%Z
  \/ (s < 20 /\ _determine_risk_level s = py "low")%Z.
Proof.
  unfold _determine_risk_level.
  destruct (Z.geb_spec s 70); [left; split; [lia | reflexivity]|].
  destruct (Z.geb_spec s 40); [right; left; split; [lia | reflexivity]|].
  destruct (Z.geb_spec s 20); [right; right; left; split; [lia | reflexivity]|].
  right; right; right; split; [lia | reflexivity].
Qed.

(** C3: the risk level is a total function of the score with the
    inclusive lower bounds 70, 40 and 20, and it is monotone for the
    order low < medium < high < critical. *)
Theorem risk_level_thresholds_monotone :
  (forall s, (70 <= s)%Z -> _determine_risk_level s = py "critical")
  /\ (forall s, (40 <= s < 70)%Z -> _determine_risk_level s = py "high")
  /\ (forall s, (20 <= s < 40)%Z -> _determine_risk_level s = py "medium")
  /\ (forall s, (s < 20)%Z -> _determine_risk_level s = py "low")
  /\ (forall s1 s2, (s1 <= s2)%Z ->
        level_le (_determine_risk_level s1) (_determine_risk_level s2)).
Proof.
  repeat split; intros.
  1-4: destruct (risk_level_cases s) as [[? E]|[[? E]|[[? E]|[? E]]]];
       solve [exact E | lia].
  unfold level_le.
  destruct (risk_level_cases s1) as [[? E1]|[[? E1]|[[? E1]|[? E1]]]];
    destruct (risk_level_cases s2) as [[? E2]|[[? E2]|[[? E2]|[? E2]]]];
    try lia; rewrite E1, E2;
    do 2 eexists; (split; [reflexivity | split; [reflexivity | lia]]).
Qed.

Lemma risk_level_thresholds_monotone_witness :
  _determine_risk_level 70 = py "critical"
  /\ _determine_risk_level 40 = py "high"
  /\ _determine_risk_level 20 = py "medium"
  /\ _determine_risk_level 19 = py "low"
  /\ level_le (_determine_risk_level 19) (_determine_risk_level 70).
Proof.
  destruct risk_level_thresholds_monotone as (H1 & H2 & H3 & H4 & H5).
  split; [|split; [|split; [|split]]].
  - apply H1; lia.
  - apply H2; lia.
  - apply H3; lia.
  - apply H4; lia.
  - apply H5; lia.
Defined.

(** ** Recommendation *)

Lemma filter_nonempty_existsb {A B : Type} (p : A -> bool) (l : list A) (x y : B) :
  match filter p l with _ :: _ => x | [] => y end = if existsb p l then x else y.
Proof.
  induction l as [|a l IH]; simpl; [reflexivity|].
  destruct (p a); simpl; [reflexivity | exact IH].
Qed.

Lemma existsb_Exists {A : Type} (p : A -> bool) (P : A -> Prop) (l : list A) :
  (forall a, p a = true <-> P a) -> (existsb p l = true <-> Exists P l).
Proof.
  intros H. rewrite existsb_exists, Exists_exists.
  split; intros (a & Ha & Hp); exists a; (split; [assumption | apply H; assumption]).
Qed.

Lemma reject_test_spec (f : ContentFlag) : reject_test f = true <-> auto_reject_flag f.
Proof.
  unfold reject_test, auto_reject_flag.
  rewrite orb_true_iff, andb_true_iff, !str_eqb_eq, str_in_In.
  cbn [In]. intuition congruence.
Qed.

Lemma high_or_critical_spec (f : ContentFlag) :
  str_in (severity f) [py "high"; py "critical"] = true <-> high_or_critical f.
Proof.
  unfold high_or_critical. rewrite str_in_In. simpl. intuition congruence.
Qed.

Lemma needs_review_spec (l : str) :
  str_in l [py "high"; py "critical"] || str_eqb l (py "medium") = true
  <-> level_needs_review l.
Proof.
  unfold level_needs_review.
  rewrite orb_true_iff, str_in_In, str_eqb_eq. simpl. intuition congruence.
Qed.

(** The function as a cascade of the four tests *)
Lemma recommendation_cascade (result : AnalysisResult) :
  _generate_recommendation result =
    if existsb reject_test (flags result) then py "reject"
    else if str_in (risk_level result) [py "high"; py "critical"]
            || str_eqb (risk_level result) (py "medium") then py "pending_review"
    else if (risk_score result <? 10)%Z
            && negb (existsb (fun f => str_in (severity f) [py "high"; py "critical"])
                             (flags result))
         then py "approve" else py "pending_review".
Proof.
  unfold _generate_recommendation. cbv zeta.
  rewrite filter_nonempty_existsb.
  change (fun f : ContentFlag =>
            str_eqb (severity f) (py "critical")
            || str_eqb (severity f) (py "high")
               && str_in (category f)
                    [ py "violence_advocacy"; py "hate_speech"; py "despot_admiration" ])
    with reject_test.
  destruct (existsb reject_test (flags result)); [reflexivity|].
  destruct (str_in (risk_level result) [py "high"; py "critical"]); reflexivity.
Qed.

Lemma recommendation_meets_spec (result : AnalysisResult) :
  recommendation_spec result (_generate_recommendation result).
Proof.
  rewrite recommendation_cascade.
  pose proof (existsb_Exists reject_test auto_reject_flag (flags result) reject_test_spec) as Hr.
  pose proof (needs_review_spec (risk_level result)) as Hl.
  pose proof (existsb_Exists _ high_or_critical (flags result) high_or_critical_spec) as Hh.
  destruct (existsb reject_test (flags result)).
  { apply rule_reject, Hr; reflexivity. }
  assert (~ Exists auto_reject_flag (flags result)) as Hnr
    by (intros X; apply Hr in X; discriminate).
  destruct (str_in (risk_level result) [py "high"; py "critical"]
            || str_eqb (risk_level result) (py "medium")).
  { apply rule_review; [assumption | apply Hl; reflexivity]. }
  assert (~ level_needs_review (risk_level result)) as Hnl
    by (intros X; apply Hl in X; discriminate).
  destruct (Z.ltb_spec (risk_score result) 10);
    destruct (existsb (fun f => str_in (severity f) [py "high"; py "critical"])
                      (flags result)); simpl.
  - apply rule_default; try assumption.
    intros [_ X]. apply X, Hh. reflexivity.
  - apply rule_approve; try assumption.
    intros X; apply Hh in X; discriminate.
  - apply rule_default; try assumption. intros [X _]; lia.
  - apply rule_default; try assumption. intros [X _]; lia.
Qed.

Lemma recommendation_spec_functional (result : AnalysisResult) (r1 r2 : str) :
  recommendation_spec result r1 -> recommendation_spec result r2 -> r1 = r2.
Proof.
  intros H1 H2; inversion H1; inversion H2; subst; try reflexivity; tauto.
Qed.

Lemma no_auto_reject (fl : list ContentFlag) :
  existsb reject_test fl = false -> ~ Exists auto_reject_flag fl.
Proof.
  intros E H.
  apply (existsb_Exists reject_test auto_reject_flag fl reject_test_spec) in H.
  congruence.
Qed.

Lemma no_high_or_critical (fl : list ContentFlag) :
  existsb (fun f => str_in (severity f) [py "high"; py "critical"]) fl = false ->
  ~ Exists high_or_critical fl.
Proof.
  intros E H. apply (existsb_Exists _ high_or_critical fl high_or_critical_spec) in H.
  congruence.
Qed.

Lemma not_needs_review (l : str) :
  str_in l [py "high"; py "critical"] || str_eqb l (py "medium") = false ->
  ~ level_needs_review l.
Proof.
  intros E H. apply needs_review_spec in H. congruence.
Qed.

(** C1: the recommendation follows the ordered decision procedure, the
    first matching rule deciding: it is [reject] exactly when some flag
    is critical, or is high with one of the categories
    'violence_advocacy', 'hate_speech' and 'despot_admiration';
    failing that, [pending_review] at risk level medium, high or
    critical; failing that, [approve] when the score is below 10 and no
    flag is high or critical; and [pending_review] otherwise.  A
    critical flag gives [reject] whatever the score of the result is,
    and a high flag on its own gives [reject] for these three
    categories and for no other. *)
Theorem recommendation_decision_procedure (result : AnalysisResult) :
  (forall r, recommendation_spec result r <-> r = _generate_recommendation result)
  /\ (_generate_recommendation result = py "reject"
      <-> Exists (fun f => severity f = py "critical"
                           \/ (severity f = py "high"
                               /\ (category f = py "violence_advocacy"
                                   \/ category f = py "hate_speech"
                                   \/ category f = py "despot_admiration")))
                 (flags result))
  /\ (Exists (fun f => severity f = py "critical") (flags result) ->
      _generate_recommendation result = py "reject")
  /\ (forall fl, Exists (fun f => severity f = py "critical") fl ->
      _generate_recommendation (scored fl) = py "reject")
  /\ (forall f, severity f = py "high" ->
      (_generate_recommendation (scored [f]) = py "reject"
       <-> category f = py "violence_advocacy"
           \/ category f = py "hate_speech"
           \/ category f = py "despot_admiration")).
Proof.
  assert (forall res, Exists (fun f => severity f = py "critical") (flags res) ->
                      _generate_recommendation res = py "reject") as Hcrit.
  { intros res H.
    apply (recommendation_spec_functional (result := res)).
    - apply recommendation_meets_spec.
    - apply rule_reject. revert H. apply Exists_impl. intros f E; left; exact E. }
  assert (forall res, _generate_recommendation res = py "reject"
                      <-> Exists auto_reject_flag (flags res)) as Hrej.
  { intros res; split.
    + intros E. pose proof (recommendation_meets_spec res) as H.
      rewrite E in H. inversion H; assumption.
    + intros H. eapply recommendation_spec_functional;
        [apply recommendation_meets_spec | apply rule_reject; exact H]. }
  split; [|split; [|split; [|split]]].
  - intros r; split.
    + intros H. eapply recommendation_spec_functional; [exact H|].
      apply recommendation_meets_spec.
    + intros ->. apply recommendation_meets_spec.
  - apply Hrej.
  - apply Hcrit.
  - intros fl H. apply Hcrit. exact H.
  - intros f Hhigh. rewrite Hrej. change (flags (scored [f])) with [f]. split.
    + intros H. apply Exists_cons in H. destruct H as [[Hc | [_ Hc]] | Hc].
      * rewrite Hhigh in Hc. vm_compute in Hc. discriminate Hc.
      * exact Hc.
      * inversion Hc.
    + intros Hc. apply Exists_cons_hd. right. split; assumption.
Qed.

Lemma recommendation_decision_procedure_witness :
  let flag (category severity : str) :=
    mkContentFlag category severity [] [] None [] None None None None in
  _generate_recommendation
    (mkAnalysisResult None 0 [flag (py "unprofessional") (py "critical")] 0 (py "low") [] 0 [])
    = py "reject"
  /\ _generate_recommendation (scored [flag (py "unprofessional") (py "critical")]) = py "reject"
  /\ _generate_recommendation (scored [flag (py "violence_advocacy") (py "high")]) = py "reject"
  /\ _generate_recommendation (scored [flag (py "hate_speech") (py "high")]) = py "reject"
  /\ _generate_recommendation (scored [flag (py "despot_admiration") (py "high")]) = py "reject"
  /\ _generate_recommendation (scored [flag (py "regime_praise") (py "high")]) = py "pending_review"
  /\ _generate_recommendation (scored [flag (py "criminal_record") (py "high")]) = py "pending_review"
  /\ _generate_recommendation (scored [flag (py "hate_speech") (py "medium")]) = py "pending_review"
  /\ _generate_recommendation (scored [flag (py "hate_speech") (py "low")]) = py "approve".
Proof.
  intros flag.
  split; [|split; [|split; [|split; [|split; [|split; [|split; [|split]]]]]]].
  - apply (proj1 (proj2 (proj2 (recommendation_decision_procedure
             (mkAnalysisResult None 0 [flag (py "unprofessional") (py "critical")]
                0 (py "low") [] 0 []))))).
    apply Exists_cons_hd. reflexivity.
  - apply (proj1 (proj2 (proj2 (recommendation_decision_procedure
             (scored [flag (py "unprofessional") (py "critical")]))))).
    apply Exists_cons_hd. reflexivity.
  - apply (proj2 (proj2 (proj2 (proj2 (recommendation_decision_procedure (scored [])))))
             (flag (py "violence_advocacy") (py "high")) eq_refl).
    left; reflexivity.
  - apply (proj2 (proj2 (proj2 (proj2 (recommendation_decision_procedure (scored [])))))
             (flag (py "hate_speech") (py "high")) eq_refl).
    right; left; reflexivity.
  - apply (proj1 (proj2 (recommendation_decision_procedure
             (scored [flag (py "despot_admiration") (py "high")])))).
    apply Exists_cons_hd. right. split; [reflexivity|]. right; right; reflexivity.
  - symmetry.
    apply (proj1 (recommendation_decision_procedure (scored [flag (py "regime_praise") (py "high")]))).
    apply rule_review.
    + apply no_auto_reject. vm_compute. reflexivity.
    + left. vm_compute. reflexivity.
  - symmetry.
    apply (proj1 (recommendation_decision_procedure (scored [flag (py "criminal_record") (py "high")]))).
    apply rule_review.
    + apply no_auto_reject. vm_compute. reflexivity.
    + left. vm_compute. reflexivity.
  - symmetry.
    apply (proj1 (recommendation_decision_procedure (scored [flag (py "hate_speech") (py "medium")]))).
    apply rule_default.
    + apply no_auto_reject. vm_compute. reflexivity.
    + apply not_needs_review. vm_compute. reflexivity.
    + intros [H _]. vm_compute in H. discriminate H.
  - symmetry.
    apply (proj1 (recommendation_decision_procedure (scored [flag (py "hate_speech") (py "low")]))).
    apply rule_approve.
    + apply no_auto_reject. vm_compute. reflexivity.
    + apply not_needs_review. vm_compute. reflexivity.
    + vm_compute. reflexivity.
    + apply no_high_or_critical. vm_compute. reflexivity.
Defined.
(** ** The analysis of an applicant *)

Lemma for_each_unchanged {A S : Type} (l : list A) (body : S -> A -> outcome S) (s : S) :
  (forall x, In x l -> body s x = Ret s) -> for_each l body s = Ret s.
Proof.
  induction l as [|x l IH]; intros H; simpl; [reflexivity|].
  rewrite (H x (or_introl eq_refl)). simpl. apply IH.
  intros y Hy. apply H. right; exact Hy.
Qed.

Section ApplicantProofs.
Context {L : PyLib}.
Variable self : GuidelinesAnalyzer.

Lemma analyze_applicant_unflagged (now : Z) (a : Applicant)
    (content_items : list ContentItem) (social_profiles : option (list SocialProfile)) :
  no_flagged_content self content_items social_profiles ->
  analyze_applicant self now a content_items social_profiles
  = Ret (finish_result now a content_items (country_flags a)).
Proof.
  intros Hno. unfold analyze_applicant.
  change (match a_country a with
          | Some (c :: cs) => [] ++ _check_country (c :: cs)
          | _ => []
          end) with (country_flags a).
  rewrite for_each_unchanged.
  2:{ intros item Hin. destruct (text_content item) as [[|c cs]|] eqn:E; try reflexivity.
      rewrite Hno.
      - simpl. rewrite app_nil_r. reflexivity.
      - left. exists item. split; assumption. }
  cbv beta iota delta [bind].
  destruct social_profiles as [[|p ps]|]; try reflexivity.
  rewrite for_each_unchanged; [reflexivity|].
  intros q Hin. destruct (bio q) as [[|c cs]|] eqn:E; try reflexivity.
  rewrite Hno.
  - simpl. rewrite app_nil_r. reflexivity.
  - right. exists (p :: ps), q. repeat split; assumption.
Qed.
End ApplicantProofs.

Lemma no_flagged_content_nil {L : PyLib} (self : GuidelinesAnalyzer) :
  no_flagged_content self [] None.
Proof.
  intros text source u published [(item & [] & _)|(ps & p & E & _)]. discriminate.
Qed.


(** The fields of the result in terms of the collected flags *)
Lemma finish_result_fields {L : PyLib} (now : Z) (a : Applicant)
    (content_items : list ContentItem) (fl : list ContentFlag) :
  let result := finish_result now a content_items fl in
  applicant_id result = a_id a
  /\ total_content_items result = Z.of_nat (List.length content_items)
  /\ flags result = fl
  /\ risk_score result = _calculate_risk_score fl
  /\ risk_level result = _determine_risk_level (_calculate_risk_score fl)
  /\ recommendation result = _generate_recommendation (scored fl)
  /\ analyzed_at result = now.
Proof.
  intros result. repeat split.
Qed.

Lemma check_country_russia :
  exists f, _check_country (py "Russia") = [f]
            /\ category f = py "authoritarian_connection"
            /\ severity f = py "high"
            /\ _calculate_risk_score [f] = 20%Z
            /\ _determine_risk_level 20 = py "medium"
            /\ _generate_recommendation (scored [f]) = py "pending_review".
Proof.
  eexists. split; [vm_compute; reflexivity|].
  repeat split; vm_compute; reflexivity.
Qed.

Lemma country_flags_of {L : PyLib} (a : Applicant) (c : str) :
  a_country a = Some c -> c <> [] -> country_flags a = _check_country c.
Proof.
  intros E Hne. unfold country_flags. rewrite E.
  destruct c; [congruence | reflexivity].
Qed.

(** C5: country classification is a lookup in the table.  An applicant
    from "Russia" with no flagged content gets exactly one flag,
    [authoritarian_connection] at [high], hence score 20, level [medium]
    and [pending_review]; "Canada" gets no country flag; "Wakanda" is
    classified [unknown], not authoritarian, and gets no country flag. *)
Theorem country_classification_lookup {L : PyLib} (self : GuidelinesAnalyzer)
    (now : Z) (a : Applicant) (content_items : list ContentItem)
    (social_profiles : option (list SocialProfile)) :
  no_flagged_content self content_items social_profiles ->
  (a_country a = Some (py "Russia") ->
   exists result f,
     analyze_applicant self now a content_items social_profiles = Ret result
     /\ flags result = [f]
     /\ category f = py "authoritarian_connection"
     /\ severity f = py "high"
     /\ risk_score result = 20%Z
     /\ risk_level result = py "medium"
     /\ recommendation result = py "pending_review")
  /\ (a_country a = Some (py "Canada") ->
      exists result,
        analyze_applicant self now a content_items social_profiles = Ret result
        /\ flags result = [])
  /\ _check_country (py "Canada") = []
  /\ (a_country a = Some (py "Wakanda") ->
      exists result,
        analyze_applicant self now a content_items social_profiles = Ret result
        /\ flags result = [])
  /\ _check_country (py "Wakanda") = []
  /\ classification (get_regime_classification (py "Wakanda")) = py "unknown"
  /\ is_authoritarian (get_regime_classification (py "Wakanda")) = false.
Proof.
  intros Hno.
  pose proof (analyze_applicant_unflagged now a Hno) as Hrun.
  pose proof (finish_result_fields now a content_items (country_flags a))
    as (_ & _ & Hfl & Hsc & Hlv & Hrec & _).
  split; [|split; [|split; [|split; [|split; [|split]]]]].
  - intros Hc.
    destruct check_country_russia as (f & Ef & Hcat & Hsev & Hs & Hl & Hr).
    assert (country_flags a = [f]) as E.
    { rewrite (country_flags_of a Hc); [exact Ef | discriminate]. }
    rewrite E in *.
    exists (finish_result now a content_items [f]), f.
    split; [exact Hrun|]. split; [exact Hfl|].
    split; [exact Hcat|]. split; [exact Hsev|].
    split; [rewrite Hsc; exact Hs|].
    split; [rewrite Hlv, Hs; exact Hl|].
    rewrite Hrec; exact Hr.
  - intros Hc.
    assert (country_flags a = []) as E.
    { rewrite (country_flags_of a Hc); [vm_compute; reflexivity | discriminate]. }
    rewrite E in *. eexists. split; [exact Hrun | exact Hfl].
  - vm_compute; reflexivity.
  - intros Hc.
    assert (country_flags a = []) as E.
    { rewrite (country_flags_of a Hc); [vm_compute; reflexivity | discriminate]. }
    rewrite E in *. eexists. split; [exact Hrun | exact Hfl].
  - vm_compute; reflexivity.
  - vm_compute; reflexivity.
  - vm_compute; reflexivity.
Qed.

(** ** The pattern detector *)

Lemma for_each_append {A B : Type} (l : list A) (g : A -> list B)
    (body : list B -> A -> outcome (list B)) (s : list B) :
  (forall s x, In x l -> body s x = Ret (s ++ g x)) ->
  for_each l body s = Ret (s ++ flat_map g l).
Proof.
  revert s; induction l as [|x l IH]; intros s H; simpl.
  - rewrite app_nil_r; reflexivity.
  - rewrite (H s x (or_introl eq_refl)). simpl.
    rewrite IH, app_assoc; [reflexivity|].
    intros s' y Hy. apply H. right; exact Hy.
Qed.

(** A loop whose body appends to the state or raises: it appends for
    every element, or it raises what the body raises for one of them. *)
Lemma for_each_append_or_raise {A B : Type} (l : list A) (g : A -> list B)
    (bad : A -> exn -> Prop) (body : list B -> A -> outcome (list B)) (s : list B) :
  (forall s x, In x l ->
               body s x = Ret (s ++ g x) \/ exists e, body s x = Raise e /\ bad x e) ->
  for_each l body s = Ret (s ++ flat_map g l)
  \/ exists e x, In x l /\ bad x e /\ for_each l body s = Raise e.
Proof.
  revert s; induction l as [|x l IH]; intros s H; simpl.
  - left. rewrite app_nil_r; reflexivity.
  - destruct (H s x (or_introl eq_refl)) as [E | (e & E & Hb)]; rewrite E; simpl.
    + destruct (IH (s ++ g x)) as [E' | (e & y & Hy & Hb & E')].
      * intros s' y Hy. apply H. right; exact Hy.
      * left. rewrite E', app_assoc. reflexivity.
      * right. exists e, y. split; [right; exact Hy | split; assumption].
    + right. exists e, x. split; [left; reflexivity | split; [exact Hb | reflexivity]].
Qed.

(** A loop raises when its body raises for one of the elements,
    whatever the state. *)
Lemma for_each_raises {A S : Type} (l : list A) (body : S -> A -> outcome S) (x : A) :
  In x l -> (forall s, exists e, body s x = Raise e) ->
  forall s, exists e, for_each l body s = Raise e.
Proof.
  intros Hin Hbad. induction l as [|y l IH]; intros s; [destruct Hin|].
  cbn [for_each]. destruct Hin as [->|Hin].
  - destruct (Hbad s) as (e & ->). exists e. reflexivity.
  - destruct (body s y) as [s'|e]; cbn [bind].
    + apply IH, Hin.
    + exists e. reflexivity.
Qed.

Lemma fold_left_snoc_map {A B : Type} (f : A -> B) (l : list A) (acc : list B) :
  fold_left (fun acc x => acc ++ [f x]) l acc = acc ++ map f l.
Proof.
  revert acc; induction l as [|x l IH]; intros acc; simpl.
  - rewrite app_nil_r; reflexivity.
  - rewrite IH, <- app_assoc; reflexivity.
Qed.

Lemma fold_left_append {A B : Type} (g : A -> list B) (l : list A) (acc : list B) :
  fold_left (fun acc x => acc ++ g x) l acc = acc ++ flat_map g l.
Proof.
  revert acc; induction l as [|x l IH]; intros acc; simpl.
  - rewrite app_nil_r; reflexivity.
  - rewrite IH, <- app_assoc; reflexivity.
Qed.

Lemma dict_lookup_In {V : Type} (d : list (str * V)) (k : str) (v : V) :
  dict_lookup d k = Some v -> In (k, v) d.
Proof.
  induction d as [|[k' v'] d IH]; simpl; [discriminate|].
  destruct (str_eqb_spec k k') as [->|_].
  - intros E; injection E as ->. left; reflexivity.
  - intros E. right. apply IH, E.
Qed.

Section DetectorProofs.
Context {L : PyLib}.

(** The [try] statement appends the matches of a pattern that
    compiles, appends nothing on [re.error], and lets any other
    exception through. *)
Lemma scan_pattern_outcome (text cat : str) (matches : list KeywordMatch)
    (entry : str * str) :
  scan_pattern text (str_lower text) cat matches entry
  = Ret (matches ++ pattern_matches text cat entry)
  \/ exists e, scan_pattern text (str_lower text) cat matches entry = Raise e
               /\ re_finditer (fst entry) (str_lower text) = Raise e
               /\ e <> re_error.
Proof.
  destruct entry as [pattern sev]. unfold scan_pattern, pattern_matches. simpl fst; simpl snd.
  destruct (re_finditer pattern (str_lower text)) as [ms|e]; simpl.
  - left. rewrite fold_left_snoc_map. reflexivity.
  - destruct e; simpl;
      try (right; eexists; repeat split; discriminate).
    left. rewrite app_nil_r. reflexivity.
Qed.

(** [analyze_text] returns the matches of the patterns that compile,
    unless [re.finditer] raises another exception than [re.error] on a
    pattern of the database: that exception leaves [analyze_text]. *)
Lemma analyze_text_outcome (kws : keyword_db) (text : str)
    (categories : option (list str)) :
  analyze_text kws text categories = Ret (all_matches kws text categories)
  \/ exists e, analyze_text kws text categories = Raise e
               /\ raised_by_pattern kws text e.
Proof.
  unfold analyze_text, all_matches.
  destruct text as [|c text']; [left; reflexivity|].
  set (text := c :: text').
  assert (text <> []) as Hne0 by discriminate.
  fold (categories_to_check kws categories).
  destruct (for_each_append_or_raise
              (categories_to_check kws categories)
              (category_matches kws text)
              (fun cat e => raised_by_pattern kws text e)
              (fun matches category =>
                 match dict_lookup kws category with
                 | None => Ret matches
                 | Some patterns =>
                     for_each patterns (scan_pattern text (str_lower text) category) matches
                 end) [])
    as [E | (e & cat & _ & Hb & E)].
  - intros s cat _. unfold category_matches.
    destruct (dict_lookup kws cat) as [patterns|] eqn:El.
    + destruct (for_each_append_or_raise patterns (pattern_matches text cat)
                  (fun entry e => re_finditer (fst entry) (str_lower text) = Raise e
                                  /\ e <> re_error)
                  (scan_pattern text (str_lower text) cat) s)
        as [E | (e & [pattern sev] & Hin & [Hr Hne] & E)].
      * intros s' entry _.
        destruct (scan_pattern_outcome text cat s' entry) as [E | (e & E & Hr & Hne)];
          [left; exact E | right; exists e; auto].
      * left; exact E.
      * right. exists e. split; [exact E|]. split; [exact Hne0|].
        exists cat, patterns, pattern, sev. auto.
    + left. rewrite app_nil_r. reflexivity.
  - left. exact E.
  - right. exists e. split; assumption.
Qed.

Lemma scan_pattern_raises (text cat : str) (matches : list KeywordMatch)
    (pattern sev : str) (e : exn) :
  re_finditer pattern (str_lower text) = Raise e -> e <> re_error ->
  scan_pattern text (str_lower text) cat matches (pattern, sev) = Raise e.
Proof.
  intros Hr Hne. unfold scan_pattern. rewrite Hr. cbn [bind try_except].
  destruct e; try reflexivity. congruence.
Qed.

(** An exception of [re.finditer] other than [re.error] is not
    handled: the scan of all categories raises. *)
Lemma analyze_text_raises (kws : keyword_db) (text : str) (e : exn) :
  raised_by_pattern kws text e ->
  exists e', analyze_text kws text None = Raise e'.
Proof.
  intros (Hne0 & cat & patterns & pattern & sev & Hc & Hp & Hr & Hne).
  unfold analyze_text. destruct text as [|c text']; [congruence|].
  set (text := c :: text') in *.
  apply for_each_raises with (x := cat).
  - apply dict_lookup_In in Hc. apply (in_map fst) in Hc. exact Hc.
  - intros s. rewrite Hc.
    apply for_each_raises with (x := (pattern, sev)); [exact Hp|].
    intros s'. exists e. apply scan_pattern_raises; assumption.
Qed.

(** When the patterns raise nothing but [re.error], [analyze_text]
    returns. *)
Lemma analyze_text_returns (kws : keyword_db) (text : str)
    (categories : option (list str)) :
  only_re_errors kws text ->
  analyze_text kws text categories = Ret (all_matches kws text categories).
Proof.
  intros Hok.
  destruct (analyze_text_outcome kws text categories)
    as [E | (e & _ & _ & cat & patterns & pattern & sev & Hc & Hp & Hr & Hne)];
    [exact E|].
  exfalso. apply Hne. eapply Hok; eassumption.
Qed.

Lemma only_re_errorsb_spec (kws : keyword_db) (text : str) :
  only_re_errorsb kws text = true -> only_re_errors kws text.
Proof.
  unfold only_re_errorsb. intros H cat patterns pattern sev e Hc Hp Hr.
  apply dict_lookup_In in Hc.
  rewrite forallb_forall in H. specialize (H _ Hc). cbn [snd] in H.
  rewrite forallb_forall in H. specialize (H _ Hp). cbn [fst] in H.
  rewrite Hr in H. destruct e; try discriminate H. reflexivity.
Qed.

(** The built-in patterns compile. *)
Lemma builtin_only_re_errors (text : str) :
  only_re_errors _build_keyword_database text.
Proof.
  intros cat patterns pattern sev e Hc Hp Hr.
  apply dict_lookup_In in Hc.
  destruct (@builtin_patterns_compile L cat patterns pattern sev (str_lower text) Hc Hp)
    as [ms E].
  congruence.
Qed.

Lemma pattern_matches_compiles (text cat : str) (entry : str * str) :
  compiles text entry = false -> pattern_matches text cat entry = [].
Proof.
  unfold compiles, pattern_matches.
  destruct (re_finditer (fst entry) (str_lower text)); [discriminate | reflexivity].
Qed.

Lemma flat_map_filter_compiles (text cat : str) (patterns : list (str * str)) :
  flat_map (pattern_matches text cat) (filter (compiles text) patterns)
  = flat_map (pattern_matches text cat) patterns.
Proof.
  induction patterns as [|entry patterns IH]; simpl; [reflexivity|].
  destruct (compiles text entry) eqn:E; simpl.
  - rewrite IH; reflexivity.
  - rewrite (pattern_matches_compiles text cat entry E). exact IH.
Qed.

Lemma dict_lookup_drop_malformed (text : str) (kws : keyword_db) (cat : str) :
  dict_lookup (drop_malformed text kws) cat
  = option_map (filter (compiles text)) (dict_lookup kws cat).
Proof.
  induction kws as [|[k v] kws IH]; simpl; [reflexivity|].
  destruct (str_eqb cat k); [reflexivity | exact IH].
Qed.

Lemma only_re_errors_drop_malformed (text : str) (kws : keyword_db) :
  only_re_errors (drop_malformed text kws) text.
Proof.
  intros cat patterns pattern sev e Hc Hp Hr.
  rewrite dict_lookup_drop_malformed in Hc.
  destruct (dict_lookup kws cat) as [l|]; [|discriminate Hc].
  injection Hc as <-.
  apply filter_In in Hp. destruct Hp as [_ Hp].
  unfold compiles in Hp. cbn [fst] in Hp. rewrite Hr in Hp. discriminate Hp.
Qed.

Lemma all_matches_drop_malformed (kws : keyword_db) (text : str)
    (categories : option (list str)) :
  all_matches (drop_malformed text kws) text categories
  = all_matches kws text categories.
Proof.
  unfold all_matches. destruct text as [|c text']; [reflexivity|].
  set (text := c :: text').
  assert (categories_to_check (drop_malformed text kws) categories
          = categories_to_check kws categories) as ->.
  { unfold categories_to_check, drop_malformed.
    destruct categories as [[|? ?]|]; try reflexivity;
      rewrite map_map; reflexivity. }
  apply flat_map_ext. intros cat. unfold category_matches.
  rewrite dict_lookup_drop_malformed.
  destruct (dict_lookup kws cat); simpl; [|reflexivity].
  apply flat_map_filter_compiles.
Qed.

Lemma all_matches_In (kws : keyword_db) (text : str) (categories : option (list str))
    (m : KeywordMatch) :
  In m (all_matches kws text categories) ->
  exists cat patterns pattern sev ms sp,
    In cat (categories_to_check kws categories)
    /\ dict_lookup kws cat = Some patterns
    /\ In (pattern, sev) patterns
    /\ re_finditer pattern (str_lower text) = Ret ms
    /\ In sp ms
    /\ m = text_match text (str_lower text) cat sev sp.
Proof.
  unfold all_matches. destruct text as [|c text']; [intros []|].
  set (text := c :: text').
  rewrite in_flat_map. intros (cat & Hcat & Hm).
  unfold category_matches in Hm.
  destruct (dict_lookup kws cat) as [patterns|] eqn:El; [|destruct Hm].
  apply in_flat_map in Hm. destruct Hm as ([pattern sev] & Hp & Hm).
  unfold pattern_matches in Hm. simpl fst in Hm; simpl snd in Hm.
  destruct (re_finditer pattern (str_lower text)) as [ms|] eqn:Ef; [|destruct Hm].
  apply in_map_iff in Hm. destruct Hm as (sp & <- & Hsp).
  exists cat, patterns, pattern, sev, ms, sp. repeat split; assumption.
Qed.

Lemma In_all_matches (kws : keyword_db) (text : str) (categories : option (list str))
    (cat : str) (patterns : list (str * str)) (pattern sev : str)
    (ms : list span) (sp : span) :
  text <> [] ->
  In cat (categories_to_check kws categories) ->
  dict_lookup kws cat = Some patterns ->
  In (pattern, sev) patterns ->
  re_finditer pattern (str_lower text) = Ret ms ->
  In sp ms ->
  In (text_match text (str_lower text) cat sev sp) (all_matches kws text categories).
Proof.
  intros Hne Hcat Hl Hp Hf Hsp. unfold all_matches.
  destruct text as [|c text']; [congruence|].
  set (text := c :: text') in *.
  apply in_flat_map. exists cat. split; [exact Hcat|].
  unfold category_matches. rewrite Hl.
  apply in_flat_map. exists (pattern, sev). split; [exact Hp|].
  unfold pattern_matches. simpl fst; simpl snd. rewrite Hf.
  apply in_map. exact Hsp.
Qed.
End DetectorProofs.

(** C8: a pattern that does not compile, one on which [re.finditer]
    raises [re.error], never makes [analyze_text] raise; the scan
    returns the matches of all the other patterns, the same as on the
    database without the malformed entries, and every match of a
    well-formed pattern of a checked category is reported. *)
Theorem malformed_pattern_is_skipped {L : PyLib} (kws : keyword_db) (text : str)
    (categories : option (list str)) :
  only_re_errors kws text ->
  analyze_text kws text categories = Ret (all_matches kws text categories)
  /\ analyze_text kws text categories
     = analyze_text (drop_malformed text kws) text categories
  /\ (forall cat patterns pattern sev ms sp,
        text <> [] ->
        In cat (categories_to_check kws categories) ->
        dict_lookup kws cat = Some patterns ->
        In (pattern, sev) patterns ->
        re_finditer pattern (str_lower text) = Ret ms ->
        In sp ms ->
        In (text_match text (str_lower text) cat sev sp)
           (all_matches kws text categories)).
Proof.
  intros Hok.
  split; [apply analyze_text_returns; exact Hok|]. split.
  - rewrite (analyze_text_returns _ Hok).
    rewrite (analyze_text_returns _ (only_re_errors_drop_malformed text kws)).
    rewrite all_matches_drop_malformed. reflexivity.
  - intros. eapply In_all_matches; eassumption.
Qed.
(** ** Texts without findings *)

Section QuietProofs.
Context {L : PyLib}.

Lemma no_pattern_matchesb_sound (kws : keyword_db) (text : str) :
  no_pattern_matchesb kws text = true -> no_pattern_matches kws text.
Proof.
  unfold no_pattern_matchesb, no_pattern_matches.
  rewrite forallb_forall. intros H cat patterns pattern sev Hc Hp.
  specialize (H _ Hc). cbn [snd] in H. rewrite forallb_forall in H.
  specialize (H _ Hp). cbn [fst] in H.
  destruct (re_finditer pattern (str_lower text)) as [[|m ms]|[]];
    try discriminate H; [left | right]; reflexivity.
Qed.

Lemma no_pattern_matches_only_re_errors (kws : keyword_db) (text : str) :
  no_pattern_matches kws text -> only_re_errors kws text.
Proof.
  intros Hq cat patterns pattern sev e Hc Hp Hr.
  apply dict_lookup_In in Hc.
  destruct (Hq cat patterns pattern sev Hc Hp) as [E|E]; congruence.
Qed.

Lemma all_matches_quiet (kws : keyword_db) (text : str) (categories : option (list str)) :
  no_pattern_matches kws text -> all_matches kws text categories = [].
Proof.
  intros Hq. destruct (all_matches kws text categories) as [|m l] eqn:E; [reflexivity|].
  exfalso.
  destruct (all_matches_In kws text categories m)
    as (cat & patterns & pattern & sev & ms & sp & _ & Hl & Hp & Hf & Hsp & _).
  { rewrite E. left; reflexivity. }
  apply dict_lookup_In in Hl.
  destruct (Hq cat patterns pattern sev Hl Hp) as [E'|E']; rewrite E' in Hf.
  - injection Hf as <-. exact Hsp.
  - discriminate Hf.
Qed.

Lemma analyze_content_quiet (self : GuidelinesAnalyzer) (text : str)
    (source u published : option str) :
  no_pattern_matches (keywords self) text ->
  self_strict_mode self = false \/ check_for_authoritarian_mentions text = [] ->
  _analyze_content self text source u published = Ret [].
Proof.
  intros Hq Hm. unfold _analyze_content.
  rewrite analyze_text_returns by (apply no_pattern_matches_only_re_errors; exact Hq).
  rewrite all_matches_quiet by exact Hq.
  cbn [bind group_by_category fold_left for_each].
  destruct Hm as [-> | ->].
  - destruct (check_for_authoritarian_mentions text); reflexivity.
  - reflexivity.
Qed.
End QuietProofs.

(** C4 (as amended): when no pattern of any category matches in a text,
    [analyze_text] returns the empty list; and for an applicant without
    country whose scanned texts are all of that kind, [analyze_applicant]
    yields no flag, score 0, level [low], recommendation [approve] and
    the summary that the applicant appears to meet the guidelines,
    provided strict mode is off or the texts mention no authoritarian
    leader, entity or country either. *)
Theorem no_match_no_findings {L : PyLib} (self : GuidelinesAnalyzer) :
  (forall text categories,
      no_pattern_matches (keywords self) text ->
      analyze_text (keywords self) text categories = Ret [])
  /\ (forall now a content_items social_profiles,
        a_country a = None ->
        (forall text, scanned_text content_items social_profiles text ->
                      no_pattern_matches (keywords self) text) ->
        (self_strict_mode self = false
         \/ forall text, scanned_text content_items social_profiles text ->
                         check_for_authoritarian_mentions text = []) ->
        exists result,
          analyze_applicant self now a content_items social_profiles = Ret result
          /\ flags result = []
          /\ risk_score result = 0%Z
          /\ risk_level result = py "low"
          /\ recommendation result = py "approve"
          /\ summary result
             = py "No concerning content found. Applicant appears to meet vetting guidelines.").
Proof.
  split.
  - intros text categories Hq.
    rewrite analyze_text_returns by (apply no_pattern_matches_only_re_errors; exact Hq).
    rewrite all_matches_quiet by exact Hq. reflexivity.
  - intros now a content_items social_profiles Hc Hq Hm.
    assert (no_flagged_content self content_items social_profiles) as Hno.
    { intros text source u published Hs. apply analyze_content_quiet.
      - apply Hq, Hs.
      - destruct Hm as [Hm|Hm]; [left; exact Hm | right; apply Hm, Hs]. }
    exists (finish_result now a content_items []).
    pose proof (analyze_applicant_unflagged now a Hno) as Hrun.
    unfold country_flags in Hrun. rewrite Hc in Hrun.
    split; [exact Hrun|]. repeat split.
Qed.

(** ** The evidence of a flag *)

Lemma max_from_spec {A : Type} (key : A -> Z) (l : list A) (best : A) :
  In (max_from key best l) (best :: l)
  /\ (key best <= key (max_from key best l))%Z
  /\ forall x, In x l -> (key x <= key (max_from key best l))%Z.
Proof.
  revert best; induction l as [|y l IH]; intros best; simpl.
  - split; [left; reflexivity|]. split; [lia|]. intros x [].
  - destruct (IH (if (key y >? key best)%Z then y else best)) as (Hin & Hb & Hall).
    split; [|split].
    + destruct Hin as [E|Hin]; [|right; right; exact Hin].
      destruct (key y >? key best)%Z; [right; left | left]; exact E.
    + destruct (Z.gtb_spec (key y) (key best)); lia.
    + intros x [E|Hx]; [subst x | apply Hall, Hx].
      destruct (Z.gtb_spec (key y) (key best)); lia.
Qed.

Lemma highest_severity_first_present (ms : list KeywordMatch) :
  (forall sev, highest_severity ms = sev ->
     (exists m, In m ms /\ km_severity m = sev)
     \/ (sev = py "low" /\ forall m, In m ms -> ~ In (km_severity m) severity_order))
  /\ (forall m, In m ms -> km_severity m = py "critical" ->
        highest_severity ms = py "critical").
Proof.
  unfold highest_severity. split.
  - intros sev E.
    destruct (find _ severity_order) as [sev'|] eqn:F.
    + subst sev'. apply find_some in F. destruct F as [_ F].
      apply existsb_exists in F. destruct F as (m & Hm & Em).
      left. exists m. split; [exact Hm | apply str_eqb_eq, Em].
    + right. split; [symmetry; exact E|].
      intros m Hm Hin.
      pose proof (find_none _ _ F _ Hin) as N. simpl in N.
      assert (existsb (fun m0 => str_eqb (km_severity m0) (km_severity m)) ms = true) as X.
      { apply existsb_exists. exists m. split; [exact Hm | apply str_eqb_refl]. }
      congruence.
  - intros m Hm Em.
    assert (existsb (fun m0 => str_eqb (km_severity m0) (py "critical")) ms = true) as X.
    { apply existsb_exists. exists m. split; [exact Hm | apply str_eqb_eq, Em]. }
    unfold severity_order. simpl find. rewrite X. reflexivity.
Qed.

Lemma best_match_maximal_key (ms : list KeywordMatch) (best : KeywordMatch) :
  best_match ms = Ret best ->
  In best ms /\ forall m, In m ms -> (evidence_key m <= evidence_key best)%Z.
Proof.
  destruct ms as [|m0 ms]; intros E; [discriminate|].
  injection E as <-.
  destruct (max_from_spec evidence_key ms m0) as (Hin & Hb & Hall).
  split; [exact Hin|]. intros m [<-|Hm]; [exact Hb | apply Hall, Hm].
Qed.

(** C6 (the code departs from the claim): the severity of the flag of a
    group is the first one present in critical > high > medium > low,
    but the evidence is taken by [max] over the position in that order,
    so it comes from a match whose position is the largest, a least
    severe match of the group.  On [call_to_arms] the group holds a
    [high] match and a [low] match, the flag is [high], and its evidence
    is the context of the [low] match "time for action". *)
Theorem evidence_from_least_severe_match :
  exists m_high m_low flag,
    @analyze_text latin_runtime (keywords default_analyzer) call_to_arms None
    = Ret [m_high; m_low]
    /\ km_category m_high = km_category m_low
    /\ km_keyword m_high = py "take up arms"
    /\ km_severity m_high = py "high"
    /\ km_keyword m_low = py "time for action"
    /\ km_severity m_low = py "low"
    /\ best_match [m_high; m_low] = Ret m_low
    /\ @_analyze_content latin_runtime default_analyzer call_to_arms (Some (py "twitter"))
         None None = Ret [flag]
    /\ category flag = py "violence_advocacy"
    /\ severity flag = py "high"
    /\ evidence_snippet flag = Some (km_context m_low)
    /\ km_context m_low
       = py "It is time for action, friends. The years of waiting and of petitions t..."
    /\ km_context m_high
       = py "...at nobody reads have taught us one thing: we will take up arms.".
Proof.
  do 3 eexists.
  repeat (split; [vm_compute; reflexivity|]).
  vm_compute; reflexivity.
Qed.

(** ** The matcher *)

Section MatcherProofs.
Variable isalnum : N -> bool.
Variable ceq : N -> N -> bool.
Variable t : str.

Lemma match_char_within (p : N -> bool) : within t (match_char t p).
Proof.
  intros i k e Hi H. unfold match_char in H.
  destruct (nth_error t i) as [c|] eqn:E; [|discriminate].
  destruct (p c); [|discriminate].
  assert (i < List.length t) by (apply nth_error_Some; congruence).
  exists (S i). split; [lia | exact H].
Qed.

Lemma star_loop_within (step : nat -> (nat -> option nat) -> option nat)
    (k : nat -> option nat) :
  within t step ->
  forall fuel i e, i <= List.length t -> star_loop step k fuel i = Some e ->
                   exists j, i <= j <= List.length t /\ k j = Some e.
Proof.
  intros Hs. induction fuel as [|fuel IH]; intros i e Hi H; simpl in H.
  - exists i. split; [lia | exact H].
  - destruct (step i _) as [e'|] eqn:E.
    + injection H as ->.
      apply Hs in E; [|exact Hi]. destruct E as (j & Hj & E).
      destruct (Nat.ltb_spec i j).
      * apply IH in E; [|lia]. destruct E as (j' & Hj' & E).
        exists j'. split; [lia | exact E].
      * exists j. split; [lia | exact E].
    + exists i. split; [lia | exact H].
Qed.

Lemma rmatch_within (r : regex) : within t (rmatch isalnum ceq t r).
Proof.
  induction r as [| c | | | | | r1 IH1 r2 IH2 | r1 IH1 r2 IH2 | r1 IH1
                 | r1 IH1 | r1 IH1 | r1 IH1];
    intros i k e Hi H; cbn [rmatch] in H;
    try (apply (@match_char_within _ i k e Hi H)).
  - exists i. split; [lia | exact H].
  - destruct (at_boundary isalnum t i); [|discriminate].
    exists i. split; [lia | exact H].
  - apply IH1 in H; [|exact Hi]. destruct H as (j & Hj & H).
    apply IH2 in H; [|lia]. destruct H as (j' & Hj' & H).
    exists j'. split; [lia | exact H].
  - destruct (rmatch isalnum ceq t r1 i k) as [e'|] eqn:E.
    + injection H as ->. apply IH1 in E; assumption.
    + apply IH2 in H; assumption.
  - apply IH1 in H; assumption.
  - destruct (rmatch isalnum ceq t r1 i k) as [e'|] eqn:E.
    + injection H as ->. apply IH1 in E; assumption.
    + exists i. split; [lia | exact H].
  - eapply star_loop_within; eassumption.
  - apply IH1 in H; [|exact Hi]. destruct H as (j & Hj & H).
    eapply star_loop_within in H; [|exact IH1|lia].
    destruct H as (j' & Hj' & H). exists j'. split; [lia | exact H].
Qed.

Variable r : regex.

Lemma accept_inv (adv : bool) (i j e : nat) : accept adv i j = Some e -> e = j.
Proof.
  unfold accept. destruct (adv && Nat.eqb j i); [discriminate|].
  intros H; injection H as <-; reflexivity.
Qed.

(** A match found by the scan is a success of the matcher at its start
    position. *)
Lemma search_from_inv (n i : nat) (adv : bool) (s e : nat) :
  search_from isalnum ceq t r n i adv = Some (s, e) ->
  i <= s < i + n
  /\ exists adv', rmatch isalnum ceq t r s (accept adv' s) = Some e.
Proof.
  revert i adv; induction n as [|n IH]; intros i adv H; simpl in H; [discriminate|].
  fold (accept adv i) in H.
  destruct (rmatch isalnum ceq t r i (accept adv i)) as [e'|] eqn:E.
  - injection H as <- <-. split; [lia|]. exists adv. exact E.
  - apply IH in H. destruct H as (Hs & adv' & H).
    split; [lia|]. exists adv'. exact H.
Qed.

Lemma search_range (i : nat) (adv : bool) (s e : nat) :
  i <= List.length t ->
  search isalnum ceq t r i adv = Some (s, e) ->
  i <= s /\ s <= e /\ e <= List.length t.
Proof.
  intros Hi H. unfold search in H.
  apply search_from_inv in H. destruct H as (Hs & adv' & H).
  apply rmatch_within in H; [|lia]. destruct H as (j & Hj & H).
  apply accept_inv in H. subst e. lia.
Qed.

Lemma finditer_from_inv (fuel i : nat) (adv : bool) (s e : nat) :
  i <= List.length t ->
  In (s, e) (finditer_from isalnum ceq t r fuel i adv) ->
  i <= s /\ s <= e /\ e <= List.length t
  /\ exists adv', rmatch isalnum ceq t r s (accept adv' s) = Some e.
Proof.
  revert i adv; induction fuel as [|fuel IH]; intros i adv Hi H; simpl in H; [destruct H|].
  destruct (search isalnum ceq t r i adv) as [[s' e']|] eqn:E; [|destruct H].
  pose proof (search_range adv Hi E) as (H1 & H2 & H3).
  destruct H as [H|H].
  - injection H as <- <-. repeat split; try assumption.
    unfold search in E. apply search_from_inv in E. apply E.
  - apply IH in H; [|lia]. destruct H as (? & ? & ? & ?).
    repeat split; try assumption; lia.
Qed.

(** The spans of [finditer] lie in the text. *)
Lemma finditer_range (s e : nat) :
  In (s, e) (finditer isalnum ceq t r) -> s <= e /\ e <= List.length t.
Proof.
  intros H. apply finditer_from_inv in H; [|lia]. tauto.
Qed.

Lemma finditer_inv (s e : nat) :
  In (s, e) (finditer isalnum ceq t r) ->
  s <= e /\ e <= List.length t
  /\ exists adv', rmatch isalnum ceq t r s (accept adv' s) = Some e.
Proof.
  intros H. apply finditer_from_inv in H; [|lia]. tauto.
Qed.
End MatcherProofs.

(** ** The regime table *)

Lemma str_in_app (x : str) (a b : list str) :
  str_in x (a ++ b) = str_in x a || str_in x b.
Proof. unfold str_in. apply existsb_app. Qed.

Lemma disjoint_lists (a b : list str) :
  forallb (fun x => negb (str_in x b)) a = true ->
  forall x, str_in x a = true -> str_in x b = false.
Proof.
  intros H x Hx. apply str_in_In in Hx.
  rewrite forallb_forall in H. apply H in Hx.
  destruct (str_in x b); [discriminate | reflexivity].
Qed.

Lemma democratic_not_hybrid (x : str) :
  str_in x ALL_DEMOCRATIC = true -> str_in x ALL_HYBRID_AUTHORITARIAN = false.
Proof. apply disjoint_lists. vm_compute. reflexivity. Qed.

Lemma democratic_not_fully (x : str) :
  str_in x ALL_DEMOCRATIC = true -> str_in x ALL_FULLY_AUTHORITARIAN = false.
Proof. apply disjoint_lists. vm_compute. reflexivity. Qed.

Lemma hybrid_not_fully (x : str) :
  str_in x ALL_HYBRID_AUTHORITARIAN = true -> str_in x ALL_FULLY_AUTHORITARIAN = false.
Proof. apply disjoint_lists. vm_compute. reflexivity. Qed.

(** The five outcomes of the lookup, by the lists the stripped name is
    in *)
Lemma regime_classification_cases (c : str) :
  let n := py_strip c in
  let r := get_regime_classification c in
  (str_in n ALL_DEMOCRATIC = true
   /\ classification r = py "democratic" /\ is_authoritarian r = false
   /\ region r = _get_region n (py "democratic"))
  \/ (str_in n ALL_DEMOCRATIC = false /\ str_in n ALL_HYBRID_AUTHORITARIAN = true
      /\ classification r = py "hybrid_authoritarian" /\ is_authoritarian r = true
      /\ region r = _get_region n (py "hybrid"))
  \/ (str_in n ALL_DEMOCRATIC = false /\ str_in n ALL_HYBRID_AUTHORITARIAN = false
      /\ str_in n ALL_FULLY_AUTHORITARIAN = true
      /\ classification r = py "fully_authoritarian" /\ is_authoritarian r = true
      /\ region r = _get_region n (py "authoritarian"))
  \/ (str_in n ALL_DEMOCRATIC = false /\ str_in n ALL_HYBRID_AUTHORITARIAN = false
      /\ str_in n ALL_FULLY_AUTHORITARIAN = false
      /\ str_in n ALL_UNCLASSIFIED = true
      /\ classification r = py "unclassified" /\ is_authoritarian r = false
      /\ region r = py "americas")
  \/ (str_in n ALL_DEMOCRATIC = false /\ str_in n ALL_HYBRID_AUTHORITARIAN = false
      /\ str_in n ALL_FULLY_AUTHORITARIAN = false
      /\ str_in n ALL_UNCLASSIFIED = false
      /\ classification r = py "unknown" /\ is_authoritarian r = false
      /\ region r = py "unknown").
Proof.
  intros n r. unfold r, get_regime_classification. fold n.
  destruct (str_in n ALL_DEMOCRATIC); [left; repeat split|].
  destruct (str_in n ALL_HYBRID_AUTHORITARIAN); [right; left; repeat split|].
  destruct (str_in n ALL_FULLY_AUTHORITARIAN); [right; right; left; repeat split|].
  destruct (str_in n ALL_UNCLASSIFIED);
    [right; right; right; left; repeat split | right; right; right; right; repeat split].
Qed.

Ltac regime_cases c :=
  let Hd := fresh "Hd" in let Hh := fresh "Hh" in let Hf := fresh "Hf" in
  let Hu := fresh "Hu" in let Hc := fresh "Hc" in let Ha := fresh "Ha" in
  let Hr := fresh "Hr" in
  destruct (regime_classification_cases c)
    as [(Hd & Hc & Ha & Hr)
       |[(Hd & Hh & Hc & Ha & Hr)
        |[(Hd & Hh & Hf & Hc & Ha & Hr)
         |[(Hd & Hh & Hf & Hu & Hc & Ha & Hr)
          |(Hd & Hh & Hf & Hu & Hc & Ha & Hr)]]]].

(** X1: the three predicates agree with the lookup.  The classification
    is [fully_authoritarian] exactly when [is_fully_authoritarian]
    holds, [hybrid_authoritarian] exactly when [is_hybrid_authoritarian]
    holds, and [is_authoritarian_regime] is their disjunction: no name of
    the table is listed under two regime types. *)
Theorem regime_predicates_agree (c : str) :
  (classification (get_regime_classification c) = py "fully_authoritarian"
   <-> is_fully_authoritarian c = true)
  /\ (classification (get_regime_classification c) = py "hybrid_authoritarian"
      <-> is_hybrid_authoritarian c = true)
  /\ is_authoritarian_regime c = is_fully_authoritarian c || is_hybrid_authoritarian c.
Proof.
  unfold is_fully_authoritarian, is_hybrid_authoritarian, is_authoritarian_regime.
  regime_cases c; rewrite Hc, Ha.
  - rewrite (democratic_not_fully _ Hd), (democratic_not_hybrid _ Hd).
    repeat split; discriminate.
  - rewrite Hh, (hybrid_not_fully _ Hh). repeat split; discriminate.
  - rewrite Hh, Hf. repeat split; discriminate.
  - rewrite Hh, Hf. repeat split; discriminate.
  - rewrite Hh, Hf. repeat split; discriminate.
Qed.

Lemma region_of_member (n : str) (a m e p f : list str) (x : str) :
  str_in n (a ++ m ++ e ++ p ++ f) = true ->
  (if str_in n a then py "americas"
   else if str_in n m then py "middle_east_north_africa"
   else if str_in n e then py "europe_central_asia"
   else if str_in n p then py "asia_pacific"
   else if str_in n f then py "africa"
   else py "unknown") = x ->
  In x [py "americas"; py "middle_east_north_africa"; py "europe_central_asia";
        py "asia_pacific"; py "africa"].
Proof.
  rewrite !str_in_app.
  destruct (str_in n a), (str_in n m), (str_in n e), (str_in n p), (str_in n f);
    simpl orb; intros H <-; try discriminate; simpl; tauto.
Qed.

(** X2: every name the table classifies as democratic, hybrid or fully
    authoritarian gets one of the five regions, an unclassified one gets
    [americas], and the region is [unknown] exactly when the
    classification is. *)
Theorem region_unknown_iff_unclassifiable (c : str) :
  In (region (get_regime_classification c))
     [py "americas"; py "middle_east_north_africa"; py "europe_central_asia";
      py "asia_pacific"; py "africa"; py "unknown"]
  /\ (region (get_regime_classification c) = py "unknown"
      <-> classification (get_regime_classification c) = py "unknown").
Proof.
  assert (forall x,
    In x [py "americas"; py "middle_east_north_africa"; py "europe_central_asia";
          py "asia_pacific"; py "africa"] ->
    In x [py "americas"; py "middle_east_north_africa"; py "europe_central_asia";
          py "asia_pacific"; py "africa"; py "unknown"] /\ x <> py "unknown") as Hknown.
  { intros x Hx. split.
    - simpl in *. tauto.
    - intros ->. simpl in Hx.
      repeat (destruct Hx as [Hx|Hx]; [discriminate|]). exact Hx. }
  regime_cases c; rewrite Hc, Hr.
  - destruct (Hknown (_get_region (py_strip c) (py "democratic"))) as [Hin Hne].
    { eapply region_of_member; [exact Hd | reflexivity]. }
    split; [exact Hin|]. split; [intros E; contradiction | discriminate].
  - destruct (Hknown (_get_region (py_strip c) (py "hybrid"))) as [Hin Hne].
    { eapply region_of_member; [exact Hh | reflexivity]. }
    split; [exact Hin|]. split; [intros E; contradiction | discriminate].
  - destruct (Hknown (_get_region (py_strip c) (py "authoritarian"))) as [Hin Hne].
    { eapply region_of_member; [exact Hf | reflexivity]. }
    split; [exact Hin|]. split; [intros E; contradiction | discriminate].
  - split; [simpl; tauto|]. split; discriminate.
  - split; [simpl; tauto|]. split; reflexivity.
Qed.

(** ** Whitespace around a country name *)

Lemma lstrip_space_app (ws s : str) : all_space ws -> lstrip (ws ++ s) = lstrip s.
Proof.
  induction 1 as [|c ws Hc _ IH]; simpl; [reflexivity|].
  rewrite Hc. exact IH.
Qed.

Lemma lstrip_all_space (s : str) : all_space s -> lstrip s = [].
Proof.
  intros H. rewrite <- (app_nil_r s). rewrite (lstrip_space_app [] H). reflexivity.
Qed.

Lemma lstrip_nil_all_space (s : str) : lstrip s = [] -> all_space s.
Proof.
  induction s as [|c s IH]; simpl; intros H; [constructor|].
  destruct (chr_isspace c) eqn:E; [|discriminate].
  constructor; [exact E | apply IH, H].
Qed.

Lemma lstrip_app_nonempty (s u : str) : lstrip s <> [] -> lstrip (s ++ u) = lstrip s ++ u.
Proof.
  induction s as [|c s IH]; simpl; intros H; [congruence|].
  destruct (chr_isspace c); [apply IH, H | reflexivity].
Qed.

Lemma all_space_app (a b : str) : all_space a -> all_space b -> all_space (a ++ b).
Proof. intros Ha Hb. apply Forall_app. split; assumption. Qed.

Lemma py_strip_padding (ws1 c ws2 : str) :
  all_space ws1 -> all_space ws2 -> py_strip (ws1 ++ c ++ ws2) = py_strip c.
Proof.
  intros H1 H2. unfold py_strip. rewrite (lstrip_space_app _ H1).
  destruct (lstrip c) as [|d l] eqn:E.
  - assert (lstrip (c ++ ws2) = []) as ->; [|reflexivity].
    apply lstrip_all_space.
    apply all_space_app; [apply lstrip_nil_all_space, E | exact H2].
  - rewrite lstrip_app_nonempty by (rewrite E; discriminate).
    rewrite E, rev_app_distr, lstrip_space_app; [reflexivity|].
    apply Forall_rev, H2.
Qed.

(** X3: whitespace before and after a country name never changes the
    lookup: the classification record and the three predicates are
    those of the bare name. *)
Theorem regime_lookup_ignores_padding (ws1 c ws2 : str) :
  all_space ws1 -> all_space ws2 ->
  get_regime_classification (ws1 ++ c ++ ws2) = get_regime_classification c
  /\ is_authoritarian_regime (ws1 ++ c ++ ws2) = is_authoritarian_regime c
  /\ is_fully_authoritarian (ws1 ++ c ++ ws2) = is_fully_authoritarian c
  /\ is_hybrid_authoritarian (ws1 ++ c ++ ws2) = is_hybrid_authoritarian c.
Proof.
  intros H1 H2.
  unfold is_authoritarian_regime, is_fully_authoritarian, is_hybrid_authoritarian,
    get_regime_classification.
  rewrite (py_strip_padding c H1 H2). repeat split.
Qed.

(** ** The country flag *)

(** X4: [_check_country] emits a flag exactly for the authoritarian
    names of the table, and then a single one of category
    [authoritarian_connection] under Guideline 1: [high] (20 points of
    risk score) for a fully authoritarian regime, [medium] (10 points)
    for a hybrid one; the title quotes the name as it was given. *)
Theorem country_flag_by_regime (c : str) :
  (is_fully_authoritarian c = true ->
   exists f, _check_country c = [f]
             /\ category f = py "authoritarian_connection"
             /\ severity f = py "high"
             /\ title f = py "From Fully Authoritarian Regime: " ++ c
             /\ guideline_reference f = Some (py "Guideline 1")
             /\ _calculate_risk_score [f] = 20%Z)
  /\ (is_hybrid_authoritarian c = true ->
      exists f, _check_country c = [f]
                /\ category f = py "authoritarian_connection"
                /\ severity f = py "medium"
                /\ title f = py "From Hybrid Authoritarian Regime: " ++ c
                /\ guideline_reference f = Some (py "Guideline 1")
                /\ _calculate_risk_score [f] = 10%Z)
  /\ (is_authoritarian_regime c = false -> _check_country c = []).
Proof.
  destruct (regime_predicates_agree c) as (Hf & Hh & Ha).
  unfold _check_country.
  split; [|split].
  - intros H. apply Hf in H. rewrite H.
    eexists. split; [reflexivity|]. repeat split.
  - intros H. apply Hh in H. rewrite H.
    eexists. split; [reflexivity|]. repeat split.
  - intros H. rewrite H in Ha. symmetry in Ha. apply orb_false_iff in Ha.
    destruct Ha as [Ha1 Ha2].
    destruct (str_eqb_spec (classification (get_regime_classification c))
                (py "fully_authoritarian")) as [E|_].
    { apply Hf in E. congruence. }
    destruct (str_eqb_spec (classification (get_regime_classification c))
                (py "hybrid_authoritarian")) as [E|_].
    { apply Hh in E. congruence. }
    reflexivity.
Qed.

(** ** The category table *)

Lemma map_keyword_key_or_fixed (c : str) :
  In c detector_categories \/ _map_keyword_to_guideline c = c.
Proof.
  unfold _map_keyword_to_guideline. cbv beta iota zeta delta [dict_get].
  destruct (str_eqb_spec c (py "violence_advocacy")) as [->|_]; [left; vm_compute; tauto|].
  destruct (str_eqb_spec c (py "hate_speech")) as [->|_]; [left; vm_compute; tauto|].
  destruct (str_eqb_spec c (py "regime_praise")) as [->|_]; [left; vm_compute; tauto|].
  destruct (str_eqb_spec c (py "democracy_criticism")) as [->|_]; [left; vm_compute; tauto|].
  destruct (str_eqb_spec c (py "despot_admiration")) as [->|_]; [left; vm_compute; tauto|].
  destruct (str_eqb_spec c (py "financial_dealings")) as [->|_]; [left; vm_compute; tauto|].
  destruct (str_eqb_spec c (py "unprofessional")) as [->|_]; [left; vm_compute; tauto|].
  destruct (str_eqb_spec c (py "criminal_activity")) as [->|_]; [left; vm_compute; tauto|].
  destruct (str_eqb_spec c (py "authoritarian_mention")) as [->|_]; [left; vm_compute; tauto|].
  destruct (str_eqb_spec c (py "authoritarian_entity_mention")) as [->|_];
    [left; vm_compute; tauto|].
  destruct (str_eqb_spec c (py "authoritarian_country_mention")) as [->|_];
    [left; vm_compute; tauto|].
  right. reflexivity.
Qed.

(** X5: mapping a category twice is mapping it once; every key of the
    table, and so every category of the built-in database and every
    mention category, lands on one of the published guidelines, and a
    category the table does not know is passed through unchanged. *)
Theorem map_keyword_to_guideline_idempotent :
  (forall c, _map_keyword_to_guideline (_map_keyword_to_guideline c)
             = _map_keyword_to_guideline c)
  /\ (forall c, In c detector_categories ->
                exists g, dict_lookup GUIDELINES (_map_keyword_to_guideline c) = Some g)
  /\ (forall c, In c (map fst _build_keyword_database) -> In c detector_categories)
  /\ (forall c, ~ In c detector_categories -> _map_keyword_to_guideline c = c).
Proof.
  split; [|split; [|split]].
  - intros c. destruct (map_keyword_key_or_fixed c) as [H|H].
    + unfold detector_categories in H. simpl in H.
      repeat (destruct H as [<-|H]; [vm_compute; reflexivity|]). destruct H.
    + rewrite H. exact H.
  - intros c H. unfold detector_categories in H. simpl in H.
    repeat (destruct H as [<-|H]; [eexists; vm_compute; reflexivity|]). destruct H.
  - intros c H. vm_compute in H.
    repeat (destruct H as [<-|H]; [vm_compute; tauto|]). destruct H.
  - intros c H. destruct (map_keyword_key_or_fixed c) as [H'|H']; [contradiction | exact H'].
Qed.

Lemma map_keyword_to_guideline_idempotent_witness :
  (exists g, dict_lookup GUIDELINES (_map_keyword_to_guideline (py "criminal_activity"))
             = Some g)
  /\ In (py "criminal_activity") detector_categories
  /\ _map_keyword_to_guideline (py "tax_evasion") = py "tax_evasion".
Proof.
  destruct map_keyword_to_guideline_idempotent as (_ & H2 & H3 & H4).
  split; [|split].
  - apply H2. vm_compute. tauto.
  - apply H3. vm_compute. tauto.
  - apply H4. vm_compute. intros H.
    repeat (destruct H as [H|H]; [discriminate|]). exact H.
Defined.

(** ** Dictionaries *)

Lemma dict_lookup_set {V : Type} (d : list (str * V)) (k : str) (v : V) (k' : str) :
  dict_lookup (dict_set d k v) k'
  = if str_eqb k' k then Some v else dict_lookup d k'.
Proof.
  induction d as [|[k0 v0] d IH]; simpl.
  - reflexivity.
  - destruct (str_eqb_spec k k0) as [->|Hne]; simpl.
    + destruct (str_eqb k' k0); reflexivity.
    + rewrite IH.
      destruct (str_eqb_spec k' k0) as [->|_]; [|reflexivity].
      destruct (str_eqb_spec k0 k) as [E|_]; [congruence | reflexivity].
Qed.

Lemma dict_keys_set {V : Type} (d : list (str * V)) (k : str) (v : V) :
  map fst (dict_set d k v)
  = match dict_lookup d k with
    | Some _ => map fst d
    | None => map fst d ++ [k]
    end.
Proof.
  induction d as [|[k0 v0] d IH]; simpl; [reflexivity|].
  destruct (str_eqb k k0); simpl; [reflexivity|].
  rewrite IH. destruct (dict_lookup d k); reflexivity.
Qed.

Lemma dict_lookup_None {V : Type} (d : list (str * V)) (k : str) :
  dict_lookup d k = None <-> ~ In k (map fst d).
Proof.
  induction d as [|[k0 v0] d IH]; simpl; [tauto|].
  destruct (str_eqb_spec k k0) as [->|Hne].
  - split; [discriminate | intros H; exfalso; apply H; left; reflexivity].
  - rewrite IH. split; [intros H [E|X]; [congruence | tauto] | tauto].
Qed.

Lemma dict_In_lookup {V : Type} (d : list (str * V)) (k : str) (v : V) :
  NoDup (map fst d) -> In (k, v) d -> dict_lookup d k = Some v.
Proof.
  induction d as [|[k0 v0] d IH]; simpl; intros Hnd Hin; [destruct Hin|].
  inversion Hnd as [|? ? Hnot Hnd']; subst.
  destruct Hin as [E|Hin].
  - injection E as -> ->. rewrite str_eqb_refl. reflexivity.
  - destruct (str_eqb_spec k k0) as [->|_]; [|apply IH; assumption].
    exfalso. apply Hnot. apply (in_map fst) in Hin. exact Hin.
Qed.

Lemma dict_keys_set_NoDup {V : Type} (d : list (str * V)) (k : str) (v : V) :
  NoDup (map fst d) -> NoDup (map fst (dict_set d k v)).
Proof.
  intros H. rewrite dict_keys_set.
  destruct (dict_lookup d k) eqn:E; [exact H|].
  apply dict_lookup_None in E.
  apply NoDup_app; [exact H | repeat constructor; intros [] |].
  intros x Hx [<-|[]]. exact (E Hx).
Qed.

(** ** Grouping the matches *)

Lemma group_by_category_fold (ms : list KeywordMatch) :
  group_by_category ms = fold_left group_step ms [].
Proof. reflexivity. Qed.

Lemma group_lookup_acc (ms : list KeywordMatch) (d : list (str * list KeywordMatch))
    (c : str) :
  dict_lookup (fold_left group_step ms d) c
  = match dict_lookup d c with
    | Some l0 => Some (l0 ++ of_category c ms)
    | None => match of_category c ms with
              | [] => None
              | l => Some l
              end
    end.
Proof.
  revert d; induction ms as [|m ms IH]; intros d; simpl.
  - destruct (dict_lookup d c); [rewrite app_nil_r|]; reflexivity.
  - rewrite IH. unfold group_step.
    destruct (str_eqb_spec c (km_category m)) as [->|Hne].
    + rewrite str_eqb_refl.
      destruct (dict_lookup d (km_category m)) as [l|];
        rewrite dict_lookup_set, str_eqb_refl.
      * rewrite <- app_assoc. reflexivity.
      * reflexivity.
    + destruct (str_eqb_spec (km_category m) c) as [E|_]; [congruence|].
      destruct (dict_lookup d (km_category m)) as [l|]; rewrite dict_lookup_set;
        (destruct (str_eqb_spec c (km_category m)) as [E|_]; [congruence|]);
        reflexivity.
Qed.

Lemma group_keys_NoDup (ms : list KeywordMatch) (d : list (str * list KeywordMatch)) :
  NoDup (map fst d) -> NoDup (map fst (fold_left group_step ms d)).
Proof.
  revert d; induction ms as [|m ms IH]; intros d H; simpl; [exact H|].
  apply IH. unfold group_step.
  destruct (dict_lookup d (km_category m)); apply dict_keys_set_NoDup, H.
Qed.

(** X6: the grouping loop partitions the matches by detector category:
    the groups have distinct categories, the group of a category holds
    exactly the matches of that category in the order found, no group is
    empty, and every match is in the group of its category.  So one flag
    is raised per category that matched. *)
Theorem group_by_category_partition (ms : list KeywordMatch) :
  NoDup (map fst (group_by_category ms))
  /\ (forall c l, In (c, l) (group_by_category ms) <-> l = of_category c ms /\ l <> [])
  /\ (forall m, In m ms ->
        exists l, In (km_category m, l) (group_by_category ms) /\ In m l).
Proof.
  assert (NoDup (map fst (group_by_category ms))) as Hnd.
  { rewrite group_by_category_fold. apply group_keys_NoDup. constructor. }
  assert (forall c, dict_lookup (group_by_category ms) c
                    = match of_category c ms with [] => None | l => Some l end) as Hl.
  { intros c. rewrite group_by_category_fold, group_lookup_acc. reflexivity. }
  assert (forall c l, In (c, l) (group_by_category ms)
                      <-> l = of_category c ms /\ l <> []) as Hiff.
  { intros c l. split.
    - intros Hin. apply (dict_In_lookup _ _ _ Hnd) in Hin. rewrite Hl in Hin.
      destruct (of_category c ms); [discriminate|].
      injection Hin as <-. split; [reflexivity | discriminate].
    - intros [-> Hne]. apply dict_lookup_In. rewrite Hl.
      destruct (of_category c ms); [congruence | reflexivity]. }
  split; [exact Hnd|]. split; [exact Hiff|].
  intros m Hm.
  assert (In m (of_category (km_category m) ms)) as Hin.
  { unfold of_category. apply filter_In. split; [exact Hm | apply str_eqb_refl]. }
  exists (of_category (km_category m) ms). split; [|exact Hin].
  apply Hiff. split; [reflexivity|]. intros E. rewrite E in Hin. exact Hin.
Qed.

(** ** Extending the pattern database *)



(** *** List objects *)

Lemma update_length (h : store) (r : ref) (l : list (str * str)) :
  List.length (update h r l) = List.length h.
Proof.
  revert r; induction h as [|x h IH]; intros [|r]; simpl; try reflexivity.
  rewrite IH. reflexivity.
Qed.




























(** ** What leaves the analysis *)

Lemma group_nonempty (ms : list KeywordMatch) (g : str * list KeywordMatch) :
  In g (group_by_category ms) -> snd g <> [].
Proof.
  destruct g as [c l]. intros Hin.
  assert (NoDup (map fst (group_by_category ms))) as Hnd.
  { rewrite group_by_category_fold. apply group_keys_NoDup. constructor. }
  apply (dict_In_lookup _ _ _ Hnd) in Hin.
  rewrite group_by_category_fold, group_lookup_acc in Hin. simpl in Hin.
  destruct (of_category c ms); [discriminate|].
  injection Hin as <-. discriminate.
Qed.

Lemma category_flag_returns (source u published : option str)
    (g : str * list KeywordMatch) :
  snd g <> [] ->
  category_flag source u published (fst g) (snd g) = Ret (group_flag source u published g).
Proof.
  destruct g as [c [|m0 rest]]; simpl; intros H; [congruence | reflexivity].
Qed.

Lemma flat_map_singleton {A B : Type} (f : A -> B) (l : list A) :
  flat_map (fun x => [f x]) l = map f l.
Proof. induction l as [|x l IH]; simpl; [|rewrite IH]; reflexivity. Qed.

Section PipelineProofs.
Context {L : PyLib}.
Variable self : GuidelinesAnalyzer.

(** After [analyze_text] nothing in [_analyze_content] raises: [max]
    is called on groups that are not empty. *)
Lemma analyze_content_bind (text : str) (source u published : option str) :
  _analyze_content self text source u published
  = bind (analyze_text (keywords self) text None)
      (fun matches =>
         Ret (map (group_flag source u published) (group_by_category matches)
              ++ (if self_strict_mode self
                  then map (mention_flag source u published)
                           (firstn 5 (check_for_authoritarian_mentions text))
                  else []))).
Proof.
  unfold _analyze_content.
  destruct (analyze_text (keywords self) text None) as [matches|e]; [|reflexivity].
  cbn [bind].
  rewrite for_each_append with (g := fun g => [group_flag source u published g]).
  2:{ intros s g Hin. rewrite category_flag_returns; [reflexivity|].
      eapply group_nonempty, Hin. }
  cbn [bind app]. rewrite flat_map_singleton.
  destruct (check_for_authoritarian_mentions text) as [|m ms];
    destruct (self_strict_mode self); cbn [firstn map]; rewrite ?app_nil_r; reflexivity.
Qed.

Lemma analyze_content_outcome (text : str) (source u published : option str) :
  _analyze_content self text source u published
  = Ret (content_flags self text source u published)
  \/ exists e, _analyze_content self text source u published = Raise e
               /\ raised_by_pattern (keywords self) text e.
Proof.
  rewrite analyze_content_bind. unfold content_flags.
  destruct (analyze_text_outcome (keywords self) text None) as [E | (e & E & Hr)];
    rewrite E; cbn [bind].
  - left. reflexivity.
  - right. exists e. split; [reflexivity | exact Hr].
Qed.

Lemma analyze_content_returns (text : str) (source u published : option str) :
  only_re_errors (keywords self) text ->
  _analyze_content self text source u published
  = Ret (content_flags self text source u published).
Proof.
  intros Hok. rewrite analyze_content_bind, analyze_text_returns by exact Hok.
  reflexivity.
Qed.

Lemma item_loop_outcome (content_items : list ContentItem) (s : list ContentFlag) :
  for_each content_items
    (fun result_flags item =>
       match text_content item with
       | Some (c :: cs) =>
           bind (_analyze_content self (c :: cs)
                   (get_default (platform item) (py "unknown"))
                   (url item) (item_published_at item))
                (fun content_flags => Ret (result_flags ++ content_flags))
       | _ => Ret result_flags
       end) s
  = Ret (s ++ flat_map (item_flags self) content_items)
  \/ exists e item, In item content_items /\ item_raises self e item
                    /\ for_each content_items
                         (fun result_flags item =>
                            match text_content item with
                            | Some (c :: cs) =>
                                bind (_analyze_content self (c :: cs)
                                        (get_default (platform item) (py "unknown"))
                                        (url item) (item_published_at item))
                                     (fun content_flags => Ret (result_flags ++ content_flags))
                            | _ => Ret result_flags
                            end) s = Raise e.
Proof.
  apply (for_each_append_or_raise content_items (item_flags self)
           (fun item e => item_raises self e item)).
  intros s' item _. unfold item_flags, item_raises.
  destruct (text_content item) as [[|c cs]|];
    rewrite ?app_nil_r; try (left; reflexivity).
  destruct (analyze_content_outcome (c :: cs)
              (get_default (platform item) (py "unknown"))
              (url item) (item_published_at item)) as [E | (e & E & Hr)]; rewrite E.
  - left. reflexivity.
  - right. exists e. split; [reflexivity|]. exists (c :: cs). split; [reflexivity | exact Hr].
Qed.

Lemma bio_loop_outcome (profiles : list SocialProfile) (s : list ContentFlag) :
  for_each profiles
    (fun result_flags profile =>
       match bio profile with
       | Some (c :: cs) =>
           bind (_analyze_content self (c :: cs)
                   (Some (str_of (get_default (profile_platform profile) (py "unknown"))
                            ++ py "_bio"))
                   (profile_url profile) None)
                (fun bio_flags => Ret (result_flags ++ bio_flags))
       | _ => Ret result_flags
       end) s
  = Ret (s ++ flat_map (bio_flags self) profiles)
  \/ exists e profile, In profile profiles /\ bio_raises self e profile
                       /\ for_each profiles
                            (fun result_flags profile =>
                               match bio profile with
                               | Some (c :: cs) =>
                                   bind (_analyze_content self (c :: cs)
                                           (Some (str_of (get_default
                                                            (profile_platform profile)
                                                            (py "unknown"))
                                                    ++ py "_bio"))
                                           (profile_url profile) None)
                                        (fun bio_flags => Ret (result_flags ++ bio_flags))
                               | _ => Ret result_flags
                               end) s = Raise e.
Proof.
  apply (for_each_append_or_raise profiles (bio_flags self)
           (fun profile e => bio_raises self e profile)).
  intros s' q _. unfold bio_flags, bio_raises.
  destruct (bio q) as [[|c cs]|]; rewrite ?app_nil_r; try (left; reflexivity).
  destruct (analyze_content_outcome (c :: cs)
              (Some (str_of (get_default (profile_platform q) (py "unknown"))
                       ++ py "_bio"))
              (profile_url q) None) as [E | (e & E & Hr)]; rewrite E.
  - left. reflexivity.
  - right. exists e. split; [reflexivity|]. exists (c :: cs). split; [reflexivity | exact Hr].
Qed.

(** [analyze_applicant] returns the result of the collected flags, or
    raises what [re.finditer] raised, other than [re.error], on a
    pattern of the database and a scanned text. *)
Lemma analyze_applicant_outcome (now : Z) (a : Applicant)
    (content_items : list ContentItem) (social_profiles : option (list SocialProfile)) :
  analyze_applicant self now a content_items social_profiles
  = Ret (finish_result now a content_items
           (collected_flags self a content_items social_profiles))
  \/ exists e text,
       analyze_applicant self now a content_items social_profiles = Raise e
       /\ scanned_text content_items social_profiles text
       /\ raised_by_pattern (keywords self) text e.
Proof.
  unfold analyze_applicant, collected_flags.
  change (match a_country a with
          | Some (c :: cs) => [] ++ _check_country (c :: cs)
          | _ => []
          end) with (country_flags a).
  destruct (item_loop_outcome content_items (country_flags a))
    as [E | (e & item & Hin & (text & Ht & Hr) & E)]; rewrite E; cbn [bind].
  2:{ right. exists e, text. split; [reflexivity|]. split; [|exact Hr].
      left. exists item. split; assumption. }
  destruct social_profiles as [[|p ps]|].
  - left. cbn [bind flat_map]. rewrite app_nil_r. reflexivity.
  - destruct (bio_loop_outcome (p :: ps)
                (country_flags a ++ flat_map (item_flags self) content_items))
      as [E' | (e & q & Hin & (text & Ht & Hr) & E')]; rewrite E'; cbn [bind].
    + left. rewrite <- app_assoc. reflexivity.
    + right. exists e, text. split; [reflexivity|]. split; [|exact Hr].
      right. exists (p :: ps), q. repeat split; assumption.
  - left. cbn [bind]. rewrite app_nil_r. reflexivity.
Qed.

Lemma analyze_applicant_returns (now : Z) (a : Applicant)
    (content_items : list ContentItem) (social_profiles : option (list SocialProfile)) :
  (forall text, scanned_text content_items social_profiles text ->
                only_re_errors (keywords self) text) ->
  analyze_applicant self now a content_items social_profiles
  = Ret (finish_result now a content_items
           (collected_flags self a content_items social_profiles)).
Proof.
  intros Hok.
  destruct (analyze_applicant_outcome now a content_items social_profiles)
    as [E | (e & text & _ & Hs & _ & cat & patterns & pattern & sev & Hc & Hp & Hr & Hne)];
    [exact E|].
  exfalso. apply Hne. eapply (Hok text Hs); eassumption.
Qed.

Lemma analyze_content_raises (text : str) (source u published : option str) (e : exn) :
  raised_by_pattern (keywords self) text e ->
  exists e', _analyze_content self text source u published = Raise e'.
Proof.
  intros H. rewrite analyze_content_bind.
  destruct (analyze_text_raises H) as (e' & ->). exists e'. reflexivity.
Qed.

Lemma analyze_applicant_raises (now : Z) (a : Applicant)
    (content_items : list ContentItem) (social_profiles : option (list SocialProfile))
    (text : str) (e : exn) :
  scanned_text content_items social_profiles text ->
  raised_by_pattern (keywords self) text e ->
  exists e', analyze_applicant self now a content_items social_profiles = Raise e'.
Proof.
  intros Hs Hr. assert (text <> []) as Hne by apply Hr.
  destruct text as [|c cs]; [congruence|].
  unfold analyze_applicant.
  destruct Hs as [(item & Hin & Et) | (ps & p & -> & Hin & Eb)].
  - match goal with
    | |- exists e', bind (for_each _ ?body ?s0) _ = _ =>
        destruct (for_each_raises content_items body item Hin) with (s := s0)
          as (e' & ->)
    end.
    + intros s. rewrite Et.
      destruct (analyze_content_raises
                  (get_default (platform item) (py "unknown"))
                  (url item) (item_published_at item) Hr) as (e' & ->).
      exists e'. reflexivity.
    + exists e'. reflexivity.
  - destruct (for_each content_items _ _) as [rf|e0]; cbn [bind];
      [|exists e0; reflexivity].
    destruct ps as [|p0 ps]; [destruct Hin|].
    match goal with
    | |- exists e', bind (for_each _ ?body ?s0) _ = _ =>
        destruct (for_each_raises (p0 :: ps) body p Hin) with (s := s0)
          as (e' & ->)
    end.
    + intros s. rewrite Eb.
      destruct (analyze_content_raises
                  (Some (str_of (get_default (profile_platform p) (py "unknown"))
                           ++ py "_bio"))
                  (profile_url p) None Hr) as (e' & ->).
      exists e'. reflexivity.
    + exists e'. reflexivity.
Qed.

Lemma analyze_applicant_result (now : Z) (a : Applicant)
    (content_items : list ContentItem) (social_profiles : option (list SocialProfile))
    (result : AnalysisResult) :
  analyze_applicant self now a content_items social_profiles = Ret result ->
  result = finish_result now a content_items
             (collected_flags self a content_items social_profiles).
Proof.
  intros H.
  destruct (analyze_applicant_outcome now a content_items social_profiles)
    as [E | (e & text & E & _)]; congruence.
Qed.
End PipelineProofs.

Lemma recommendation_values (result : AnalysisResult) :
  In (_generate_recommendation result) [py "approve"; py "reject"; py "pending_review"].
Proof.
  rewrite recommendation_cascade.
  destruct (existsb reject_test (flags result)); [simpl; tauto|].
  destruct (_ || _); [simpl; tauto|].
  destruct (_ && _); simpl; tauto.
Qed.

Lemma risk_level_values (s : Z) :
  In (_determine_risk_level s) [py "low"; py "medium"; py "high"; py "critical"].
Proof.
  destruct (risk_level_cases s) as [[_ E]|[[_ E]|[[_ E]|[_ E]]]]; rewrite E; simpl; tauto.
Qed.

(** X7: [analyze_applicant] returns a result unless [re.finditer]
    raises, on a pattern of the database and a scanned text, another
    exception than [re.error]: that exception, and no other, leaves
    [analyze_applicant]: [re.error] is handled, and [max] is never
    called on an empty group, so that [_analyze_content] returns
    whenever [analyze_text] does.  So [analyze_applicant] returns
    whenever the patterns raise nothing but [re.error], and raises
    whenever a pattern raises something else on a scanned text that is
    not empty.  In the result it returns, the flags
    are those of the country, then of the content items in order, then
    of the bios; the item count is the length of the content list, empty
    items included; the score is that of the flags and lies in [0, 100];
    level and recommendation are those of the score and the flags and
    take one of their four and three values. *)
Theorem analyze_applicant_total {L : PyLib} (self : GuidelinesAnalyzer) (now : Z)
    (a : Applicant) (content_items : list ContentItem)
    (social_profiles : option (list SocialProfile)) :
  ((forall text, scanned_text content_items social_profiles text ->
                 only_re_errors (keywords self) text) ->
   exists result,
     analyze_applicant self now a content_items social_profiles = Ret result)
  /\ (forall e,
        analyze_applicant self now a content_items social_profiles = Raise e ->
        e <> re_error
        /\ exists text cat patterns pattern sev,
             scanned_text content_items social_profiles text
             /\ text <> []
             /\ dict_lookup (keywords self) cat = Some patterns
             /\ In (pattern, sev) patterns
             /\ re_finditer pattern (str_lower text) = Raise e)
  /\ (forall result,
        analyze_applicant self now a content_items social_profiles = Ret result ->
        flags result = collected_flags self a content_items social_profiles
        /\ applicant_id result = a_id a
        /\ total_content_items result = Z.of_nat (List.length content_items)
        /\ risk_score result = _calculate_risk_score (flags result)
        /\ (0 <= risk_score result <= 100)%Z
        /\ risk_level result = _determine_risk_level (risk_score result)
        /\ In (risk_level result) [py "low"; py "medium"; py "high"; py "critical"]
        /\ recommendation result = _generate_recommendation (scored (flags result))
        /\ In (recommendation result) [py "approve"; py "reject"; py "pending_review"]
        /\ analyzed_at result = now)
  /\ (forall text source u published matches,
        analyze_text (keywords self) text None = Ret matches ->
        exists fl, _analyze_content self text source u published = Ret fl)
  /\ (forall text cat patterns pattern sev e,
        scanned_text content_items social_profiles text ->
        text <> [] ->
        dict_lookup (keywords self) cat = Some patterns ->
        In (pattern, sev) patterns ->
        re_finditer pattern (str_lower text) = Raise e ->
        e <> re_error ->
        exists e', analyze_applicant self now a content_items social_profiles = Raise e').
Proof.
  split; [|split; [|split; [|split]]].
  - intros Hok. eexists. apply analyze_applicant_returns. exact Hok.
  - intros e H.
    destruct (analyze_applicant_outcome self now a content_items social_profiles)
      as [E | (e' & text & E & Hs & Ht & cat & patterns & pattern & sev & Hc & Hp & Hr & Hne)];
      [congruence|].
    assert (e' = e) by congruence. subst e'.
    split; [exact Hne|].
    exists text, cat, patterns, pattern, sev. auto.
  - intros result H. apply analyze_applicant_result in H. subst result.
    set (fl := collected_flags self a content_items social_profiles).
    pose proof (finish_result_fields now a content_items fl)
      as (Hid & Hn & Hfl & Hsc & Hlv & Hrec & Hat).
    split; [exact Hfl|]. split; [exact Hid|]. split; [exact Hn|].
    split; [rewrite Hfl; exact Hsc|].
    split.
    { rewrite Hsc, risk_score_min. pose proof (weights_sum_nonneg fl). lia. }
    split; [rewrite Hsc; exact Hlv|].
    split; [rewrite Hlv; apply risk_level_values|].
    split; [rewrite Hfl; exact Hrec|].
    split; [rewrite Hrec; apply recommendation_values | exact Hat].
  - intros text source u published matches H.
    rewrite analyze_content_bind, H. cbn [bind]. eexists. reflexivity.
  - intros text cat patterns pattern sev e Hs Hne Hc Hp Hr He.
    apply (@analyze_applicant_raises L self now a content_items social_profiles text e Hs).
    split; [exact Hne|]. exists cat, patterns, pattern, sev. auto.
Qed.

(** ** Strict mode *)

Lemma flag_weight_low (f : ContentFlag) : severity f = py "low" -> flag_weight f = 3%Z.
Proof. intros E. unfold flag_weight. rewrite E. reflexivity. Qed.

Lemma low_flags_sum (fl : list ContentFlag) :
  Forall (fun f => severity f = py "low") fl ->
  py_sum (map flag_weight fl) = (3 * Z.of_nat (List.length fl))%Z.
Proof.
  induction 1 as [|f fl Hf _ IH].
  - reflexivity.
  - change (map flag_weight (f :: fl)) with (flag_weight f :: map flag_weight fl).
    rewrite py_sum_cons, IH, (flag_weight_low _ Hf).
    change (List.length (f :: fl)) with (S (List.length fl)). lia.
Qed.

Lemma py_sum_append (a b : list Z) : py_sum (a ++ b) = (py_sum a + py_sum b)%Z.
Proof.
  unfold py_sum. rewrite fold_left_app, fold_add_shift. reflexivity.
Qed.

(** X8: strict mode only adds flags.  On every text a strict analyzer
    raises exactly when the same analyzer without strict mode does, and
    the same exception; when they return, the flags of the strict one
    are those of the other, followed by at most five mention flags; each
    of these is [low], of category [regime_praise] whatever was
    mentioned, and without guideline reference, so strict mode raises
    the score of a text by 15 at most. *)
Theorem strict_mode_appends_mentions {L : PyLib} (kws : keyword_db)
    (text : str) (source u published : option str) :
  (forall e,
      _analyze_content (mkGuidelinesAnalyzer kws true) text source u published = Raise e
      <-> _analyze_content (mkGuidelinesAnalyzer kws false) text source u published
          = Raise e)
  /\ (forall base,
        _analyze_content (mkGuidelinesAnalyzer kws false) text source u published
        = Ret base ->
        exists extra,
          _analyze_content (mkGuidelinesAnalyzer kws true) text source u published
          = Ret (base ++ extra)
          /\ extra = map (mention_flag source u published)
                         (firstn 5 (check_for_authoritarian_mentions text))
          /\ List.length extra <= 5
          /\ Forall (fun f => severity f = py "low"
                              /\ category f = py "regime_praise"
                              /\ guideline_reference f = None) extra
          /\ (_calculate_risk_score (base ++ extra) <= _calculate_risk_score base + 15)%Z)
  /\ (forall full,
        _analyze_content (mkGuidelinesAnalyzer kws true) text source u published
        = Ret full ->
        exists base,
          _analyze_content (mkGuidelinesAnalyzer kws false) text source u published
          = Ret base).
Proof.
  rewrite !analyze_content_bind. cbn [self_strict_mode keywords].
  destruct (analyze_text kws text None) as [matches|e0]; cbn [bind].
  - split; [|split].
    + intros e. split; discriminate.
    + intros base H. injection H as <-. rewrite app_nil_r.
      set (mentions := firstn 5 (check_for_authoritarian_mentions text)).
      exists (map (mention_flag source u published) mentions).
      assert (List.length (map (mention_flag source u published) mentions) <= 5) as Hlen.
      { rewrite length_map. apply firstn_le_length. }
      split; [reflexivity|]. split; [reflexivity|]. split; [exact Hlen|]. split.
      { apply Forall_forall. intros f Hf. apply in_map_iff in Hf.
        destruct Hf as (m & <- & _). repeat split. }
      rewrite !risk_score_min, map_app, py_sum_append.
      rewrite (low_flags_sum (fl := map (mention_flag source u published) mentions)).
      * lia.
      * apply Forall_forall. intros f Hf. apply in_map_iff in Hf.
        destruct Hf as (m & <- & _). reflexivity.
    + intros full _. eexists. reflexivity.
  - split; [|split].
    + intros e. tauto.
    + intros base H. discriminate H.
    + intros full H. discriminate H.
Qed.

(** ** Severities of the flags *)

Lemma highest_severity_in_order (ms : list KeywordMatch) :
  In (highest_severity ms) severity_order.
Proof.
  unfold highest_severity.
  destruct (find _ severity_order) as [sev|] eqn:F.
  - apply find_some in F. apply F.
  - vm_compute. tauto.
Qed.

Lemma check_country_severity (c : str) (f : ContentFlag) :
  In f (_check_country c) -> In (severity f) severity_order.
Proof.
  unfold _check_country.
  destruct (str_eqb _ (py "fully_authoritarian")).
  - intros [<-|[]]. vm_compute. tauto.
  - destruct (str_eqb _ (py "hybrid_authoritarian")).
    + intros [<-|[]]. vm_compute. tauto.
    + intros [].
Qed.

Lemma content_flags_severity {L : PyLib} (self : GuidelinesAnalyzer)
    (text : str) (source u published : option str) (f : ContentFlag) :
  In f (content_flags self text source u published) -> In (severity f) severity_order.
Proof.
  unfold content_flags. intros H. apply in_app_or in H. destruct H as [H|H].
  - apply in_map_iff in H. destruct H as (g & <- & _).
    apply highest_severity_in_order.
  - destruct (self_strict_mode self); [|destruct H].
    apply in_map_iff in H. destruct H as (m & <- & _). vm_compute. tauto.
Qed.

Lemma collected_flags_severity {L : PyLib} (self : GuidelinesAnalyzer) (a : Applicant)
    (content_items : list ContentItem) (social_profiles : option (list SocialProfile))
    (f : ContentFlag) :
  In f (collected_flags self a content_items social_profiles) ->
  In (severity f) severity_order.
Proof.
  unfold collected_flags. intros H.
  apply in_app_or in H. destruct H as [H|H].
  { unfold country_flags in H. destruct (a_country a) as [[|c cs]|]; try destruct H.
    eapply check_country_severity; eassumption. }
  apply in_app_or in H. destruct H as [H|H].
  { apply in_flat_map in H. destruct H as (item & _ & H). unfold item_flags in H.
    destruct (text_content item) as [[|c cs]|]; try destruct H.
    eapply content_flags_severity; eassumption. }
  destruct social_profiles as [ps|]; [|destruct H].
  apply in_flat_map in H. destruct H as (p & _ & H). unfold bio_flags in H.
  destruct (bio p) as [[|c cs]|]; try destruct H.
  eapply content_flags_severity; eassumption.
Qed.

Lemma known_severity_weight (f : ContentFlag) :
  In (severity f) severity_order -> (3 <= flag_weight f)%Z.
Proof.
  unfold flag_weight, severity_order. simpl In.
  intros [E|[E|[E|[E|[]]]]]; rewrite <- E; vm_compute; discriminate.
Qed.

Lemma weight_le_sum (fl : list ContentFlag) (f : ContentFlag) :
  In f fl -> (flag_weight f <= py_sum (map flag_weight fl))%Z.
Proof.
  induction fl as [|g fl IH]; intros H; [destruct H|].
  change (map flag_weight (g :: fl)) with (flag_weight g :: map flag_weight fl).
  rewrite py_sum_cons.
  pose proof (flag_weight_nonneg g). pose proof (weights_sum_nonneg fl).
  destruct H as [->|H]; [lia | apply IH in H; lia].
Qed.

Lemma group_of_category (ms : list KeywordMatch) (c : str) (l : list KeywordMatch) :
  In (c, l) (group_by_category ms) -> l = of_category c ms.
Proof.
  intros Hin.
  assert (NoDup (map fst (group_by_category ms))) as Hnd.
  { rewrite group_by_category_fold. apply group_keys_NoDup. constructor. }
  apply (dict_In_lookup _ _ _ Hnd) in Hin.
  rewrite group_by_category_fold, group_lookup_acc in Hin. simpl in Hin.
  destruct (of_category c ms); [discriminate|].
  injection Hin as <-. reflexivity.
Qed.

(** The severity of a group is [low], or the severity of one of its
    matches. *)
Lemma highest_severity_cases (ms : list KeywordMatch) :
  highest_severity ms = py "low"
  \/ exists m, In m ms /\ km_severity m = highest_severity ms.
Proof.
  unfold highest_severity.
  destruct (find _ severity_order) as [sev|] eqn:F; [|left; reflexivity].
  right. apply find_some in F. destruct F as [_ F].
  apply existsb_exists in F. destruct F as (m & Hm & E).
  apply str_eqb_eq in E. exists m. split; assumption.
Qed.

Lemma highest_severity_unknown (ms : list KeywordMatch) :
  (forall m, In m ms -> ~ In (km_severity m) severity_order) ->
  highest_severity ms = py "low".
Proof.
  intros H. destruct (highest_severity_cases ms) as [E | (m & Hm & E)]; [exact E|].
  exfalso. apply (H m Hm). rewrite E. apply highest_severity_in_order.
Qed.

(** A flag of a text is [low], or has the severity tag of a pattern of
    a category that maps to the category of the flag. *)
Lemma content_flag_origin {L : PyLib} (self : GuidelinesAnalyzer) (text : str)
    (source u published : option str) (f : ContentFlag) :
  In f (content_flags self text source u published) ->
  severity f = py "low"
  \/ exists cat patterns pattern,
       category f = _map_keyword_to_guideline cat
       /\ dict_lookup (keywords self) cat = Some patterns
       /\ In (pattern, severity f) patterns.
Proof.
  unfold content_flags. intros H. apply in_app_or in H. destruct H as [H|H].
  - apply in_map_iff in H. destruct H as ([c l] & <- & Hg).
    cbn [group_flag severity category fst snd].
    destruct (highest_severity_cases l) as [E | (m & Hm & E)]; [left; exact E|].
    right. rewrite <- E.
    apply group_of_category in Hg. subst l.
    unfold of_category in Hm. apply filter_In in Hm. destruct Hm as [Hm Hc].
    apply str_eqb_eq in Hc.
    destruct (all_matches_In _ _ _ _ Hm)
      as (cat & patterns & pattern & sev & ms & sp & _ & Hl & Hp & _ & _ & ->).
    destruct sp as [s0 e0]. cbn [text_match km_category km_severity] in *. subst c.
    exists cat, patterns, pattern. auto.
  - destruct (self_strict_mode self); [|destruct H].
    apply in_map_iff in H. destruct H as (m & <- & _). left. reflexivity.
Qed.

(** X9: every flag [analyze_applicant] returns has one of the four
    severities, so every flag counts at least 3, and the risk score is 0
    exactly when there is no flag.  A pattern with another severity tag
    does not change that: a group in which no match has one of the four
    severities is reported as [low], and the severity of a flag of a
    text is [low] or the tag of a pattern of a category that maps to the
    category of the flag. *)
Theorem score_zero_iff_no_flags {L : PyLib} (self : GuidelinesAnalyzer) (now : Z)
    (a : Applicant) (content_items : list ContentItem)
    (social_profiles : option (list SocialProfile)) (result : AnalysisResult) :
  analyze_applicant self now a content_items social_profiles = Ret result ->
  Forall (fun f => In (severity f) [py "critical"; py "high"; py "medium"; py "low"])
         (flags result)
  /\ (risk_score result = 0%Z <-> flags result = [])
  /\ (flags result <> [] -> (3 <= risk_score result)%Z)
  /\ (forall ms,
        (forall m, In m ms ->
                   ~ In (km_severity m) [py "critical"; py "high"; py "medium"; py "low"]) ->
        highest_severity ms = py "low")
  /\ (forall text source u published fl f,
        _analyze_content self text source u published = Ret fl ->
        In f fl ->
        severity f = py "low"
        \/ exists cat patterns pattern,
             category f = _map_keyword_to_guideline cat
             /\ dict_lookup (keywords self) cat = Some patterns
             /\ In (pattern, severity f) patterns).
Proof.
  intros E. apply analyze_applicant_result in E. subst result.
  set (fl := collected_flags self a content_items social_profiles).
  pose proof (finish_result_fields now a content_items fl) as (_ & _ & Hfl & Hsc & _).
  rewrite Hfl, Hsc.
  assert (Forall (fun f => In (severity f) severity_order) fl) as Hsev.
  { apply Forall_forall. intros f Hf. eapply collected_flags_severity, Hf. }
  assert (fl <> [] -> (3 <= _calculate_risk_score fl)%Z) as Hpos.
  { intros Hne. rewrite risk_score_min.
    destruct fl as [|f fl']; [congruence|].
    pose proof (weight_le_sum (f :: fl') f (or_introl eq_refl)) as Hle.
    pose proof (known_severity_weight f (Forall_inv Hsev)). lia. }
  split; [exact Hsev|]. split; [|split; [exact Hpos|split]].
  - split.
    + intros Hz. destruct fl as [|f fl'] eqn:Efl; [reflexivity|].
      assert (3 <= _calculate_risk_score (f :: fl'))%Z by (apply Hpos; discriminate). lia.
    + intros ->. reflexivity.
  - apply highest_severity_unknown.
  - intros text source u published fl' f Hrun Hin.
    destruct (analyze_content_outcome self text source u published)
      as [E | (e & E & _)]; [|congruence].
    assert (fl' = content_flags self text source u published) by congruence. subst fl'.
    eapply content_flag_origin, Hin.
Qed.
(** ** The summary *)

Lemma dict_get_lookup {V : Type} (d : list (str * V)) (k : str) (default : V) :
  dict_get d k default
  = match dict_lookup d k with Some v => v | None => default end.
Proof.
  induction d as [|[k0 v0] d IH]; simpl; [reflexivity|].
  destruct (str_eqb k k0); [reflexivity | exact IH].
Qed.

Lemma count_fold (fl : list ContentFlag) (counts : list (str * Z)) (sev : str) :
  dict_get
    (fold_left
       (fun counts flag =>
          dict_set counts (severity flag) (dict_get counts (severity flag) 0 + 1)%Z)
       fl counts) sev 0%Z
  = (dict_get counts sev 0 + count_severity sev fl)%Z.
Proof.
  revert counts; induction fl as [|f fl IH]; intros counts.
  - unfold count_severity. simpl. lia.
  - cbn [fold_left]. rewrite IH, count_severity_cons.
    rewrite (dict_get_lookup (dict_set _ _ _)), dict_lookup_set.
    destruct (str_eqb_spec sev (severity f)) as [->|Hne].
    + rewrite str_eqb_refl. simpl Z.b2z. lia.
    + destruct (str_eqb_spec (severity f) sev) as [E|_]; [congruence|].
      rewrite <- dict_get_lookup. simpl Z.b2z. lia.
Qed.

Lemma severity_count_correct (fl : list ContentFlag) (sev : str) :
  severity_count fl sev = count_severity sev fl.
Proof. unfold severity_count. rewrite count_fold. reflexivity. Qed.

Lemma str_join_cons2 (sep p q : str) (rest : list str) :
  str_join sep (p :: q :: rest) = p ++ sep ++ str_join sep (q :: rest).
Proof. reflexivity. Qed.

Lemma summary_head {L : PyLib} (result : AnalysisResult) :
  flags result <> [] ->
  exists rest,
    _generate_summary result
    = py "Analysis found " ++ py_repr_int (Z.of_nat (List.length (flags result)))
        ++ py " potential issue(s)." ++ rest.
Proof.
  intros Hne. unfold _generate_summary.
  destruct (flags result) as [|f fl] eqn:E; [congruence|].
  cbv zeta.
  destruct (severity_count (f :: fl) (py "critical") =? 0)%Z;
    destruct (severity_count (f :: fl) (py "high") =? 0)%Z;
    cbn [app]; rewrite str_join_cons2, <- !app_assoc; eexists; reflexivity.
Qed.

(** X10: the summary is the sentence that the applicant appears to meet
    the guidelines exactly when the result has no flag; otherwise it
    opens with the number of flags, and the numbers it prints after
    CRITICAL and HIGH, counted in a dictionary by severity, are the
    numbers of flags of those severities. *)
Theorem summary_reports_flag_counts {L : PyLib} (result : AnalysisResult) :
  (_generate_summary result
   = py "No concerning content found. Applicant appears to meet vetting guidelines."
   <-> flags result = [])
  /\ (flags result <> [] ->
      exists rest,
        _generate_summary result
        = py "Analysis found " ++ py_repr_int (Z.of_nat (List.length (flags result)))
            ++ py " potential issue(s)." ++ rest)
  /\ (forall sev, severity_count (flags result) sev = count_severity sev (flags result)).
Proof.
  split; [|split; [apply summary_head | intros sev; apply severity_count_correct]].
  split.
  - intros H. destruct (flags result) as [|f fl] eqn:E; [reflexivity|]. exfalso.
    destruct (summary_head result) as (rest & Hs); [rewrite E; discriminate|].
    rewrite Hs in H. apply (f_equal (@hd_error N)) in H.
    cbn [py app hd_error map list_ascii_of_string N_of_ascii] in H. discriminate H.
  - intros E. unfold _generate_summary. rewrite E. reflexivity.
Qed.

(** ** Who is approved *)

Lemma flag_weight_of (f : ContentFlag) (sev : str) :
  severity f = sev -> flag_weight f = dict_get severity_weights sev 0%Z.
Proof. intros <-. reflexivity. Qed.

Lemma low_score_light_flags (fl : list ContentFlag) (f : ContentFlag) :
  (_calculate_risk_score fl < 10)%Z -> In f fl ->
  severity f <> py "critical" /\ severity f <> py "high" /\ severity f <> py "medium".
Proof.
  intros Hs Hin. rewrite risk_score_min in Hs.
  pose proof (weight_le_sum fl f Hin) as Hle.
  repeat split; intros E; rewrite (flag_weight_of f E) in Hle;
    vm_compute dict_get in Hle; lia.
Qed.

Lemma approve_iff_low_score (fl : list ContentFlag) :
  _generate_recommendation (scored fl) = py "approve"
  <-> (_calculate_risk_score fl < 10)%Z.
Proof.
  split.
  - intros E. pose proof (recommendation_meets_spec (scored fl)) as H.
    rewrite E in H. inversion H. assumption.
  - intros Hs.
    apply (recommendation_spec_functional (result := scored fl)).
    { apply recommendation_meets_spec. }
    apply rule_approve.
    + intros X. apply Exists_exists in X. destruct X as (f & Hin & Hf).
      destruct (low_score_light_flags fl f Hs Hin) as (H1 & H2 & _).
      destruct Hf as [Hf|[Hf _]]; contradiction.
    + change (risk_level (scored fl)) with (_determine_risk_level (_calculate_risk_score fl)).
      destruct (risk_level_cases (_calculate_risk_score fl))
        as [[? E]|[[? E]|[[? E]|[? E]]]]; try lia.
      rewrite E. intros [X|[X|X]]; discriminate X.
    + exact Hs.
    + intros X. apply Exists_exists in X. destruct X as (f & Hin & Hf).
      destruct (low_score_light_flags fl f Hs Hin) as (H1 & H2 & _).
      destruct Hf; contradiction.
Qed.

Lemma reject_iff_auto_reject (fl : list ContentFlag) :
  _generate_recommendation (scored fl) = py "reject" <-> Exists auto_reject_flag fl.
Proof.
  split.
  - intros E. pose proof (recommendation_meets_spec (scored fl)) as H.
    rewrite E in H. inversion H. assumption.
  - intros H. apply (recommendation_spec_functional (result := scored fl)).
    + apply recommendation_meets_spec.
    + apply rule_reject. exact H.
Qed.

(** X11: on the result of an analysis the recommendation is [approve]
    exactly when the risk score is below 10, which leaves room for low
    flags only; and the status the application then gives the applicant
    is [passed] exactly in that case (its extra test of the risk level
    never decides), [failed] exactly when a flag rejects on its own, and
    [needs_review] otherwise. *)
Theorem approve_iff_score_below_ten {L : PyLib} (now : Z) (a : Applicant)
    (content_items : list ContentItem) (fl : list ContentFlag) :
  let result := finish_result now a content_items fl in
  (recommendation result = py "approve" <-> (risk_score result < 10)%Z)
  /\ (applicant_status result = py "passed" <-> (risk_score result < 10)%Z)
  /\ (applicant_status result = py "failed" <-> Exists auto_reject_flag fl)
  /\ (applicant_status result = py "needs_review"
      <-> ~ (risk_score result < 10)%Z /\ ~ Exists auto_reject_flag fl)
  /\ ((risk_score result < 10)%Z ->
      forall f, In f fl ->
        severity f <> py "critical" /\ severity f <> py "high"
        /\ severity f <> py "medium").
Proof.
  intros result.
  pose proof (finish_result_fields now a content_items fl)
    as (_ & _ & _ & Hsc & Hlv & Hrec & _).
  fold result in Hsc, Hlv, Hrec.
  pose proof (approve_iff_low_score fl) as Happ.
  pose proof (reject_iff_auto_reject fl) as Hrej.
  rewrite Hsc.
  assert (forall s, s = py "approve" -> s <> py "reject") as Hne
    by (intros s -> X; discriminate X).
  assert ((_calculate_risk_score fl < 10)%Z ->
          risk_level result = py "low") as Hlow.
  { intros Hs. rewrite Hlv.
    destruct (risk_level_cases (_calculate_risk_score fl))
      as [[? E]|[[? E]|[[? E]|[? E]]]]; try lia. exact E. }
  unfold applicant_status. rewrite Hrec.
  split; [exact Happ|].
  destruct (str_eqb_spec (_generate_recommendation (scored fl)) (py "reject")) as [Er|Er].
  - assert (~ (_calculate_risk_score fl < 10)%Z) as Hns.
    { intros Hs. apply Happ in Hs. apply Hne in Hs. contradiction. }
    split; [split; [intros X; discriminate X | intros Hs; contradiction]|].
    split; [split; [intros _; apply Hrej, Er | reflexivity]|].
    split; [|intros Hs; contradiction].
    split; [intros X; discriminate X|].
    intros [_ X]. exfalso. apply X, Hrej, Er.
  - assert (~ Exists auto_reject_flag fl) as Hna by (intros X; apply Er, Hrej, X).
    destruct (str_eqb_spec (_generate_recommendation (scored fl)) (py "approve")) as [Ea|Ea].
    + assert (_calculate_risk_score fl < 10)%Z as Hs by (apply Happ, Ea).
      rewrite (Hlow Hs). cbn [andb]. change (str_eqb (py "low") (py "low")) with true.
      cbv iota.
      split; [tauto|].
      split; [split; [intros X; discriminate X | intros X; contradiction]|].
      split; [split; [intros X; discriminate X | tauto]|].
      intros _ f Hin. eapply low_score_light_flags; eassumption.
    + assert (~ (_calculate_risk_score fl < 10)%Z) as Hns
        by (intros Hs; apply Ea, Happ, Hs).
      cbn [andb].
      split; [split; [intros X; discriminate X | intros Hs; contradiction]|].
      split; [split; [intros X; discriminate X | intros X; contradiction]|].
      split; [tauto | intros Hs; contradiction].
Qed.

(** ** The score of a list of matches *)

Lemma match_weight_cases (m : KeywordMatch) :
  match_weight m =
    (25 * Z.b2z (str_eqb (km_severity m) (py "critical"))
     + 15 * Z.b2z (str_eqb (km_severity m) (py "high"))
     + 8 * Z.b2z (str_eqb (km_severity m) (py "medium"))
     + 3 * Z.b2z (str_eqb (km_severity m) (py "low")))%Z.
Proof.
  cbv [match_weight match_severity_weights dict_get].
  destruct (str_eqb_spec (km_severity m) (py "critical")) as [->|_]; [reflexivity|].
  destruct (str_eqb_spec (km_severity m) (py "high")) as [->|_]; [reflexivity|].
  destruct (str_eqb_spec (km_severity m) (py "medium")) as [->|_]; [reflexivity|].
  destruct (str_eqb_spec (km_severity m) (py "low")); reflexivity.
Qed.

Lemma match_weight_nonneg (m : KeywordMatch) : (0 <= match_weight m)%Z.
Proof.
  rewrite match_weight_cases.
  destruct (str_eqb (km_severity m) (py "critical")),
           (str_eqb (km_severity m) (py "high")),
           (str_eqb (km_severity m) (py "medium")),
           (str_eqb (km_severity m) (py "low")); simpl Z.b2z; lia.
Qed.

Lemma count_match_severity_cons (sev : str) (m : KeywordMatch) (ms : list KeywordMatch) :
  count_match_severity sev (m :: ms)
  = (Z.b2z (str_eqb (km_severity m) sev) + count_match_severity sev ms)%Z.
Proof.
  unfold count_match_severity; simpl.
  destruct (str_eqb (km_severity m) sev); simpl Z.b2z; simpl List.length; lia.
Qed.

Lemma match_weights_sum (ms : list KeywordMatch) :
  py_sum (map match_weight ms)
  = (25 * count_match_severity (py "critical") ms
     + 15 * count_match_severity (py "high") ms
     + 8 * count_match_severity (py "medium") ms
     + 3 * count_match_severity (py "low") ms)%Z
  /\ (0 <= py_sum (map match_weight ms))%Z.
Proof.
  induction ms as [|m ms [IH1 IH2]].
  - split; [reflexivity | unfold py_sum; simpl; lia].
  - change (map match_weight (m :: ms)) with (match_weight m :: map match_weight ms).
    rewrite py_sum_cons, IH1. pose proof (match_weight_nonneg m) as Hm.
    split; [rewrite match_weight_cases, !count_match_severity_cons; lia|].
    rewrite <- IH1. lia.
Qed.

Lemma severity_score_min (ms : list KeywordMatch) :
  get_severity_score ms = Z.min 100 (py_sum (map match_weight ms)).
Proof. destruct ms; reflexivity. Qed.

(** X12: [get_severity_score] is the sum of the per-match weights
    critical=25, high=15, medium=8, low=3, capped at 100 (a match of any
    other severity counts 0); it lies in [0, 100], is 0 for no match, and
    a further match never lowers it. *)
Theorem severity_score_capped_sum (ms : list KeywordMatch) (m : KeywordMatch) :
  get_severity_score ms
  = Z.min 100
      (25 * count_match_severity (py "critical") ms
       + 15 * count_match_severity (py "high") ms
       + 8 * count_match_severity (py "medium") ms
       + 3 * count_match_severity (py "low") ms)
  /\ (0 <= get_severity_score ms <= 100)%Z
  /\ get_severity_score [] = 0%Z
  /\ (get_severity_score ms <= get_severity_score (ms ++ [m]))%Z.
Proof.
  destruct (match_weights_sum ms) as [Hsum Hnn].
  rewrite !severity_score_min, <- Hsum, map_app. simpl map.
  rewrite py_sum_app. pose proof (match_weight_nonneg m).
  repeat split; try reflexivity; lia.
Qed.

(** ** What the caller may leave out *)

Lemma item_flags_filter {L : PyLib} (self : GuidelinesAnalyzer) (items : list ContentItem) :
  flat_map (item_flags self) (filter has_text items) = flat_map (item_flags self) items.
Proof.
  induction items as [|item items IH]; [reflexivity|].
  cbn [filter]. destruct (has_text item) eqn:Eh; cbn [flat_map]; rewrite IH.
  - reflexivity.
  - assert (item_flags self item = []) as ->; [|reflexivity].
    unfold has_text in Eh. unfold item_flags.
    destruct (text_content item) as [[|c cs]|]; (reflexivity || discriminate).
Qed.




(** ** One flag per guideline *)

Lemma NoDup_map_injective_on {A B : Type} (f : A -> B) (l : list A) :
  (forall x y, In x l -> In y l -> f x = f y -> x = y) ->
  NoDup l -> NoDup (map f l).
Proof.
  induction l as [|a l IH]; intros Hinj Hnd; simpl; [constructor|].
  inversion Hnd as [|? ? Hnot Hnd']; subst. constructor.
  - intros Hin. apply in_map_iff in Hin. destruct Hin as (x & Hfx & Hx).
    apply Hinj in Hfx; [|right; exact Hx | left; reflexivity].
    subst x. contradiction.
  - apply IH; [|exact Hnd'].
    intros x y Hx Hy. apply Hinj; right; assumption.
Qed.

Lemma builtin_mapping_injective (x y : str) :
  In x (map fst _build_keyword_database) -> In y (map fst _build_keyword_database) ->
  _map_keyword_to_guideline x = _map_keyword_to_guideline y -> x = y.
Proof.
  intros Hx Hy. vm_compute in Hx. vm_compute in Hy.
  repeat (destruct Hx as [<-|Hx]);
    try (destruct Hx);
    repeat (destruct Hy as [<-|Hy]);
    try (destruct Hy);
    intros H; try reflexivity; vm_compute in H; discriminate H.
Qed.

Lemma builtin_mapping_published (x : str) :
  In x (map fst _build_keyword_database) ->
  In (_map_keyword_to_guideline x) (map fst GUIDELINES).
Proof.
  intros Hx. vm_compute in Hx.
  repeat (destruct Hx as [<-|Hx]; [vm_compute; tauto|]). destruct Hx.
Qed.

Lemma text_match_category (text text_lower cat sev : str) (sp : span) :
  km_category (text_match text text_lower cat sev sp) = cat.
Proof. destruct sp; reflexivity. Qed.

Lemma group_keys_in_db {L : PyLib} (kws : keyword_db) (text : str) (c : str) :
  In c (map fst (group_by_category (all_matches kws text None))) ->
  In c (map fst kws).
Proof.
  intros Hin. apply in_map_iff in Hin. destruct Hin as ([c' l] & <- & Hin).
  pose proof (group_nonempty _ _ Hin) as Hne. simpl in Hne.
  assert (NoDup (map fst (group_by_category (all_matches kws text None)))) as Hnd.
  { rewrite group_by_category_fold. apply group_keys_NoDup. constructor. }
  apply (dict_In_lookup _ _ _ Hnd) in Hin.
  rewrite group_by_category_fold, group_lookup_acc in Hin. simpl in Hin.
  destruct (of_category c' (all_matches kws text None)) as [|m ms] eqn:E; [discriminate|].
  assert (In m (of_category c' (all_matches kws text None))) as Hm
    by (rewrite E; left; reflexivity).
  unfold of_category in Hm. apply filter_In in Hm. destruct Hm as [Hm Hc].
  apply str_eqb_eq in Hc.
  destruct (all_matches_In kws text None m Hm)
    as (cat & patterns & pattern & sev & spans & sp & Hcat & _ & _ & _ & _ & ->).
  rewrite text_match_category in Hc. subst cat. exact Hcat.
Qed.

(** X15: with the built-in database and strict mode off, the
    configuration the application runs, the flags of one text have
    pairwise different categories, each one of the published guidelines:
    one flag per guideline per content item, eight at most. *)
Theorem one_flag_per_guideline {L : PyLib} (text : str)
    (source u published : option str) :
  exists fl,
    _analyze_content (GuidelinesAnalyzer_init None) text source u published = Ret fl
    /\ NoDup (map category fl)
    /\ (forall f, In f fl -> In (category f) (map fst GUIDELINES))
    /\ List.length fl <= 8.
Proof.
  eexists. split.
  { apply analyze_content_returns.
    change (keywords (GuidelinesAnalyzer_init None)) with _build_keyword_database.
    apply builtin_only_re_errors. }
  unfold content_flags.
  change (self_strict_mode (GuidelinesAnalyzer_init None)) with false.
  change (keywords (GuidelinesAnalyzer_init None)) with _build_keyword_database.
  rewrite app_nil_r.
  set (groups := group_by_category (all_matches _build_keyword_database text None)).
  assert (NoDup (map fst groups)) as Hnd.
  { unfold groups. rewrite group_by_category_fold. apply group_keys_NoDup. constructor. }
  assert (forall c, In c (map fst groups) -> In c (map fst _build_keyword_database)) as Hsub.
  { intros c. apply group_keys_in_db. }
  assert (map category (map (group_flag source u published) groups)
          = map _map_keyword_to_guideline (map fst groups)) as Ecat.
  { rewrite !map_map. reflexivity. }
  split; [|split].
  - rewrite Ecat. apply NoDup_map_injective_on; [|exact Hnd].
    intros x y Hx Hy. apply builtin_mapping_injective; apply Hsub; assumption.
  - intros f Hf. apply (in_map category) in Hf. rewrite Ecat in Hf.
    apply in_map_iff in Hf. destruct Hf as (c & <- & Hc).
    apply builtin_mapping_published, Hsub, Hc.
  - rewrite length_map, <- (length_map fst).
    change 8 with (List.length (map fst _build_keyword_database)).
    apply NoDup_incl_length; [exact Hnd | exact Hsub].
Qed.

(** ** The properties at concrete inputs *)

Lemma scanned_travel_item (text : str) :
  scanned_text [travel_item] None text -> text = travel_text.
Proof.
  intros [(item & [<-|[]] & E)|(ps & p & E & _)]; [|discriminate].
  simpl in E. injection E as <-. reflexivity.
Qed.

Lemma travel_text_quiet (self : GuidelinesAnalyzer) :
  keywords self = _build_keyword_database ->
  @no_pattern_matches latin_runtime (keywords self) travel_text.
Proof.
  intros ->. apply no_pattern_matchesb_sound. vm_compute. reflexivity.
Qed.

(** C4, as stated, fails in strict mode: no pattern matches in the text,
    and yet the applicant gets four flags, score 12 and
    [pending_review]. *)
Lemma strict_mode_flags_quiet_text :
  a_country anonymous = None
  /\ (forall text, scanned_text [travel_item] None text ->
                   @no_pattern_matches latin_runtime (keywords strict_analyzer) text)
  /\ exists result,
       @analyze_applicant latin_runtime strict_analyzer 0 anonymous [travel_item] None
       = Ret result
       /\ List.length (flags result) = 4
       /\ risk_score result = 12%Z
       /\ recommendation result = py "pending_review"
       /\ summary result
          <> py "No concerning content found. Applicant appears to meet vetting guidelines.".
Proof.
  split; [reflexivity|]. split.
  - intros text H. rewrite (scanned_travel_item H).
    apply travel_text_quiet. reflexivity.
  - eexists.
    repeat (split; [vm_compute; reflexivity|]).
    vm_compute. discriminate.
Qed.

Lemma no_match_no_findings_witness :
  @analyze_text latin_runtime (keywords default_analyzer) travel_text None = Ret []
  /\ exists result,
       @analyze_applicant latin_runtime default_analyzer 0 anonymous [travel_item] None
       = Ret result
       /\ flags result = []
       /\ risk_score result = 0%Z
       /\ risk_level result = py "low"
       /\ recommendation result = py "approve"
       /\ summary result
          = py "No concerning content found. Applicant appears to meet vetting guidelines.".
Proof.
  split.
  - apply (proj1 (@no_match_no_findings latin_runtime default_analyzer)).
    apply travel_text_quiet. reflexivity.
  - apply (proj2 (@no_match_no_findings latin_runtime default_analyzer)).
    + reflexivity.
    + intros text H. rewrite (scanned_travel_item H).
      apply travel_text_quiet. reflexivity.
    + left. reflexivity.
Defined.

Lemma country_classification_lookup_witness :
  exists result f,
    @analyze_applicant latin_runtime default_analyzer 0 from_russia [travel_item] None
    = Ret result
    /\ flags result = [f]
    /\ category f = py "authoritarian_connection"
    /\ severity f = py "high"
    /\ risk_score result = 20%Z
    /\ risk_level result = py "medium"
    /\ recommendation result = py "pending_review".
Proof.
  apply (@country_classification_lookup latin_runtime default_analyzer 0 from_russia
           [travel_item] None).
  - intros text source u published H. rewrite (scanned_travel_item H).
    apply analyze_content_quiet.
    + apply travel_text_quiet. reflexivity.
    + left. reflexivity.
  - reflexivity.
Defined.

Lemma malformed_pattern_is_skipped_witness :
  @re_finditer latin_runtime (py "(unclosed") (latin_lower shell_text) = Raise re_error
  /\ @re_finditer latin_runtime (py "offshore\s+(") (latin_lower shell_text)
     = Raise re_error
  /\ In (mkKeywordMatch (py "shell  company") (py "business_concerns") (py "medium")
           shell_text 18%Z)
        (@all_matches latin_runtime custom_database shell_text None).
Proof.
  split; [reflexivity|]. split; [reflexivity|].
  assert (@only_re_errors latin_runtime custom_database shell_text) as Hok
    by (apply only_re_errorsb_spec; vm_compute; reflexivity).
  apply (proj2 (proj2 (@malformed_pattern_is_skipped latin_runtime custom_database
                         shell_text None Hok))
           (py "business_concerns")
           [ (py "offshore\s+(", py "high"); (py "\bshell\s+company\b", py "medium") ]
           (py "\bshell\s+company\b") (py "medium") [(18%Z, 32%Z)] (18%Z, 32%Z)).
  - discriminate.
  - vm_compute. tauto.
  - vm_compute. reflexivity.
  - right. left. reflexivity.
  - vm_compute. reflexivity.
  - left. reflexivity.
Defined.
(** ** Further properties at concrete inputs *)

Lemma regime_lookup_ignores_padding_witness :
  get_regime_classification (py "  " ++ py "Hungary" ++ py " ")
  = get_regime_classification (py "Hungary")
  /\ is_hybrid_authoritarian (py "  " ++ py "Hungary" ++ py " ")
     = is_hybrid_authoritarian (py "Hungary").
Proof.
  assert (all_space (py "  ")) as H1 by (repeat constructor).
  assert (all_space (py " ")) as H2 by (repeat constructor).
  destruct (regime_lookup_ignores_padding (py "Hungary") H1 H2) as (Ha & _ & _ & Hd).
  split; [exact Ha | exact Hd].
Defined.

Lemma country_flag_by_regime_witness :
  (exists f, _check_country padded_hungary = [f]
             /\ category f = py "authoritarian_connection"
             /\ severity f = py "medium"
             /\ title f = py "From Hybrid Authoritarian Regime: " ++ padded_hungary
             /\ guideline_reference f = Some (py "Guideline 1")
             /\ _calculate_risk_score [f] = 10%Z)
  /\ _check_country (py "hungary") = [].
Proof.
  split.
  - apply (proj1 (proj2 (country_flag_by_regime padded_hungary))). reflexivity.
  - apply (proj2 (proj2 (country_flag_by_regime (py "hungary")))). reflexivity.
Defined.

Lemma group_by_category_partition_witness :
  In (py "unprofessional",
      [ mkKeywordMatch (py "idiot") (py "unprofessional") (py "low") (py "an idiot") 3%Z;
        mkKeywordMatch (py "stalk") (py "unprofessional") (py "medium")
          (py "stalk them") 0%Z ])
     (group_by_category sample_matches).
Proof.
  apply (proj1 (proj2 (group_by_category_partition sample_matches))).
  split; [reflexivity | discriminate].
Defined.

Lemma analyze_applicant_total_witness :
  (exists result,
      @analyze_applicant latin_runtime custom_analyzer 0 anonymous [shell_item] None
      = Ret result)
  /\ @analyze_applicant latin_runtime overflow_analyzer 0 anonymous [travel_item] None
     = Raise OverflowError
  /\ (exists text cat patterns pattern sev,
       scanned_text [travel_item] None text
       /\ text <> []
       /\ dict_lookup (keywords overflow_analyzer) cat = Some patterns
       /\ In (pattern, sev) patterns
       /\ @re_finditer latin_runtime pattern (latin_lower text) = Raise OverflowError)
  /\ exists e,
       @analyze_applicant latin_runtime overflow_analyzer 0 from_russia
         [shell_item; travel_item] None = Raise e.
Proof.
  split; [|split; [|split]].
  - apply (proj1 (@analyze_applicant_total latin_runtime custom_analyzer 0 anonymous
                    [shell_item] None)).
    intros text [(item & [<-|[]] & E)|(ps & p & E & _)]; [|discriminate E].
    injection E as <-.
    apply only_re_errorsb_spec. vm_compute. reflexivity.
  - vm_compute. reflexivity.
  - apply (proj1 (proj2 (@analyze_applicant_total latin_runtime overflow_analyzer 0
                           anonymous [travel_item] None))).
    vm_compute. reflexivity.
  - apply (proj2 (proj2 (proj2 (proj2 (@analyze_applicant_total latin_runtime
                                         overflow_analyzer 0 from_russia
                                         [shell_item; travel_item] None))))
             travel_text (py "spam") [ (py "a{4294967296}", py "low") ]
             (py "a{4294967296}") (py "low") OverflowError).
    + left. exists travel_item. split; [right; left; reflexivity | reflexivity].
    + discriminate.
    + vm_compute. reflexivity.
    + left. reflexivity.
    + vm_compute. reflexivity.
    + discriminate.
Defined.

Lemma strict_mode_appends_mentions_witness :
  exists extra,
    @_analyze_content latin_runtime (mkGuidelinesAnalyzer _build_keyword_database true)
      travel_text (Some (py "twitter")) None None
    = Ret ([] ++ extra)
    /\ extra = map (mention_flag (Some (py "twitter")) None None)
                   (firstn 5 (@check_for_authoritarian_mentions latin_runtime travel_text))
    /\ List.length extra <= 5
    /\ Forall (fun f => severity f = py "low"
                        /\ category f = py "regime_praise"
                        /\ guideline_reference f = None) extra
    /\ (_calculate_risk_score ([] ++ extra) <= _calculate_risk_score [] + 15)%Z.
Proof.
  apply (proj1 (proj2 (@strict_mode_appends_mentions latin_runtime
                         _build_keyword_database travel_text
                         (Some (py "twitter")) None None))).
  vm_compute. reflexivity.
Defined.

Lemma score_zero_iff_no_flags_witness :
  exists result f,
    @analyze_applicant latin_runtime tagged_analyzer 0 anonymous [offshore_item] None
    = Ret result
    /\ flags result = [f]
    /\ category f = py "tax_evasion"
    /\ severity f = py "low"
    /\ matched_keywords f = [py "offshore accounts"]
    /\ content_source f = None
    /\ risk_score result = 3%Z
    /\ (risk_score result = 0%Z <-> flags result = [])
    /\ (flags result <> [] -> (3 <= risk_score result)%Z)
    /\ highest_severity
         [ mkKeywordMatch (py "offshore accounts") (py "tax_evasion") (py "severe")
             (py "He keeps offshore accounts") 9%Z ]
       = py "low".
Proof.
  eexists. eexists.
  split; [vm_compute; reflexivity|].
  split; [vm_compute; reflexivity|].
  split; [vm_compute; reflexivity|].
  split; [vm_compute; reflexivity|].
  split; [vm_compute; reflexivity|].
  split; [vm_compute; reflexivity|].
  split; [vm_compute; reflexivity|].
  assert (@analyze_applicant latin_runtime tagged_analyzer 0 anonymous [offshore_item] None
          = Ret (@finish_result latin_runtime 0 anonymous [offshore_item]
                   (@collected_flags latin_runtime tagged_analyzer anonymous
                      [offshore_item] None))) as Hrun
    by (vm_compute; reflexivity).
  destruct (@score_zero_iff_no_flags latin_runtime tagged_analyzer 0 anonymous
              [offshore_item] None _ Hrun) as (_ & Hz & Hp & Hu & _).
  split; [exact Hz|]. split; [exact Hp|].
  apply Hu. intros m [<-|[]] H. vm_compute in H.
  repeat (destruct H as [H|H]; [discriminate H|]). exact H.
Defined.

Lemma summary_reports_flag_counts_witness :
  exists rest,
    @_generate_summary latin_runtime (scored [low_flag; hate_flag])
    = py "Analysis found " ++ py_repr_int 2 ++ py " potential issue(s)." ++ rest.
Proof.
  apply (proj1 (proj2 (@summary_reports_flag_counts latin_runtime
                         (scored [low_flag; hate_flag])))).
  discriminate.
Defined.

Lemma approve_iff_score_below_ten_witness :
  @applicant_status (@finish_result latin_runtime 0 anonymous [] [low_flag]) = py "passed"
  /\ @applicant_status (@finish_result latin_runtime 0 anonymous [] [low_flag; hate_flag])
     = py "failed".
Proof.
  split.
  - apply (proj1 (proj2 (@approve_iff_score_below_ten latin_runtime 0 anonymous []
                           [low_flag]))).
    vm_compute. reflexivity.
  - apply (proj1 (proj2 (proj2 (@approve_iff_score_below_ten latin_runtime 0 anonymous []
                                  [low_flag; hate_flag])))).
    apply Exists_cons_tl, Exists_cons_hd. right. split; [reflexivity|].
    vm_compute. tauto.
Defined.

